(** * vanilla-node-todo: the HTTP todo service of [server.js]

    A shallow embedding of [server.js]: the values the JavaScript code
    handles, the exceptions it throws and catches, the file that backs
    the collection, and the five route handlers with the dispatcher
    around them.  The theorems at the end state what the handlers do to
    the persisted collection and which response they send. *)

From Stdlib Require Import ZArith String Ascii List Floats.PrimFloat DecimalString.
From Stdlib Require DecimalZ DecimalPos.
From stdpp Require Import base option list strings.

Set Warnings "-register-all".
Local Open Scope Z_scope.

(** ** JavaScript values

    What [JSON.parse] produces, plus [undefined] (a missing property,
    the result of [find] with no match).  Numbers are IEEE doubles.  An
    object keeps its properties in insertion order, one entry per key. *)

Inductive value : Type :=
| VUndefined
| VNull
| VBool (b : bool)
| VNum (n : float)
| VStr (s : string)
| VArr (items : list value)
| VObj (props : list (string * value)).

(** [!!v], the truthiness test behind [!x], [x ? a : b] and [if (x)]. *)
Definition truthy (v : value) : bool :=
  match v with
  | VUndefined | VNull => false
  | VBool b => b
  | VNum n => negb (is_zero n || is_nan n)
  | VStr s => negb (String.eqb s "")
  | VArr _ | VObj _ => true
  end.

(** [a === b].  Primitives compare by value.  Objects and arrays compare
    by identity: every [===] of [server.js] has one operand from the
    stored document and the other from the request (or a literal), so
    two objects are never the same one. *)
Definition strict_eq (a b : value) : bool :=
  match a, b with
  | VUndefined, VUndefined => true
  | VNull, VNull => true
  | VBool x, VBool y => Bool.eqb x y
  | VNum x, VNum y => PrimFloat.eqb x y
  | VStr x, VStr y => String.eqb x y
  | _, _ => false
  end.

(** ** Exceptions *)

Inductive exn : Type :=
| TypeError                     (* a property of null or undefined, a call of a non-function *)
| SyntaxError                   (* JSON.parse in readTodos *)
| Error (message : string)      (* new Error(message) *)
| SystemError (code : string).  (* a rejected fs call, err.code *)

Inductive outcome (A : Type) : Type :=
| Returned (a : A)
| Thrown (e : exn).
Arguments Returned {A} a.
Arguments Thrown {A} e.

Definition obind {A B} (m : outcome A) (k : A -> outcome B) : outcome B :=
  match m with
  | Returned a => k a
  | Thrown e => Thrown e
  end.

(** ** Property access *)

Fixpoint assoc (k : string) (props : list (string * value)) : option value :=
  match props with
  | [] => None
  | (k', v) :: rest => if String.eqb k' k then Some v else assoc k rest
  end.

(** [v.k] for the keys the handlers read ([id], [title], [body]): a
    TypeError on null and undefined, the own property of an object, and
    undefined on arrays and primitives, which carry none of these keys. *)
Definition get_prop (v : value) (k : string) : outcome value :=
  match v with
  | VUndefined | VNull => Thrown TypeError
  | VObj props => Returned (default VUndefined (assoc k props))
  | _ => Returned VUndefined
  end.

Fixpoint assoc_set (k : string) (x : value) (props : list (string * value))
  : list (string * value) :=
  match props with
  | [] => [(k, x)]
  | (k', v) :: rest =>
      if String.eqb k' k then (k', x) :: rest else (k', v) :: assoc_set k x rest
  end.

(** [v.k = x]: an existing property is overwritten where it stands, a new
    one goes last.  On a primitive the write is dropped (sloppy mode); on
    an array it adds a property that [JSON.stringify] does not show. *)
Definition set_prop (v : value) (k : string) (x : value) : outcome value :=
  match v with
  | VUndefined | VNull => Thrown TypeError
  | VObj props => Returned (VObj (assoc_set k x props))
  | _ => Returned v
  end.

(** ** Array methods, with callbacks that may throw *)

Fixpoint find (f : value -> outcome bool) (l : list value) : outcome value :=
  match l with
  | [] => Returned VUndefined
  | t :: rest =>
      match f t with
      | Thrown e => Thrown e
      | Returned true => Returned t
      | Returned false => find f rest
      end
  end.

Fixpoint findIndex_from (i : Z) (f : value -> outcome bool) (l : list value)
  : outcome Z :=
  match l with
  | [] => Returned (-1)
  | t :: rest =>
      match f t with
      | Thrown e => Thrown e
      | Returned true => Returned i
      | Returned false => findIndex_from (i + 1) f rest
      end
  end.

Definition findIndex := findIndex_from 0.

Fixpoint filter (f : value -> outcome bool) (l : list value) : outcome (list value) :=
  match l with
  | [] => Returned []
  | t :: rest =>
      match f t with
      | Thrown e => Thrown e
      | Returned keep =>
          match filter f rest with
          | Thrown e => Thrown e
          | Returned rest' => Returned (if keep then t :: rest' else rest')
          end
      end
  end.

(** [todos.find(f)] and its siblings on whatever [readTodos] returned:
    anything but an array has no such method, and the call throws. *)
Definition Array_find (todos : value) (f : value -> outcome bool) : outcome value :=
  match todos with
  | VArr l => find f l
  | _ => Thrown TypeError
  end.

Definition Array_findIndex (todos : value) (f : value -> outcome bool) : outcome Z :=
  match todos with
  | VArr l => findIndex f l
  | _ => Thrown TypeError
  end.

Definition Array_filter (todos : value) (f : value -> outcome bool) : outcome value :=
  match todos with
  | VArr l => obind (filter f l) (fun l' => Returned (VArr l'))
  | _ => Thrown TypeError
  end.

Definition Array_push (todos : value) (x : value) : outcome value :=
  match todos with
  | VArr l => Returned (VArr (l ++ [x]))
  | _ => Thrown TypeError
  end.

(** [todos.length]. *)
Definition Array_length (todos : value) : Z :=
  match todos with
  | VArr l => Z.of_nat (length l)
  | _ => 0
  end.

(** [todos[idx]] for an index that [findIndex] returned. *)
Definition Array_get (todos : value) (idx : Z) : value :=
  match todos with
  | VArr l => default VUndefined (l !! Z.to_nat idx)
  | _ => VUndefined
  end.

(** The array after [todos[idx].k = x]: the element is an object shared
    with the array, so the array shows the write at the same index. *)
Definition Array_set_prop (todos : value) (idx : Z) (k : string) (x : value)
  : outcome value :=
  obind (set_prop (Array_get todos idx) k x) (fun t' =>
    match todos with
    | VArr l => Returned (VArr (<[Z.to_nat idx := t']> l))
    | _ => Returned todos
    end).

(** ** The world: the file [db/todo.json] and the runtime around it *)

(** The runtime's JSON: [JSON.parse] ([None] when it throws a
    SyntaxError) and [JSON.stringify (v, null, 2)]. *)
Class Runtime : Type := {
  JSON_parse : string -> option value;
  JSON_stringify : value -> string
}.

(** [document]: the content of the file, [None] while it does not exist.
    [saved]: the collections handed to [writeTodos] so far, latest first;
    the code never reads it, it is there so that a theorem can say what
    was saved, or that nothing was. *)
Record world : Type := {
  document : option string;
  saved : list value
}.

(** What a request reads from the clock and the random source. *)
Record env : Type := {
  Date_now : Z;                (* Date.now() *)
  random_10000 : Z;            (* Math.floor(Math.random() * 10000) *)
  toLocaleString : string      (* new Date().toLocaleString() *)
}.

Record request : Type := {
  method : string;
  pathname : string;
  searchParams : list (string * string);
  data : string                (* the chunks of the request body, concatenated *)
}.

(** What [sendJSON] is given: the status code and the value that it
    serializes as the body. *)
Record response : Type := {
  status : Z;
  payload : value
}.

(** An asynchronous computation: it runs on the world and returns or throws. *)
Definition M (A : Type) : Type := world -> outcome A * world.

Definition ret {A} (a : A) : M A := fun w => (Returned a, w).
Definition throw {A} (e : exn) : M A := fun w => (Thrown e, w).
Definition bind {A B} (m : M A) (k : A -> M B) : M B :=
  fun w =>
    match m w with
    | (Returned a, w') => k a w'
    | (Thrown e, w') => (Thrown e, w')
    end.
Definition try_catch {A} (m : M A) (handler : exn -> M A) : M A :=
  fun w =>
    match m w with
    | (Returned a, w') => (Returned a, w')
    | (Thrown e, w') => handler e w'
    end.
Definition lift {A} (o : outcome A) : M A := fun w => (o, w).

Notation "'let*' x ':=' m 'in' k" := (bind m (fun x => k))
  (at level 10, x name, m at level 100, k at level 200).

Definition string_of_Z (z : Z) : string := NilZero.string_of_int (Z.to_int z).

(** [url.searchParams.get(k)]: the first value of the key, or null. *)
Fixpoint searchParams_get (k : string) (q : list (string * string)) : value :=
  match q with
  | [] => VNull
  | (k', v) :: rest => if String.eqb k' k then VStr v else searchParams_get k rest
  end.

(** [err.code] and [err.message === m]. *)
Definition code (e : exn) : option string :=
  match e with
  | SystemError c => Some c
  | _ => None
  end.

(** The messages of the engine's own errors are never the text that
    [parseBody] puts in its error. *)
Definition message_is (e : exn) (m : string) : bool :=
  match e with
  | Error m' => String.eqb m' m
  | _ => false
  end.

Section Server.
Context `{Runtime}.

(** [fs.readFile]: the content, or a rejection with code ENOENT. *)
Definition fs_readFile : M string :=
  fun w =>
    match document w with
    | Some raw => (Returned raw, w)
    | None => (Thrown (SystemError "ENOENT"), w)
    end.

(** [fs.writeFile] replaces the whole content (the directory is there and
    can be written to). *)
Definition fs_writeFile (text : string) : M unit :=
  fun w => (Returned tt, {| document := Some text; saved := saved w |}).

Definition parse (text : string) : outcome value :=
  match JSON_parse text with
  | Some v => Returned v
  | None => Thrown SyntaxError
  end.

Definition readTodos : M value :=
  try_catch
    (let* raw := fs_readFile in
     let* parsed := lift (parse (if String.eqb raw "" then "[]" else raw)) in
     ret parsed)
    (fun err =>
       if bool_decide (code err = Some "ENOENT") then ret (VArr [])
       else throw err).

(** The record of a call of [writeTodos]: it changes nothing on disk. *)
Definition note_saved (todos : value) : M unit :=
  fun w => (Returned tt, {| document := document w; saved := todos :: saved w |}).

Definition writeTodos (todos : value) : M unit :=
  let* _ := note_saved todos in
  fs_writeFile (JSON_stringify todos).

Definition makeId (e : env) : string :=
  string_of_Z (Date_now e) +:+ "-" +:+ string_of_Z (random_10000 e).

Definition sendJSON (status : Z) (payload : value) : M response :=
  ret {| status := status; payload := payload |}.

Definition error_payload (msg : string) : value := VObj [("error", VStr msg)].

Definition parseBody (req : request) : M value :=
  if String.eqb (data req) "" then ret (VObj [])
  else
    match JSON_parse (data req) with
    | Some v => ret v
    | None => throw (Error "Invalid JSON")
    end.

(** [(t) => t.k === x] and [(t) => t.k !== x]. *)
Definition prop_is (k : string) (x : value) (t : value) : outcome bool :=
  obind (get_prop t k) (fun v => Returned (strict_eq v x)).
Definition prop_is_not (k : string) (x : value) (t : value) : outcome bool :=
  obind (get_prop t k) (fun v => Returned (negb (strict_eq v x))).

(** GET /todos *)
Definition get_all : M response :=
  let* todos := readTodos in
  sendJSON 200 todos.

(** GET /todo *)
Definition get_one (req : request) : M response :=
  let id := searchParams_get "id" (searchParams req) in
  let title := searchParams_get "title" (searchParams req) in
  let* todos := readTodos in
  let* todo := lift (if truthy id
                     then Array_find todos (prop_is "id" id)
                     else Array_find todos (prop_is "title" title)) in
  if negb (truthy todo) then sendJSON 404 (error_payload "Todo not found")
  else sendJSON 200 todo.

(** POST /todos/create-todo *)
Definition create_todo (req : request) (e : env) : M response :=
  let* body := parseBody req in
  let* title := lift (get_prop body "title") in
  let* todoBody := lift (get_prop body "body") in
  if negb (truthy title)
     || (negb (truthy todoBody) && negb (strict_eq todoBody (VStr "")))
  then sendJSON 400 (error_payload "title and body are required")
  else
    let* todos := readTodos in
    let* dup := lift (Array_find todos (prop_is "title" title)) in
    if truthy dup
    then sendJSON 409 (error_payload "Todo with this title already exists")
    else
      let newTodo :=
        VObj [("id", VStr (makeId e));
              ("title", title);
              ("body", todoBody);
              ("createdAt", VStr (toLocaleString e))] in
      let* todos' := lift (Array_push todos newTodo) in
      let* _ := writeTodos todos' in
      sendJSON 201 newTodo.

(** PATCH /todos/update-todo *)
Definition update_todo (req : request) : M response :=
  let id := searchParams_get "id" (searchParams req) in
  let titleParam := searchParams_get "title" (searchParams req) in
  let* payload := parseBody req in
  let* newBody := lift (get_prop payload "body") in
  if strict_eq newBody VUndefined
  then sendJSON 400 (error_payload "body is required in payload")
  else
    let* todos := readTodos in
    let* idx := lift (if truthy id
                      then Array_findIndex todos (prop_is "id" id)
                      else Array_findIndex todos (prop_is "title" titleParam)) in
    if idx =? -1 then sendJSON 404 (error_payload "Todo not found")
    else
      let* todos' := lift (Array_set_prop todos idx "body" newBody) in
      let* _ := writeTodos todos' in
      sendJSON 200 (Array_get todos' idx).

(** DELETE /todos/delete-todo *)
Definition delete_todo (req : request) : M response :=
  let id := searchParams_get "id" (searchParams req) in
  let titleParam := searchParams_get "title" (searchParams req) in
  if negb (truthy id) && negb (truthy titleParam)
  then sendJSON 400 (error_payload "id or title query param required")
  else
    let* todos := readTodos in
    let* filtered := lift (Array_filter todos (fun t =>
                             if truthy id then prop_is_not "id" id t
                             else prop_is_not "title" titleParam t)) in
    if Array_length filtered =? Array_length todos
    then sendJSON 404 (error_payload "Todo not found")
    else
      let* _ := writeTodos filtered in
      sendJSON 200 (VObj [("success", VBool true)]).

(** The body of the request listener's [try]. *)
Definition route (req : request) (e : env) : M response :=
  if String.eqb (pathname req) "/todos" && String.eqb (method req) "GET"
  then get_all
  else if String.eqb (pathname req) "/todo" && String.eqb (method req) "GET"
  then get_one req
  else if String.eqb (pathname req) "/todos/create-todo" && String.eqb (method req) "POST"
  then create_todo req e
  else if String.eqb (pathname req) "/todos/update-todo" && String.eqb (method req) "PATCH"
  then update_todo req
  else if String.eqb (pathname req) "/todos/delete-todo" && String.eqb (method req) "DELETE"
  then delete_todo req
  else sendJSON 404 (error_payload "Route Not Found").

(** The listener's [catch]. *)
Definition caught (err : exn) : response :=
  if message_is err "Invalid JSON"
  then {| status := 400; payload := error_payload "Invalid JSON payload" |}
  else {| status := 500; payload := error_payload "Internal Server Error" |}.

(** The request listener: the response sent and the world left behind. *)
Definition serve (req : request) (e : env) (w : world) : response * world :=
  match route req e w with
  | (Returned r, w') => (r, w')
  | (Thrown err, w') => (caught err, w')
  end.

End Server.

(** ** A runtime for the examples

    The fragment of the runtime's JSON that the examples below run on:
    null, booleans, strings that need no escaping, arrays and objects,
    printed as [JSON.stringify (v, null, 2)] prints them, and read back
    from the texts of a given list of documents; any other text is
    rejected.  Numbers are outside the fragment. *)

Definition quote : string := String (ascii_of_nat 34) EmptyString.
Definition newline : string := String (ascii_of_nat 10) EmptyString.

Fixpoint indent (depth : nat) : string :=
  match depth with
  | O => ""
  | S d => "  " +:+ indent d
  end.

Fixpoint lines (items : list string) : string :=
  match items with
  | [] => ""
  | [x] => x
  | x :: rest => x +:+ "," +:+ newline +:+ lines rest
  end.

Fixpoint show (depth : nat) (v : value) : string :=
  match v with
  | VUndefined | VNull | VNum _ => "null"
  | VBool true => "true"
  | VBool false => "false"
  | VStr s => quote +:+ s +:+ quote
  | VArr [] => "[]"
  | VArr items =>
      "[" +:+ newline
      +:+ lines (map (fun x => indent (S depth) +:+ show (S depth) x) items)
      +:+ newline +:+ indent depth +:+ "]"
  | VObj [] => "{}"
  | VObj props =>
      "{" +:+ newline
      +:+ lines (map (fun p => indent (S depth) +:+ quote +:+ fst p +:+ quote
                                 +:+ ": " +:+ show (S depth) (snd p)) props)
      +:+ newline +:+ indent depth +:+ "}"
  end.

Fixpoint read (known : list value) (text : string) : option value :=
  match known with
  | [] => None
  | v :: rest => if String.eqb (show 0 v) text then Some v else read rest text
  end.

Definition example_runtime (known : list value) : Runtime :=
  {| JSON_parse := read known; JSON_stringify := show 0 |}.

Definition todo (id title body createdAt : string) : value :=
  VObj [("id", VStr id); ("title", VStr title); ("body", VStr body);
        ("createdAt", VStr createdAt)].

Definition GET (path : string) (q : list (string * string)) : request :=
  {| method := "GET"; pathname := path; searchParams := q; data := "" |}.
Definition POST (path : string) (body : string) : request :=
  {| method := "POST"; pathname := path; searchParams := []; data := body |}.
Definition PATCH (path : string) (q : list (string * string)) (body : string) : request :=
  {| method := "PATCH"; pathname := path; searchParams := q; data := body |}.
Definition DELETE (path : string) (q : list (string * string)) : request :=
  {| method := "DELETE"; pathname := path; searchParams := q; data := "" |}.

(** The documents and requests of the examples. *)

Definition clock : env :=
  {| Date_now := 1700000000000; random_10000 := 42;
     toLocaleString := "11/14/2023, 10:13:20 PM" |}.

Definition milk : value :=
  todo "1700000000000-42" "buy milk" "" "11/14/2023, 10:13:20 PM".
Definition milk_2pc : value :=
  todo "1700000000000-42" "buy milk" "2%" "11/14/2023, 10:13:20 PM".
Definition eggs : value :=
  todo "1699999999000-7" "eggs" "a dozen" "11/14/2023, 9:56:40 PM".

Definition milk_payload : value := VObj [("title", VStr "buy milk"); ("body", VStr "")].
Definition null_body_payload : value := VObj [("title", VStr "buy milk"); ("body", VNull)].
Definition body_payload : value := VObj [("body", VStr "2%")].

Definition js : Runtime :=
  example_runtime
    [VArr []; milk_payload; null_body_payload; body_payload;
     VArr [milk]; VArr [eggs]; VArr [eggs; milk]; VArr [eggs; milk_2pc];
     VArr [milk_2pc]].

(** A store whose document is the text of [c], with nothing saved yet. *)
Definition on_disk (c : value) : world :=
  {| document := Some (show 0 c); saved := [] |}.

Definition no_file : world := {| document := None; saved := [] |}.

Definition create_milk : request := POST "/todos/create-todo" (show 0 milk_payload).

Definition patch_milk : request :=
  PATCH "/todos/update-todo" [("title", "buy milk")] (show 0 body_payload).

(** Create a record, give it a body, delete the older one, list. *)
Definition session : list (request * env) :=
  [(create_milk, clock);
   (patch_milk, clock);
   (DELETE "/todos/delete-todo" [("title", "eggs")], clock);
   (GET "/todos" [], clock)].

(** More documents and payloads, for the further examples. *)

Definition bread_payload : value := VObj [("title", VStr "bread"); ("body", VStr "")].
Definition null_patch : value := VObj [("body", VNull)].
Definition tagged_payload : value :=
  VObj [("title", VArr [VStr "shop"]); ("body", VStr "")].

(** The record that [clock] gives to the bread: its id is the id of [milk]. *)
Definition bread : value :=
  todo "1700000000000-42" "bread" "" "11/14/2023, 10:13:20 PM".

Definition tagged : value :=
  VObj [("id", VStr "1700000000000-42"); ("title", VArr [VStr "shop"]);
        ("body", VStr ""); ("createdAt", VStr "11/14/2023, 10:13:20 PM")].

Definition js2 : Runtime :=
  example_runtime
    [VArr []; VNull; VObj []; bread_payload; null_patch; tagged_payload; body_payload;
     VArr [milk]; VArr [milk; bread]; VArr [eggs; milk]; VArr [eggs; milk; tagged];
     VArr [eggs; milk; milk]; VArr [VNull; milk]].

(** The same instant, told in another locale. *)
Definition clock_fr : env :=
  {| Date_now := 1700000000000; random_10000 := 42;
     toLocaleString := "14/11/2023 22:13:20" |}.

(** ** Records, keys and runs *)

(** Null and undefined: the values whose properties cannot be read. *)
Definition nullish (v : value) : bool :=
  match v with
  | VUndefined | VNull => true
  | _ => false
  end.

(** [has k x t]: the element [t] carries [x] under the key [k]. *)
Definition has (k : string) (x : value) (t : value) : bool :=
  match get_prop t k with
  | Returned v => strict_eq v x
  | Thrown _ => false
  end.

(** A collection whose reads never throw. *)
Definition records (l : list value) : Prop := Forall (fun t => nullish t = false) l.

(** The ids of a collection, in order. *)
Definition ids (l : list value) : list (outcome value) :=
  map (fun t => get_prop t "id") l.

(** [same_record a b]: [b] is [a], possibly after a write to its body. *)
Definition same_record (a b : value) : Prop :=
  a = b \/ exists x, set_prop a "body" x = Returned b.

(** The record that the create route builds. *)
Definition created (e : env) (title body : value) : value :=
  VObj [("id", VStr (makeId e)); ("title", title); ("body", body);
        ("createdAt", VStr (toLocaleString e))].

Definition internal_error : response :=
  {| status := 500; payload := error_payload "Internal Server Error" |}.

Definition validation_error : response :=
  {| status := 400; payload := error_payload "title and body are required" |}.

(** The key that get-one, update and delete look a record up by: the id
    when the query carries a truthy one, the title otherwise. *)
Definition lookup_key (q : list (string * string)) : string * value :=
  if truthy (searchParams_get "id" q)
  then ("id", searchParams_get "id" q)
  else ("title", searchParams_get "title" q).

Definition only_id (req : request) (id : string) : request :=
  {| method := method req; pathname := pathname req;
     searchParams := [("id", id)]; data := data req |}.

Definition not_found : response :=
  {| status := 404; payload := error_payload "Todo not found" |}.

Definition deleted : response :=
  {| status := 200; payload := VObj [("success", VBool true)] |}.

(** The three ways a request changes the collection, each by its route. *)
Inductive change (req : request) (l : list value) : list value -> Prop :=
| change_create (r : value) :
    pathname req = "/todos/create-todo" -> method req = "POST" ->
    change req l (l ++ [r])
| change_update (i : nat) (t t' x : value) :
    pathname req = "/todos/update-todo" -> method req = "PATCH" ->
    l !! i = Some t -> set_prop t "body" x = Returned t' ->
    change req l (<[i := t']> l)
| change_delete (l' : list value) :
    pathname req = "/todos/delete-todo" -> method req = "DELETE" ->
    sublist l' l -> change req l l'.

(** The other answers of the listener. *)
Definition route_not_found : response :=
  {| status := 404; payload := error_payload "Route Not Found" |}.
Definition invalid_json : response :=
  {| status := 400; payload := error_payload "Invalid JSON payload" |}.
Definition body_required : response :=
  {| status := 400; payload := error_payload "body is required in payload" |}.
Definition key_required : response :=
  {| status := 400; payload := error_payload "id or title query param required" |}.
Definition conflict : response :=
  {| status := 409; payload := error_payload "Todo with this title already exists" |}.

(** The (path, method) pairs that the listener has a handler for. *)
Definition known_route (req : request) : bool :=
  String.eqb (pathname req) "/todos" && String.eqb (method req) "GET"
  || String.eqb (pathname req) "/todo" && String.eqb (method req) "GET"
  || String.eqb (pathname req) "/todos/create-todo" && String.eqb (method req) "POST"
  || String.eqb (pathname req) "/todos/update-todo" && String.eqb (method req) "PATCH"
  || String.eqb (pathname req) "/todos/delete-todo" && String.eqb (method req) "DELETE".

Definition is_create (req : request) : Prop :=
  pathname req = "/todos/create-todo" /\ method req = "POST".
Definition is_update (req : request) : Prop :=
  pathname req = "/todos/update-todo" /\ method req = "PATCH".
Definition is_delete (req : request) : Prop :=
  pathname req = "/todos/delete-todo" /\ method req = "DELETE".

(** The get-one request with the query [q]. *)
Definition fetch (q : list (string * string)) : request := GET "/todo" q.

(** No hyphen in the string. *)
Fixpoint no_hyphen (s : string) : bool :=
  match s with
  | EmptyString => true
  | String c rest => negb (Ascii.eqb c "-") && no_hyphen rest
  end.

(** The titles of a collection that are strings, in order. *)
Definition string_title (t : value) : option string :=
  match get_prop t "title" with
  | Returned (VStr s) => Some s
  | _ => None
  end.
Definition string_titles (l : list value) : list string := omap string_title l.

(** [b] has every property of [a] but the body as [a] has it. *)
Definition keeps_fields (a b : value) : Prop :=
  forall k, k <> "body" -> get_prop b k = get_prop a k.

Section Runs.
Context `{Runtime}.

(** A session: the requests served one after the other. *)
Fixpoint serve_all (reqs : list (request * env)) (w : world) : list response * world :=
  match reqs with
  | [] => ([], w)
  | (req, e) :: rest =>
      let (r, w1) := serve req e w in
      let (rs, w2) := serve_all rest w1 in
      (r :: rs, w2)
  end.

(** The elements that the filter of the delete route keeps. *)
Definition delete_keeps (q : list (string * string)) (t : value) : bool :=
  negb (has (lookup_key q).1 (lookup_key q).2 t).

(** Where the element at index [i] of [l] stands in [List.filter p l]:
    after the kept elements that stand before it, or nowhere when the
    filter leaves it out. *)
Definition index_after_filter (p : value -> bool) (l : list value) (i : nat)
  : option nat :=
  match l !! i with
  | Some t => if p t then Some (length (List.filter p (take i l))) else None
  | None => None
  end.

(** Where the record at index [i] of the loaded collection stands after
    one request: a delete answered 200 has filtered the collection, and any
    other request moves no record. *)
Definition index_after (req : request) (e : env) (w : world) (i : nat) : option nat :=
  if String.eqb (pathname req) "/todos/delete-todo"
     && String.eqb (method req) "DELETE"
     && (status (serve req e w).1 =? 200)
  then
    match (readTodos w).1 with
    | Returned (VArr l) => index_after_filter (delete_keeps (searchParams req)) l i
    | _ => Some i
    end
  else Some i.

(** The same after a session: [None] once a delete has removed the record. *)
Fixpoint position_after (reqs : list (request * env)) (w : world) (i : nat)
  : option nat :=
  match reqs with
  | [] => Some i
  | (req, e) :: rest =>
      match index_after req e w i with
      | Some j => position_after rest (serve req e w).2 j
      | None => None
      end
  end.

(** The collection [c] is on disk as [writeTodos] leaves it. *)
Definition stored (c : value) (w : world) : world :=
  {| document := Some (JSON_stringify c); saved := c :: saved w |}.

(** The document written for [c] loads back as [c]. *)
Definition faithful (c : value) : Prop :=
  forall w, readTodos (stored c w) = (Returned c, stored c w).

End Runs.

(** * Properties *)

Section Properties.
Context `{Runtime}.

Ltac run :=
  unfold bind, lift, ret, throw, sendJSON, try_catch in *; simpl in *.

Lemma readTodos_world (w : world) : (readTodos w).2 = w.
Proof.
  unfold readTodos, fs_readFile, parse. run.
  destruct (document w) as [raw|]; simpl; [|reflexivity].
  destruct (JSON_parse _); reflexivity.
Qed.

Lemma readTodos_eq (w : world) : readTodos w = ((readTodos w).1, w).
Proof. rewrite <- (readTodos_world w) at 3. apply surjective_pairing. Qed.

Lemma readTodos_absent (w : world) :
  document w = None -> readTodos w = (Returned (VArr []), w).
Proof. intros E. unfold readTodos, fs_readFile. run. rewrite E. reflexivity. Qed.

Lemma readTodos_content (w : world) (raw : string) :
  document w = Some raw ->
  readTodos w = (parse (if String.eqb raw "" then "[]" else raw), w).
Proof.
  intros E. unfold readTodos, fs_readFile, parse. run. rewrite E.
  destruct (JSON_parse _); reflexivity.
Qed.

Lemma parseBody_empty (req : request) (w : world) :
  data req = "" -> parseBody req w = (Returned (VObj []), w).
Proof. intros E. unfold parseBody. rewrite E. reflexivity. Qed.

Lemma parseBody_world (req : request) (w : world) : (parseBody req w).2 = w.
Proof.
  unfold parseBody. destruct (String.eqb _ _); [reflexivity|].
  destruct (JSON_parse _); reflexivity.
Qed.

Lemma route_get_all req e :
  pathname req = "/todos" -> method req = "GET" -> route req e = get_all.
Proof. intros P Mt. unfold route. rewrite P, Mt. reflexivity. Qed.

Lemma route_get_one req e :
  pathname req = "/todo" -> method req = "GET" -> route req e = get_one req.
Proof. intros P Mt. unfold route. rewrite P, Mt. reflexivity. Qed.

Lemma route_create req e :
  pathname req = "/todos/create-todo" -> method req = "POST" ->
  route req e = create_todo req e.
Proof. intros P Mt. unfold route. rewrite P, Mt. reflexivity. Qed.

Lemma route_update req e :
  pathname req = "/todos/update-todo" -> method req = "PATCH" ->
  route req e = update_todo req.
Proof. intros P Mt. unfold route. rewrite P, Mt. reflexivity. Qed.

Lemma route_delete req e :
  pathname req = "/todos/delete-todo" -> method req = "DELETE" ->
  route req e = delete_todo req.
Proof. intros P Mt. unfold route. rewrite P, Mt. reflexivity. Qed.

(** *** Reading a collection of records *)

Lemma prop_is_has k x t :
  nullish t = false -> prop_is k x t = Returned (has k x t).
Proof. destruct t; intros N; try discriminate; reflexivity. Qed.

Lemma prop_is_not_has k x t :
  nullish t = false -> prop_is_not k x t = Returned (negb (has k x t)).
Proof. destruct t; intros N; try discriminate; reflexivity. Qed.

Lemma prop_is_true k x t : prop_is k x t = Returned true -> has k x t = true.
Proof.
  unfold prop_is, has. destruct (get_prop t k); simpl; [|discriminate].
  congruence.
Qed.

(** An element that carries a defined value under a key is an object. *)
Lemma has_object k x t :
  has k x t = true -> x <> VUndefined -> exists props, t = VObj props.
Proof.
  unfold has. destruct t; simpl; try discriminate; eauto;
    destruct x; simpl; try discriminate; congruence.
Qed.

Lemma has_truthy k x t : has k x t = true -> x <> VUndefined -> truthy t = true.
Proof. intros Hh Hx. destruct (has_object _ _ _ Hh Hx) as [props ->]. reflexivity. Qed.

Lemma find_records k x l :
  records l ->
  find (prop_is k x) l = Returned (default VUndefined (List.find (has k x) l)).
Proof.
  induction 1 as [|t l Ht _ IH]; simpl; [reflexivity|].
  rewrite (prop_is_has _ _ _ Ht). destruct (has k x t); [reflexivity|exact IH].
Qed.

Lemma find_none k x l :
  Forall (fun t => prop_is k x t = Returned false) l ->
  find (prop_is k x) l = Returned VUndefined.
Proof.
  induction 1 as [|t l Ht _ IH]; simpl; [reflexivity|]. rewrite Ht. exact IH.
Qed.

(** [find] stops at the first match: what follows it is not read. *)
Lemma find_first k x pre t post :
  Forall (fun t => prop_is k x t = Returned false) pre ->
  prop_is k x t = Returned true ->
  find (prop_is k x) (pre ++ t :: post) = Returned t.
Proof.
  induction 1 as [|u pre Hu _ IH]; simpl; intros Ht.
  - rewrite Ht. reflexivity.
  - rewrite Hu. auto.
Qed.

Lemma findIndex_from_none i k x l :
  Forall (fun t => prop_is k x t = Returned false) l ->
  findIndex_from i (prop_is k x) l = Returned (-1).
Proof.
  intros F. revert i. induction F as [|t l Ht _ IH]; simpl; intros i; [reflexivity|].
  rewrite Ht. apply IH.
Qed.

Lemma findIndex_from_first i k x pre t post :
  Forall (fun t => prop_is k x t = Returned false) pre ->
  prop_is k x t = Returned true ->
  findIndex_from i (prop_is k x) (pre ++ t :: post)
  = Returned (i + Z.of_nat (length pre)).
Proof.
  intros F Ht. revert i. induction F as [|u pre Hu _ IH]; simpl; intros i.
  - rewrite Ht. f_equal. lia.
  - rewrite Hu, IH. f_equal. lia.
Qed.

(** What [findIndex] returns: -1 after reading every element, or the
    index of the first element its callback accepts. *)
Lemma findIndex_from_inv i f l idx :
  findIndex_from i f l = Returned idx ->
  (idx = -1 /\ Forall (fun t => f t = Returned false) l)
  \/ (exists pre t post,
        l = pre ++ t :: post /\ idx = i + Z.of_nat (length pre)
        /\ Forall (fun t => f t = Returned false) pre /\ f t = Returned true).
Proof.
  revert i. induction l as [|u l IH]; simpl; intros i E.
  - left. split; [congruence|constructor].
  - destruct (f u) as [[|]|] eqn:Fu; try discriminate.
    + right. exists [], u, l. simpl. repeat split; auto. injection E as <-. lia.
    + destruct (IH _ E) as [[-> F]|(pre & t & post & -> & -> & F & Ft)].
      * left. split; [reflexivity|]. constructor; assumption.
      * right. exists (u :: pre), t, post. simpl. repeat split; auto.
        rewrite Nat2Z.inj_succ. lia.
Qed.

Lemma filter_records k x l :
  records l ->
  filter (prop_is_not k x) l
  = Returned (List.filter (fun t => negb (has k x t)) l).
Proof.
  induction 1 as [|t l Ht _ IH]; simpl; [reflexivity|].
  rewrite (prop_is_not_has _ _ _ Ht), IH. destruct (has k x t); reflexivity.
Qed.

(** [filter] keeps a subsequence: nothing is added or moved. *)
Lemma filter_sublist f l l' : filter f l = Returned l' -> sublist l' l.
Proof.
  revert l'. induction l as [|t l IH]; simpl; intros l' E.
  - injection E as <-. constructor.
  - destruct (f t) as [keep|]; [|discriminate].
    destruct (filter f l) as [r|]; [|discriminate]. injection E as <-.
    destruct keep; constructor; auto.
Qed.

(** *** The store *)

(** A failed load reaches the client as the 500 answer, from every
    handler that gets as far as loading. *)
Lemma load_failure req e w err :
  readTodos w = (Thrown err, w) ->
  message_is err "Invalid JSON" = false ->
  (serve req e w).2 = w
  /\ ((serve req e w).1 = internal_error
      \/ status (serve req e w).1 = 400
      \/ (serve req e w).1
         = {| status := 404; payload := error_payload "Route Not Found" |}).
Proof.
  intros L Msg. unfold serve, route.
  repeat match goal with
         | |- context [if ?c then _ else _] =>
             lazymatch c with
             | andb (String.eqb (pathname _) _) _ => destruct c
             end
         end.
  - unfold get_all. run. rewrite L. unfold caught. rewrite Msg. simpl. auto.
  - unfold get_one. run. rewrite L. unfold caught. rewrite Msg. simpl. auto.
  - unfold create_todo. run.
    pose proof (parseBody_world req w) as PW.
    destruct (parseBody req w) as [[body|pe] w1]; simpl in PW; subst w1.
    2: { unfold caught. destruct (message_is pe _); simpl; auto. }
    destruct (get_prop body "title") as [title|e1];
      [|unfold caught; destruct (message_is e1 _); simpl; auto].
    destruct (get_prop body "body") as [tb|e2];
      [|unfold caught; destruct (message_is e2 _); simpl; auto].
    destruct (_ || _); simpl; [auto|]. rewrite L. unfold caught. rewrite Msg. simpl. auto.
  - unfold update_todo. run.
    pose proof (parseBody_world req w) as PW.
    destruct (parseBody req w) as [[body|pe] w1]; simpl in PW; subst w1.
    2: { unfold caught. destruct (message_is pe _); simpl; auto. }
    destruct (get_prop body "body") as [tb|e2];
      [|unfold caught; destruct (message_is e2 _); simpl; auto].
    destruct (strict_eq tb VUndefined); simpl; [auto|]. rewrite L. unfold caught. rewrite Msg. simpl. auto.
  - unfold delete_todo. run.
    destruct (_ && _); simpl; [auto|]. rewrite L. unfold caught. rewrite Msg. simpl. auto.
  - simpl. auto.
Qed.

(** C8. [readTodos] returns the empty collection when the document does
    not exist, and also when it exists with empty content (the runtime
    reads the text of the empty array as the empty array); content that is
    not empty and does not parse makes it throw, and the client gets the
    500 answer from the routes that list and fetch (and from every other
    route unless the request is turned down before the load); content
    that parses is returned as it is, whatever its shape, and listed as
    it is. *)
Theorem readTodos_cases (w : world) :
  (document w = None -> readTodos w = (Returned (VArr []), w))
  /\ (document w = Some "" -> JSON_parse "[]" = Some (VArr []) ->
      readTodos w = (Returned (VArr []), w))
  /\ (forall raw, document w = Some raw -> raw <> "" -> JSON_parse raw = None ->
      readTodos w = (Thrown SyntaxError, w)
      /\ (forall e q, serve (GET "/todos" q) e w = (internal_error, w))
      /\ (forall e q, serve (GET "/todo" q) e w = (internal_error, w))
      /\ (forall req e,
            (serve req e w).2 = w
            /\ ((serve req e w).1 = internal_error
                \/ status (serve req e w).1 = 400
                \/ (serve req e w).1
                   = {| status := 404; payload := error_payload "Route Not Found" |})))
  /\ (forall raw v, document w = Some raw -> raw <> "" -> JSON_parse raw = Some v ->
      readTodos w = (Returned v, w)
      /\ (forall e q, serve (GET "/todos" q) e w = ({| status := 200; payload := v |}, w))).
Proof.
  split; [apply readTodos_absent|].
  split.
  { intros D P. rewrite (readTodos_content _ _ D). unfold parse. simpl.
    rewrite P. reflexivity. }
  split.
  - intros raw D Ne P.
    assert (L : readTodos w = (Thrown SyntaxError, w)).
    { rewrite (readTodos_content _ _ D). unfold parse.
      apply String.eqb_neq in Ne. rewrite Ne, P. reflexivity. }
    split; [exact L|].
    split; [|split].
    + intros e q. unfold serve, route, get_all. run. rewrite L. reflexivity.
    + intros e q. unfold serve, route, get_one. run. rewrite L. reflexivity.
    + intros req e. apply (load_failure req e w SyntaxError L). reflexivity.
  - intros raw v D Ne P.
    assert (L : readTodos w = (Returned v, w)).
    { rewrite (readTodos_content _ _ D). unfold parse.
      apply String.eqb_neq in Ne. rewrite Ne, P. reflexivity. }
    split; [exact L|].
    intros e q. unfold serve, route, get_all. run. rewrite L. reflexivity.
Qed.

(** *** The request body *)

(** C10. A request with no body at all parses as the empty object, not as
    a malformed payload: the create route then answers with its own 400
    (title and body are required) and the update route with its own 400
    (body is required in payload), and neither touches the store. *)
Theorem empty_body_is_empty_object (req : request) (e : env) (w : world) :
  data req = "" ->
  parseBody req w = (Returned (VObj []), w)
  /\ (pathname req = "/todos/create-todo" -> method req = "POST" ->
      serve req e w
      = ({| status := 400; payload := error_payload "title and body are required" |}, w))
  /\ (pathname req = "/todos/update-todo" -> method req = "PATCH" ->
      serve req e w
      = ({| status := 400; payload := error_payload "body is required in payload" |}, w)).
Proof.
  intros E. pose proof (parseBody_empty req w E) as PB.
  split; [exact PB|]. split; intros P Mt; unfold serve.
  - rewrite (route_create _ _ P Mt). unfold create_todo. run. rewrite PB. reflexivity.
  - rewrite (route_update _ _ P Mt). unfold update_todo. run. rewrite PB. reflexivity.
Qed.

(** *** Create *)

Lemma writeTodos_stored (c : value) (w : world) :
  writeTodos c w = (Returned tt, stored c w).
Proof. reflexivity. Qed.

Lemma find_exists k x l :
  records l -> Exists (fun t => has k x t = true) l ->
  exists t, find (prop_is k x) l = Returned t /\ has k x t = true /\ In t l.
Proof.
  intros R Ex. rewrite (find_records _ _ _ R).
  destruct (List.find (has k x) l) as [t|] eqn:F.
  - apply List.find_some in F as [I Ht]. exists t. auto.
  - apply Exists_exists in Ex as (t & I & Ht).
    rewrite list_elem_of_In in I.
    rewrite (List.find_none _ _ F t I) in Ht. discriminate.
Qed.

(** A payload that passes the checks of the create route, on a collection
    with no such title: the record goes last and the whole is saved. *)
Lemma create_new req e w body title tb todos :
  parseBody req w = (Returned body, w) ->
  get_prop body "title" = Returned title ->
  get_prop body "body" = Returned tb ->
  truthy title = true ->
  truthy tb = true \/ tb = VStr "" ->
  readTodos w = (Returned (VArr todos), w) ->
  Forall (fun t => prop_is "title" title t = Returned false) todos ->
  create_todo req e w
  = (Returned {| status := 201; payload := created e title tb |},
     stored (VArr (todos ++ [created e title tb])) w).
Proof.
  intros PB T B Tt Tb L F. unfold create_todo. run. rewrite PB, T, B, Tt. simpl.
  assert (negb (truthy tb) && negb (strict_eq tb (VStr "")) = false) as ->.
  { destruct Tb as [-> | ->]; reflexivity. }
  rewrite L. simpl. rewrite (find_none _ _ _ F). reflexivity.
Qed.

(** The same payload on a collection that has the title already. *)
Lemma create_conflict req e w body title tb todos :
  parseBody req w = (Returned body, w) ->
  get_prop body "title" = Returned title ->
  get_prop body "body" = Returned tb ->
  truthy title = true ->
  truthy tb = true \/ tb = VStr "" ->
  readTodos w = (Returned (VArr todos), w) ->
  records todos ->
  Exists (fun t => has "title" title t = true) todos ->
  create_todo req e w
  = (Returned {| status := 409;
                 payload := error_payload "Todo with this title already exists" |},
     w).
Proof.
  intros PB T B Tt Tb L R Ex. unfold create_todo. run. rewrite PB, T, B, Tt. simpl.
  assert (negb (truthy tb) && negb (strict_eq tb (VStr "")) = false) as ->.
  { destruct Tb as [-> | ->]; reflexivity. }
  rewrite L. simpl.
  destruct (find_exists _ _ _ R Ex) as (t & -> & Ht & _).
  rewrite (has_truthy _ _ _ Ht); [reflexivity|].
  intros ->. discriminate.
Qed.

(** C1, as the code has it. A create request whose payload carries a
    non-empty title and a body that the route accepts (any string, the
    empty one too, or any other value that is not falsy), on a
    loaded collection of records none of which has that title: the
    collection gets exactly one more record, at its end, made of the
    generated id, the given title and body and the creation time; this
    longer collection is what is saved, and the answer is 201 with the new
    record. *)
Theorem create_appends
  (req : request) (e : env) (w : world) (json title body : value)
  (todos : list value) :
  pathname req = "/todos/create-todo" -> method req = "POST" ->
  parseBody req w = (Returned json, w) ->
  get_prop json "title" = Returned title -> truthy title = true ->
  get_prop json "body" = Returned body ->
  truthy body = true \/ body = VStr "" ->
  readTodos w = (Returned (VArr todos), w) ->
  records todos ->
  Forall (fun t => has "title" title t = false) todos ->
  let r := VObj [("id", VStr (makeId e)); ("title", title);
                 ("body", body); ("createdAt", VStr (toLocaleString e))] in
  serve req e w
  = ({| status := 201; payload := r |},
     {| document := Some (JSON_stringify (VArr (todos ++ [r])));
        saved := VArr (todos ++ [r]) :: saved w |})
  /\ length (todos ++ [r]) = S (length todos)
  /\ (forall i t, todos !! i = Some t -> (todos ++ [r]) !! i = Some t)
  /\ (todos ++ [r]) !! length todos = Some r.
Proof.
  intros P Mt PB T Tt B Tb L R F r.
  split; [|split; [|split]].
  - unfold serve. rewrite (route_create _ _ P Mt).
    rewrite (create_new req e w json title body todos PB T B Tt Tb L); [reflexivity|].
    unfold records in R. rewrite Forall_forall in R, F |- *. intros t I.
    rewrite (prop_is_has _ _ _ (R t I)), (F t I). reflexivity.
  - rewrite length_app. simpl. lia.
  - intros i t Hi. apply lookup_app_l_Some. exact Hi.
  - apply list_lookup_middle. reflexivity.
Qed.

(** C2. A create request whose payload passes the checks, on a loaded
    collection that already has a record with the same title: the answer
    is 409, nothing is saved and the document stays as it was, so the
    collection keeps its records and its size. *)
Theorem create_duplicate_conflict
  (req : request) (e : env) (w : world) (json title body : value)
  (todos : list value) :
  pathname req = "/todos/create-todo" -> method req = "POST" ->
  parseBody req w = (Returned json, w) ->
  get_prop json "title" = Returned title ->
  get_prop json "body" = Returned body ->
  truthy title = true ->
  truthy body = true \/ body = VStr "" ->
  readTodos w = (Returned (VArr todos), w) ->
  records todos ->
  Exists (fun t => has "title" title t = true) todos ->
  serve req e w
  = ({| status := 409;
        payload := error_payload "Todo with this title already exists" |}, w)
  /\ document (serve req e w).2 = document w
  /\ saved (serve req e w).2 = saved w
  /\ readTodos (serve req e w).2 = (Returned (VArr todos), (serve req e w).2).
Proof.
  intros P Mt PB T B Tt Tb L R Ex.
  assert (S : serve req e w
              = ({| status := 409;
                    payload := error_payload "Todo with this title already exists" |}, w)).
  { unfold serve. rewrite (route_create _ _ P Mt).
    rewrite (create_conflict req e w json title body todos PB T B Tt Tb L R Ex).
    reflexivity. }
  rewrite S. simpl. auto.
Qed.

Lemma strict_eq_empty (v : value) : strict_eq v (VStr "") = true <-> v = VStr "".
Proof.
  destruct v; simpl; try (split; [discriminate|congruence]).
  rewrite String.eqb_eq. split; congruence.
Qed.

Lemma caught_not_validation (err : exn) : caught err <> validation_error.
Proof. unfold caught. destruct (message_is err _); discriminate. Qed.

(** Once the payload has passed the checks, no later step of the create
    route answers with the validation error. *)
Lemma create_checked req e w json title body :
  parseBody req w = (Returned json, w) ->
  get_prop json "title" = Returned title ->
  get_prop json "body" = Returned body ->
  negb (truthy title)
  || negb (truthy body) && negb (strict_eq body (VStr "")) = false ->
  (serve req e w).1 <> validation_error.
Proof.
  intros PB T B V. unfold serve, route.
  repeat match goal with
         | |- context [if ?c then _ else _] =>
             lazymatch c with
             | andb (String.eqb (pathname _) _) _ => destruct c
             end
         end;
    [unfold get_all|unfold get_one|unfold create_todo|unfold update_todo|unfold delete_todo| ];
    run; try rewrite PB; try rewrite T; try rewrite B; try rewrite V; simpl.
  all: try rewrite (readTodos_eq w).
  all: repeat match goal with
         | |- (match (match ?x with _ => _ end) with _ => _ end).1 <> _ =>
             destruct x; simpl
         | |- (if ?c then _ else _).1 <> _ => destruct c; simpl
         | |- (match (if ?c then _ else _) with _ => _ end).1 <> _ =>
             destruct c; simpl
         | |- (match (match ?x with _ => _ end) _ with _ => _ end).1 <> _ =>
             destruct x; simpl
         end.
  all: try apply caught_not_validation; try discriminate.
Qed.

Lemma create_rejected req e w json title body :
  pathname req = "/todos/create-todo" -> method req = "POST" ->
  parseBody req w = (Returned json, w) ->
  get_prop json "title" = Returned title ->
  get_prop json "body" = Returned body ->
  negb (truthy title)
  || negb (truthy body) && negb (strict_eq body (VStr "")) = true ->
  serve req e w = (validation_error, w).
Proof.
  intros P Mt PB T B V. unfold serve. rewrite (route_create _ _ P Mt).
  unfold create_todo. run. rewrite PB, T, B, V. reflexivity.
Qed.

Lemma check_fails (title body : value) :
  negb (truthy title)
  || negb (truthy body) && negb (strict_eq body (VStr "")) = true
  <-> truthy title = false \/ (truthy body = false /\ body <> VStr "").
Proof.
  rewrite <- strict_eq_empty.
  destruct (truthy title), (truthy body), (strict_eq body (VStr "")); simpl;
    split; auto; intros [?|[? ?]]; congruence.
Qed.

(** C3, as the code has it. The create route answers with its validation
    error (400, title and body are required) exactly when the request body
    parses to a payload whose properties can be read and either the title
    is missing or falsy (null, false, 0, the empty string) or the body is
    missing or a falsy value other than the empty string (null, false, 0).
    So a body that is a string, the empty one included, is never the
    reason for the error. *)
Theorem create_validation (req : request) (e : env) (w : world) :
  pathname req = "/todos/create-todo" -> method req = "POST" ->
  ((serve req e w).1 = validation_error
   <-> exists json title body,
         parseBody req w = (Returned json, w)
         /\ get_prop json "title" = Returned title
         /\ get_prop json "body" = Returned body
         /\ (truthy title = false \/ (truthy body = false /\ body <> VStr "")))
  /\ (forall json title s,
        parseBody req w = (Returned json, w) ->
        get_prop json "title" = Returned title -> truthy title = true ->
        get_prop json "body" = Returned (VStr s) ->
        (serve req e w).1 <> validation_error).
Proof.
  intros P Mt. split; [split|].
  - intros E.
    pose proof (parseBody_world req w) as PW.
    destruct (parseBody req w) as [[json|pe] w1] eqn:PB; simpl in PW; subst w1.
    + destruct (get_prop json "title") as [title|e1] eqn:T.
      * destruct (get_prop json "body") as [body|e2] eqn:B.
        -- exists json, title, body. repeat split; auto. apply check_fails.
           destruct (negb (truthy title) || _) eqn:V; [reflexivity|].
           destruct (create_checked req e w json title body PB T B V E).
        -- exfalso. revert E. unfold serve. rewrite (route_create _ _ P Mt).
           unfold create_todo. run. rewrite PB, T, B. simpl.
           apply caught_not_validation.
      * exfalso. revert E. unfold serve. rewrite (route_create _ _ P Mt).
        unfold create_todo. run. rewrite PB, T. simpl.
        apply caught_not_validation.
    + exfalso. revert E. unfold serve. rewrite (route_create _ _ P Mt).
      unfold create_todo. run. rewrite PB. simpl. apply caught_not_validation.
  - intros (json & title & body & PB & T & B & V). apply check_fails in V.
    rewrite (create_rejected req e w json title body); auto.
  - intros json title s PB T Tt B.
    apply (create_checked req e w json title (VStr s) PB T B).
    rewrite Tt. simpl. destruct s; reflexivity.
Qed.

(** *** The lookup key *)

Lemma searchParams_get_defined k q : searchParams_get k q <> VUndefined.
Proof.
  induction q as [|[k' v] q IH]; simpl; [discriminate|].
  destruct (String.eqb k' k); [discriminate|exact IH].
Qed.

Lemma lookup_key_defined q : (lookup_key q).2 <> VUndefined.
Proof.
  unfold lookup_key. destruct (truthy _); simpl; apply searchParams_get_defined.
Qed.

(** *** Update *)

Lemma strict_eq_undefined (v : value) :
  strict_eq v VUndefined = false <-> v <> VUndefined.
Proof. destruct v; simpl; split; congruence. Qed.

Lemma insert_middle (pre post : list value) (t y : value) :
  <[length pre := y]> (pre ++ t :: post) = pre ++ y :: post.
Proof.
  replace (length pre) with (length pre + 0)%nat by lia.
  rewrite insert_app_r. reflexivity.
Qed.

(** What the update route does: either it leaves the store alone and its
    answer is not a 200, or it found a record by the lookup key, wrote the
    new body into it where it stands, saved the collection and answered
    with the record. *)
Lemma update_cases req w o w' :
  update_todo req w = (o, w') ->
  (w' = w /\ forall resp, o = Returned resp -> status resp <> 200)
  \/ (exists json newBody pre props post,
        parseBody req w = (Returned json, w)
        /\ get_prop json "body" = Returned newBody
        /\ newBody <> VUndefined
        /\ readTodos w = (Returned (VArr (pre ++ VObj props :: post)), w)
        /\ Forall (fun t => prop_is (lookup_key (searchParams req)).1
                              (lookup_key (searchParams req)).2 t
                            = Returned false) pre
        /\ has (lookup_key (searchParams req)).1
               (lookup_key (searchParams req)).2 (VObj props) = true
        /\ o = Returned {| status := 200;
                           payload := VObj (assoc_set "body" newBody props) |}
        /\ w' = stored (VArr (pre ++ VObj (assoc_set "body" newBody props) :: post)) w).
Proof.
  unfold update_todo. run.
  pose proof (parseBody_world req w) as PW.
  destruct (parseBody req w) as [[json|pe] w1] eqn:PB; simpl in PW; subst w1.
  2: { intros [= <- <-]. left. split; [reflexivity|discriminate]. }
  destruct (get_prop json "body") as [newBody|e2] eqn:B.
  2: { intros [= <- <-]. left. split; [reflexivity|discriminate]. }
  destruct (strict_eq newBody VUndefined) eqn:U.
  { intros [= <- <-]. left. split; [reflexivity|]. intros ? [= <-]. discriminate. }
  apply strict_eq_undefined in U.
  rewrite (readTodos_eq w). destruct (readTodos w).1 as [todos|re] eqn:L.
  2: { intros [= <- <-]. left. split; [reflexivity|discriminate]. }
  assert (L' : readTodos w = (Returned todos, w)) by (rewrite (readTodos_eq w), L; reflexivity).
  set (k := (lookup_key (searchParams req)).1).
  set (x := (lookup_key (searchParams req)).2).
  assert (Ix : (if truthy (searchParams_get "id" (searchParams req))
                then Array_findIndex todos
                       (prop_is "id" (searchParams_get "id" (searchParams req)))
                else Array_findIndex todos
                       (prop_is "title" (searchParams_get "title" (searchParams req))))
               = Array_findIndex todos (prop_is k x)).
  { unfold k, x, lookup_key. destruct (truthy _); reflexivity. }
  rewrite Ix. clear Ix.
  destruct todos as [| | | | |l|]; simpl;
    try (intros [= <- <-]; left; split; [reflexivity|discriminate]).
  destruct (findIndex (prop_is k x) l) as [idx|fe] eqn:Fi.
  2: { intros [= <- <-]. left. split; [reflexivity|discriminate]. }
  apply findIndex_from_inv in Fi
    as [[-> F]|(pre & t & post & -> & -> & F & Ft)].
  { simpl. intros [= <- <-]. left. split; [reflexivity|].
    intros ? [= <-]. discriminate. }
  assert (Ne : (0 + Z.of_nat (length pre) =? -1) = false) by (apply Z.eqb_neq; lia).
  rewrite Ne. unfold Array_set_prop, Array_get.
  replace (Z.to_nat (0 + Z.of_nat (length pre))) with (length pre) by lia.
  rewrite (list_lookup_middle pre post t (length pre) eq_refl). simpl.
  apply prop_is_true in Ft.
  destruct (has_object _ _ _ Ft (lookup_key_defined _)) as [props ->]. simpl.
  rewrite !insert_middle.
  rewrite (list_lookup_middle pre post _ (length pre) eq_refl). simpl.
  intros [= <- <-]. right. exists json, newBody, pre, props, post.
  repeat split; auto.
Qed.

Lemma assoc_set_same k x props : assoc k (assoc_set k x props) = Some x.
Proof.
  induction props as [|[k' v] props IH]; simpl.
  - rewrite String.eqb_refl. reflexivity.
  - destruct (String.eqb k' k) eqn:E; simpl; rewrite E; [reflexivity|exact IH].
Qed.

Lemma assoc_set_other k k' x props :
  k' <> k -> assoc k' (assoc_set k x props) = assoc k' props.
Proof.
  intros Ne. induction props as [|[k0 v] props IH]; simpl.
  - apply String.eqb_neq in Ne. rewrite String.eqb_sym, Ne. reflexivity.
  - destruct (String.eqb k0 k) eqn:E; simpl.
    + apply String.eqb_eq in E. subst k0.
      assert (String.eqb k k' = false) as ->; [|reflexivity].
      apply String.eqb_neq. congruence.
    + destruct (String.eqb k0 k'); [reflexivity|exact IH].
Qed.

Lemma caught_status (err : exn) : status (caught err) = 400 \/ status (caught err) = 500.
Proof. unfold caught. destruct (message_is err _); simpl; auto. Qed.

(** C5. A successful update (the answer is 200) found its record at some
    index of the loaded collection and wrote the new body into it: in the
    collection that is saved the record stands at the same index with its
    other fields (id, title, createdAt among them) as they were, every
    other index holds what it held, the length is the same, and the answer
    carries the updated record. *)
Theorem update_changes_body_only
  (req : request) (e : env) (w w' : world) (resp : response) :
  pathname req = "/todos/update-todo" -> method req = "PATCH" ->
  serve req e w = (resp, w') -> status resp = 200 ->
  exists (todos : list value) (i : nat) (t t' newBody : value),
    readTodos w = (Returned (VArr todos), w)
    /\ todos !! i = Some t
    /\ set_prop t "body" newBody = Returned t'
    /\ get_prop t' "body" = Returned newBody
    /\ (forall k, k <> "body" -> get_prop t' k = get_prop t k)
    /\ get_prop t' "id" = get_prop t "id"
    /\ get_prop t' "title" = get_prop t "title"
    /\ get_prop t' "createdAt" = get_prop t "createdAt"
    /\ document w' = Some (JSON_stringify (VArr (<[i := t']> todos)))
    /\ saved w' = VArr (<[i := t']> todos) :: saved w
    /\ length (<[i := t']> todos) = length todos
    /\ (<[i := t']> todos) !! i = Some t'
    /\ (forall j, j <> i -> (<[i := t']> todos) !! j = todos !! j)
    /\ resp = {| status := 200; payload := t' |}.
Proof.
  intros P Mt S St. unfold serve in S. rewrite (route_update _ _ P Mt) in S.
  destruct (update_todo req w) as [o w1] eqn:U.
  apply update_cases in U
    as [[-> No]|(json & newBody & pre & props & post & PB & B & Def & L & F & Ht & -> & ->)].
  - exfalso. destruct o as [r|err]; injection S as <- <-.
    + exact (No r eq_refl St).
    + destruct (caught_status err) as [E|E]; rewrite E in St; discriminate.
  - injection S as <- <-.
    assert (Other : forall k, k <> "body" ->
              get_prop (VObj (assoc_set "body" newBody props)) k
              = get_prop (VObj props) k).
    { intros k Nk. simpl. rewrite (assoc_set_other _ _ _ _ Nk). reflexivity. }
    exists (pre ++ VObj props :: post), (length pre), (VObj props),
      (VObj (assoc_set "body" newBody props)), newBody.
    rewrite insert_middle.
    split; [exact L|].
    split; [apply list_lookup_middle; reflexivity|].
    split; [reflexivity|].
    split; [simpl; rewrite assoc_set_same; reflexivity|].
    split; [exact Other|].
    split; [apply Other; discriminate|].
    split; [apply Other; discriminate|].
    split; [apply Other; discriminate|].
    split; [reflexivity|]. split; [reflexivity|].
    split; [rewrite !length_app; reflexivity|].
    split; [apply list_lookup_middle; reflexivity|].
    split; [|reflexivity].
    intros j Nj. rewrite <- (insert_middle pre post (VObj props)).
    apply list_lookup_insert_ne. congruence.
Qed.

(** *** Delete *)

Lemma filter_length_all (p : value -> bool) (l : list value) :
  length (List.filter p l) = length l <-> Forall (fun t => p t = true) l.
Proof.
  split.
  - intros E. apply List.filter_length_forallb in E.
    apply Forall_forall. intros t I. rewrite list_elem_of_In in I.
    rewrite forallb_forall in E. auto.
  - induction 1 as [|t l Ht _ IH]; simpl; [reflexivity|]. rewrite Ht. simpl. lia.
Qed.

Lemma filter_pure_sublist (p : value -> bool) (l : list value) :
  sublist (List.filter p l) l.
Proof.
  induction l as [|t l IH]; simpl; [constructor|].
  destruct (p t); constructor; exact IH.
Qed.

(** The delete route on a collection of records, once a key is given. *)
Lemma delete_records req w todos :
  truthy (searchParams_get "id" (searchParams req)) = true
  \/ truthy (searchParams_get "title" (searchParams req)) = true ->
  readTodos w = (Returned (VArr todos), w) ->
  records todos ->
  delete_todo req w
  = let kept := List.filter (fun t => negb (has (lookup_key (searchParams req)).1
                                               (lookup_key (searchParams req)).2 t))
                            todos in
    if (Z.of_nat (length kept) =? Z.of_nat (length todos))
    then (Returned not_found, w)
    else (Returned deleted, stored (VArr kept) w).
Proof.
  intros Given L R. unfold delete_todo, lookup_key. run.
  assert (negb (truthy (searchParams_get "id" (searchParams req)))
          && negb (truthy (searchParams_get "title" (searchParams req))) = false) as ->.
  { destruct Given as [-> | ->]; simpl; [reflexivity|apply andb_false_r]. }
  rewrite L. simpl.
  destruct (truthy (searchParams_get "id" (searchParams req))); simpl.
  - change (fun t => prop_is_not "id" (searchParams_get "id" (searchParams req)) t)
      with (prop_is_not "id" (searchParams_get "id" (searchParams req))).
    rewrite (filter_records _ _ _ R). simpl.
    destruct (_ =? _); reflexivity.
  - change (fun t => prop_is_not "title" (searchParams_get "title" (searchParams req)) t)
      with (prop_is_not "title" (searchParams_get "title" (searchParams req))).
    rewrite (filter_records _ _ _ R). simpl.
    destruct (_ =? _); reflexivity.
Qed.

(** C6, as the code has it. A delete request that gives an id or a title
    that is not empty, on a collection of records: the records that carry the key (the id when one is given, else
    the title) are all left out and the others keep their order.  When no
    record carries the key, which is when the lengths agree, the answer is
    404 and the store is untouched; otherwise what is left is saved and the
    answer is 200 with success true. *)
Theorem delete_removes_matches
  (req : request) (e : env) (w : world) (todos : list value) :
  pathname req = "/todos/delete-todo" -> method req = "DELETE" ->
  truthy (searchParams_get "id" (searchParams req)) = true
  \/ truthy (searchParams_get "title" (searchParams req)) = true ->
  readTodos w = (Returned (VArr todos), w) ->
  records todos ->
  let k := (lookup_key (searchParams req)).1 in
  let x := (lookup_key (searchParams req)).2 in
  let kept := List.filter (fun t => negb (has k x t)) todos in
  sublist kept todos
  /\ (forall t, In t kept <-> In t todos /\ has k x t = false)
  /\ (length kept = length todos <-> Forall (fun t => has k x t = false) todos)
  /\ (Forall (fun t => has k x t = false) todos ->
      serve req e w = (not_found, w))
  /\ (Exists (fun t => has k x t = true) todos ->
      serve req e w
      = (deleted,
         {| document := Some (JSON_stringify (VArr kept));
            saved := VArr kept :: saved w |})).
Proof.
  intros P Mt Given L R k x kept.
  assert (Len : length kept = length todos <-> Forall (fun t => has k x t = false) todos).
  { unfold kept. rewrite filter_length_all. apply Forall_proper; [|reflexivity].
    intros t. apply negb_true_iff. }
  split; [apply filter_pure_sublist|].
  split.
  { intros t. unfold kept. rewrite List.filter_In, negb_true_iff. reflexivity. }
  split; [exact Len|].
  unfold serve. rewrite (route_delete _ _ P Mt).
  rewrite (delete_records req w todos Given L R). fold k x. cbv zeta. fold kept.
  split.
  - intros F. apply Len in F. rewrite F, Z.eqb_refl. reflexivity.
  - intros Ex.
    assert (Ne : (Z.of_nat (length kept) =? Z.of_nat (length todos)) = false).
    { apply Z.eqb_neq. intros E. apply Nat2Z.inj in E. apply Len in E.
      apply Exists_exists in Ex as (t & I & Ht).
      rewrite Forall_forall in E. rewrite (E t I) in Ht. discriminate. }
    rewrite Ne. reflexivity.
Qed.

(** *** Create, then fetch *)

(** What [find] returns: undefined after reading every element, or the
    first element its callback accepts. *)
Lemma find_inv f l v :
  find f l = Returned v ->
  (v = VUndefined /\ Forall (fun t => f t = Returned false) l)
  \/ (exists pre t post,
        l = pre ++ t :: post /\ v = t
        /\ Forall (fun t => f t = Returned false) pre /\ f t = Returned true).
Proof.
  induction l as [|u l IH]; simpl; intros E.
  - left. split; [congruence|constructor].
  - destruct (f u) as [[|]|] eqn:Fu; try discriminate.
    + right. exists [], u, l. simpl. injection E as <-. repeat split; auto.
    + destruct (IH E) as [[-> F]|(pre & t & post & -> & -> & F & Ft)].
      * left. split; [reflexivity|]. constructor; assumption.
      * right. exists (u :: pre), t, post. simpl. repeat split; auto.
Qed.

(** What the create route does: either it leaves the store alone and its
    answer is not a 201, or the payload passed the checks, no record of
    the loaded collection had the title, and the new record was appended
    and saved. *)
Lemma create_cases req e w o w' :
  create_todo req e w = (o, w') ->
  (w' = w /\ forall resp, o = Returned resp -> status resp <> 201)
  \/ (exists json title body todos,
        parseBody req w = (Returned json, w)
        /\ get_prop json "title" = Returned title
        /\ get_prop json "body" = Returned body
        /\ truthy title = true
        /\ (truthy body = true \/ body = VStr "")
        /\ readTodos w = (Returned (VArr todos), w)
        /\ Forall (fun t => prop_is "title" title t = Returned false) todos
        /\ o = Returned {| status := 201; payload := created e title body |}
        /\ w' = stored (VArr (todos ++ [created e title body])) w).
Proof.
  unfold create_todo. run.
  pose proof (parseBody_world req w) as PW.
  destruct (parseBody req w) as [[json|pe] w1] eqn:PB; simpl in PW; subst w1.
  2: { intros [= <- <-]. left. split; [reflexivity|discriminate]. }
  destruct (get_prop json "title") as [title|e1] eqn:T.
  2: { intros [= <- <-]. left. split; [reflexivity|discriminate]. }
  destruct (get_prop json "body") as [body|e2] eqn:B.
  2: { intros [= <- <-]. left. split; [reflexivity|discriminate]. }
  destruct (negb (truthy title) || _) eqn:V.
  { intros [= <- <-]. left. split; [reflexivity|]. intros ? [= <-]. discriminate. }
  assert (Tt : truthy title = true).
  { destruct (truthy title); [reflexivity|discriminate]. }
  assert (Tb : truthy body = true \/ body = VStr "").
  { rewrite Tt in V. simpl in V. destruct (truthy body); [auto|]. simpl in V.
    right. apply strict_eq_empty. destruct (strict_eq body _); [reflexivity|discriminate]. }
  rewrite (readTodos_eq w). destruct (readTodos w).1 as [todos|re] eqn:L.
  2: { intros [= <- <-]. left. split; [reflexivity|discriminate]. }
  assert (L' : readTodos w = (Returned todos, w)) by (rewrite (readTodos_eq w), L; reflexivity).
  destruct todos as [| | | | |l|]; simpl;
    try (intros [= <- <-]; left; split; [reflexivity|discriminate]).
  destruct (find (prop_is "title" title) l) as [dup|fe] eqn:Fd.
  2: { intros [= <- <-]. left. split; [reflexivity|discriminate]. }
  destruct (truthy dup) eqn:Td.
  { intros [= <- <-]. left. split; [reflexivity|]. intros ? [= <-]. discriminate. }
  intros [= <- <-]. right. exists json, title, body, l.
  repeat split; auto.
  apply find_inv in Fd as [[_ F]|(pre & t & post & _ & -> & _ & Ft)]; [exact F|].
  apply prop_is_true in Ft. rewrite (has_truthy _ _ _ Ft) in Td; [discriminate|].
  intros ->. discriminate.
Qed.

Lemma makeId_nonempty (e : env) : String.eqb (makeId e) "" = false.
Proof. unfold makeId. destruct (string_of_Z (Date_now e)); reflexivity. Qed.

Lemma prop_is_false_records k x l :
  Forall (fun t => prop_is k x t = Returned false) l -> records l.
Proof.
  intros F. unfold records. eapply Forall_impl; [exact F|].
  intros t. destruct t; simpl; try reflexivity; discriminate.
Qed.

Lemma strict_eq_string v s : strict_eq v (VStr s) = true -> v = VStr s.
Proof.
  destruct v; simpl; try discriminate. intros E. apply String.eqb_eq in E.
  congruence.
Qed.

(** A record whose id is new among the ids of a collection is the first
    one that a lookup by this id finds after it is appended. *)
Lemma fresh_id_differs l r i :
  records l -> get_prop r "id" = Returned (VStr i) ->
  NoDup (ids (l ++ [r])) ->
  Forall (fun t => prop_is "id" (VStr i) t = Returned false) l.
Proof.
  intros R Ri Nd. unfold ids in Nd. rewrite map_app in Nd. simpl in Nd.
  apply NoDup_app in Nd as (_ & Fresh & _).
  apply Forall_forall. intros t I.
  assert (Nt : nullish t = false).
  { unfold records in R. rewrite Forall_forall in R. auto. }
  rewrite (prop_is_has _ _ _ Nt). f_equal. unfold has.
  destruct (get_prop t "id") as [v|] eqn:G; [|reflexivity].
  destruct (strict_eq v (VStr i)) eqn:E; [|reflexivity].
  apply strict_eq_string in E. subst v. exfalso.
  apply (Fresh (Returned (VStr i))).
  - rewrite <- G. apply list_elem_of_fmap. exists t. split; [reflexivity|exact I].
  - rewrite Ri. constructor.
Qed.

Lemma get_one_finds q w pre t post :
  readTodos w = (Returned (VArr (pre ++ t :: post)), w) ->
  Forall (fun u => prop_is (lookup_key q).1 (lookup_key q).2 u = Returned false) pre ->
  prop_is (lookup_key q).1 (lookup_key q).2 t = Returned true ->
  forall e, serve (GET "/todo" q) e w = ({| status := 200; payload := t |}, w).
Proof.
  intros L F Ft e. unfold serve, route, get_one. run. rewrite L. simpl.
  assert ((if truthy (searchParams_get "id" q)
           then find (prop_is "id" (searchParams_get "id" q)) (pre ++ t :: post)
           else find (prop_is "title" (searchParams_get "title" q)) (pre ++ t :: post))
          = Returned t) as ->.
  { unfold lookup_key in F, Ft. destruct (truthy (searchParams_get "id" q));
      simpl in F, Ft; apply find_first; assumption. }
  apply prop_is_true in Ft.
  rewrite (has_truthy _ _ _ Ft (lookup_key_defined q)). reflexivity.
Qed.

(** C7, as the code has it. After a create that answered 201 with the
    record [r], on a store
    whose document loads back as the collection just saved and in which
    the ids are unique, fetching one record by the id of [r] and fetching
    one record by the title of [r] both answer 200 with [r] itself. *)
Theorem fetch_created_by_id_or_title
  (req : request) (e : env) (w w1 : world) (r : value) (todos : list value) :
  pathname req = "/todos/create-todo" -> method req = "POST" ->
  readTodos w = (Returned (VArr todos), w) ->
  serve req e w = ({| status := 201; payload := r |}, w1) ->
  readTodos w1 = (Returned (VArr (todos ++ [r])), w1) ->
  NoDup (ids (todos ++ [r])) ->
  forall (i s : string) (by_id by_title : list (string * string)) (e' : env),
    get_prop r "id" = Returned (VStr i) ->
    get_prop r "title" = Returned (VStr s) ->
    searchParams_get "id" by_id = VStr i ->
    truthy (searchParams_get "id" by_title) = false ->
    searchParams_get "title" by_title = VStr s ->
    serve (GET "/todo" by_id) e' w1 = ({| status := 200; payload := r |}, w1)
    /\ serve (GET "/todo" by_title) e' w1 = ({| status := 200; payload := r |}, w1).
Proof.
  intros P Mt L S L1 Nd i s by_id by_title e' Ri Rs Qi Qt1 Qt2.
  unfold serve in S. rewrite (route_create _ _ P Mt) in S.
  destruct (create_todo req e w) as [o w'] eqn:C.
  apply create_cases in C
    as [[-> No]|(json & title & body & l & PB & T & B & Tt & Tb & L0 & F & -> & ->)].
  { exfalso. destruct o as [resp|err]; injection S as S1 S2.
    - apply (No resp eq_refl). rewrite S1. reflexivity.
    - destruct (caught_status err) as [E|E]; rewrite S1 in E; discriminate. }
  injection S as <- <-. rewrite L in L0. injection L0 as <-.
  simpl in Ri, Rs. injection Ri as <-. injection Rs as ->.
  pose proof (prop_is_false_records _ _ _ F) as R.
  split.
  - apply get_one_finds with (pre := todos) (post := []); [exact L1| |].
    + unfold lookup_key. rewrite Qi. simpl. rewrite makeId_nonempty. simpl.
      apply (fresh_id_differs todos (created e (VStr s) body)); auto.
    + unfold lookup_key. rewrite Qi. simpl. rewrite makeId_nonempty. simpl.
      unfold prop_is. simpl. rewrite String.eqb_refl. reflexivity.
  - apply get_one_finds with (pre := todos) (post := []); [exact L1| |].
    + unfold lookup_key. rewrite Qt1, Qt2. exact F.
    + unfold lookup_key. rewrite Qt1, Qt2. simpl.
      unfold prop_is. simpl. rewrite String.eqb_refl. reflexivity.
Qed.

(** *** Order *)

(** What the delete route does: either it leaves the store alone, or it
    saved a subsequence of the loaded collection. *)
Lemma delete_cases req w o w' :
  delete_todo req w = (o, w') ->
  w' = w
  \/ (exists todos kept,
        readTodos w = (Returned (VArr todos), w)
        /\ sublist kept todos
        /\ o = Returned deleted
        /\ w' = stored (VArr kept) w).
Proof.
  unfold delete_todo. run.
  destruct (negb _ && negb _).
  { intros [= <- <-]. left. reflexivity. }
  rewrite (readTodos_eq w). destruct (readTodos w).1 as [todos|re] eqn:L.
  2: { intros [= <- <-]. left. reflexivity. }
  assert (L' : readTodos w = (Returned todos, w)) by (rewrite (readTodos_eq w), L; reflexivity).
  destruct todos as [| | | | |l|]; simpl;
    try (intros [= <- <-]; left; reflexivity).
  match goal with |- context [filter ?f l] => destruct (filter f l) as [kept|fe] eqn:Fl end.
  2: { intros [= <- <-]. left. reflexivity. }
  simpl. destruct (_ =? _).
  { intros [= <- <-]. left. reflexivity. }
  intros [= <- <-]. right. exists l, kept. repeat split; auto.
  eapply filter_sublist. exact Fl.
Qed.

Lemma get_all_world w : (get_all w).2 = w.
Proof.
  unfold get_all. run. rewrite (readTodos_eq w).
  destruct (readTodos w).1; reflexivity.
Qed.

Lemma get_one_world req w : (get_one req w).2 = w.
Proof.
  unfold get_one. run. rewrite (readTodos_eq w).
  destruct (readTodos w).1 as [todos|]; simpl; [|reflexivity].
  destruct (if truthy _ then _ else _) as [todo|]; simpl; [|reflexivity].
  destruct (negb (truthy todo)); reflexivity.
Qed.

Lemma route_taken (path meth p m : string) :
  String.eqb path p && String.eqb meth m = true -> path = p /\ meth = m.
Proof.
  intros E. apply andb_prop in E as [E1 E2].
  apply String.eqb_eq in E1, E2. auto.
Qed.

(** A request leaves the store as it was, or saves the loaded collection
    changed in the way of its route. *)
Lemma serve_step req e w :
  (serve req e w).2 = w
  \/ (exists todos new,
        readTodos w = (Returned (VArr todos), w)
        /\ (serve req e w).2 = stored (VArr new) w /\ change req todos new).
Proof.
  unfold serve, route.
  destruct (String.eqb (pathname req) "/todos" && _).
  { left. pose proof (get_all_world w). destruct (get_all w) as [[?|?] ?]; assumption. }
  destruct (String.eqb (pathname req) "/todo" && _).
  { left. pose proof (get_one_world req w).
    destruct (get_one req w) as [[?|?] ?]; assumption. }
  destruct (String.eqb (pathname req) "/todos/create-todo" && _) eqn:Rc.
  { apply route_taken in Rc as [P Mt].
    destruct (create_todo req e w) as [o w'] eqn:C.
    apply create_cases in C
      as [[-> _]|(json & title & body & l & _ & _ & _ & _ & _ & L0 & _ & -> & ->)].
    - left. destruct o; reflexivity.
    - right. eexists l, _. split; [exact L0|]. split; [reflexivity|].
      constructor; assumption. }
  destruct (String.eqb (pathname req) "/todos/update-todo" && _) eqn:Ru.
  { apply route_taken in Ru as [P Mt].
    destruct (update_todo req w) as [o w'] eqn:U.
    apply update_cases in U
      as [[-> _]|(json & x & pre & props & post & _ & _ & _ & L0 & _ & _ & -> & ->)].
    - left. destruct o; reflexivity.
    - right. eexists _, _. split; [exact L0|]. split; [reflexivity|].
      rewrite <- (insert_middle pre post (VObj props) (VObj (assoc_set "body" x props))).
      apply change_update with (t := VObj props) (x := x); auto.
      apply list_lookup_middle. reflexivity. }
  destruct (String.eqb (pathname req) "/todos/delete-todo" && _) eqn:Rd.
  { apply route_taken in Rd as [P Mt].
    destruct (delete_todo req w) as [o w'] eqn:D.
    apply delete_cases in D as [->|(l & kept & L0 & Sub & -> & ->)].
    - left. destruct o; reflexivity.
    - right. eexists l, _. split; [exact L0|]. split; [reflexivity|].
      constructor; assumption. }
  left. reflexivity.
Qed.

Lemma assoc_set_twice k x y props :
  assoc_set k y (assoc_set k x props) = assoc_set k y props.
Proof.
  induction props as [|[k' v] props IH]; simpl.
  - rewrite String.eqb_refl. reflexivity.
  - destruct (String.eqb k' k) eqn:E; simpl; rewrite E; [reflexivity|].
    rewrite IH. reflexivity.
Qed.

Lemma same_record_trans a b c :
  same_record a b -> same_record b c -> same_record a c.
Proof.
  intros [->|[x Hx]] Hbc; [exact Hbc|].
  destruct Hbc as [<-|[y Hy]]; [right; eauto|].
  destruct a; simpl in Hx; try discriminate; injection Hx as <-;
    simpl in Hy; injection Hy as <-; try (left; reflexivity).
  right. exists y. simpl. rewrite assoc_set_twice. reflexivity.
Qed.

Lemma serve_all_cons req e rest w :
  (serve_all ((req, e) :: rest) w).2 = (serve_all rest (serve req e w).2).2.
Proof.
  simpl. destruct (serve req e w) as [r w1]. simpl.
  destruct (serve_all rest w1). reflexivity.
Qed.

(** The log of saved collections only grows. *)
Lemma saved_grows reqs w :
  exists later, saved (serve_all reqs w).2 = later ++ saved w.
Proof.
  revert w. induction reqs as [|[req e] rest IH]; intros w.
  - exists []. reflexivity.
  - rewrite serve_all_cons. destruct (IH (serve req e w).2) as [later E].
    rewrite E. destruct (serve_step req e w) as [->|(l & new & _ & -> & _)].
    + exists later. reflexivity.
    + exists (later ++ [VArr new]). rewrite <- app_assoc. reflexivity.
Qed.

(** * Further properties of the listener *)

(** *** Routing *)

Ltac by_route :=
  unfold serve, route;
  repeat match goal with
         | |- context [if ?c then _ else _] =>
             lazymatch c with
             | andb (String.eqb (pathname _) _) _ => destruct c eqn:?
             end
         end.

Ltac leaves :=
  repeat match goal with
         | |- context [match (match ?x with _ => _ end) with _ => _ end] =>
             destruct x; simpl
         | |- context [match (if ?c then _ else _) with _ => _ end] =>
             destruct c; simpl
         | |- context [match (match ?x with _ => _ end) _ with _ => _ end] =>
             destruct x; simpl
         | |- context [(if ?c then (_, _) else (_, _))] => destruct c; simpl
         end.

Lemma caught_not_route_not_found (err : exn) : caught err <> route_not_found.
Proof. unfold caught. destruct (message_is err _); discriminate. Qed.

Lemma known_route_false req :
  known_route req = false ->
  route req = fun _ => sendJSON 404 (error_payload "Route Not Found").
Proof.
  unfold known_route, route. intros K.
  apply orb_false_elim in K as [K K5]. apply orb_false_elim in K as [K K4].
  apply orb_false_elim in K as [K K3]. apply orb_false_elim in K as [K1 K2].
  rewrite K1, K2, K3, K4, K5. reflexivity.
Qed.

(** X1. The listener answers 404 Route Not Found exactly for the requests
    whose path and method are not one of its five pairs, and such a
    request leaves the store as it was. *)
Theorem route_not_found_iff (req : request) (e : env) (w : world) :
  ((serve req e w).1 = route_not_found <-> known_route req = false)
  /\ (known_route req = false -> (serve req e w).2 = w).
Proof.
  split; [split|].
  - destruct (known_route req) eqn:K; [|reflexivity]. intros E. exfalso. revert E.
    unfold known_route in K. by_route;
      [unfold get_all|unfold get_one|unfold create_todo|unfold update_todo
       |unfold delete_todo| ]; run.
    6: { repeat match goal with E : _ && _ = false |- _ => rewrite E in K; clear E end.
         discriminate. }
    all: try rewrite (readTodos_eq w); leaves.
    all: try apply caught_not_route_not_found; try discriminate.
    all: pose proof (parseBody_world req w) as PW;
      destruct (parseBody req w) as [[?|?] ?]; simpl; leaves;
      try apply caught_not_route_not_found; try discriminate.
    all: try rewrite (readTodos_eq w); leaves.
    all: try apply caught_not_route_not_found; try discriminate.
  - intros K. unfold serve. rewrite (known_route_false _ K). reflexivity.
  - intros K. unfold serve. rewrite (known_route_false _ K). reflexivity.
Qed.

(** *** The request body *)

Lemma parseBody_malformed req w :
  data req <> "" -> JSON_parse (data req) = None ->
  parseBody req w = (Thrown (Error "Invalid JSON"), w).
Proof.
  intros Ne P. unfold parseBody. apply String.eqb_neq in Ne. rewrite Ne, P.
  reflexivity.
Qed.

Lemma parseBody_parsed req w v :
  data req <> "" -> JSON_parse (data req) = Some v ->
  parseBody req w = (Returned v, w).
Proof.
  intros Ne P. unfold parseBody. apply String.eqb_neq in Ne. rewrite Ne, P.
  reflexivity.
Qed.

(** [parseBody] does not look at the store. *)
Lemma parseBody_any req w w' : (parseBody req w).1 = (parseBody req w').1.
Proof.
  unfold parseBody. destruct (String.eqb _ _); [reflexivity|].
  destruct (JSON_parse _); reflexivity.
Qed.

Lemma parseBody_moved req w w' o :
  parseBody req w = (o, w) -> parseBody req w' = (o, w').
Proof.
  intros E. pose proof (parseBody_any req w' w) as A. rewrite E in A. simpl in A.
  pose proof (parseBody_world req w') as W.
  destruct (parseBody req w') as [o' w1]. simpl in *. congruence.
Qed.

(** X2. On the create and update routes a request body that is not empty
    and is not JSON is answered 400 Invalid JSON payload, whatever the
    query and the store hold, and the store is not touched. *)
Theorem malformed_body_rejected (req : request) (e : env) (w : world) :
  is_create req \/ is_update req ->
  data req <> "" -> JSON_parse (data req) = None ->
  serve req e w = (invalid_json, w).
Proof.
  intros R Ne P. pose proof (parseBody_malformed req w Ne P) as PB.
  unfold serve. destruct R as [[Pa Mt]|[Pa Mt]].
  - rewrite (route_create _ _ Pa Mt). unfold create_todo. run. rewrite PB. reflexivity.
  - rewrite (route_update _ _ Pa Mt). unfold update_todo. run. rewrite PB. reflexivity.
Qed.

(** X3. A body that parses to null makes the create and the update route
    answer 500: the payload's properties cannot be read.  A body that
    parses to a boolean, a number, a string or an array has no title and no
    body property, so create answers with its validation error and update
    with its own 400.  None of these touches the store. *)
Theorem non_object_payload (req : request) (e : env) (w : world) (json : value) :
  parseBody req w = (Returned json, w) ->
  (json = VNull ->
   (is_create req -> serve req e w = (internal_error, w))
   /\ (is_update req -> serve req e w = (internal_error, w)))
  /\ ((forall props, json <> VObj props) -> json <> VNull -> json <> VUndefined ->
      (is_create req -> serve req e w = (validation_error, w))
      /\ (is_update req -> serve req e w = (body_required, w))).
Proof.
  intros PB. split.
  - intros ->. split; intros [Pa Mt]; unfold serve.
    + rewrite (route_create _ _ Pa Mt). unfold create_todo. run. rewrite PB. reflexivity.
    + rewrite (route_update _ _ Pa Mt). unfold update_todo. run. rewrite PB. reflexivity.
  - intros No Nn Nu.
    assert (G : forall k, get_prop json k = Returned VUndefined).
    { intros k. destruct json; try reflexivity; try congruence. }
    split; intros [Pa Mt]; unfold serve.
    + rewrite (route_create _ _ Pa Mt). unfold create_todo. run.
      rewrite PB, !G. reflexivity.
    + rewrite (route_update _ _ Pa Mt). unfold update_todo. run.
      rewrite PB, !G. reflexivity.
Qed.

(** *** Writes *)

(** A request that changes the store is a create answered 201, or an
    update or delete answered 200; it saves once, the whole collection. *)
Lemma serve_write req e w :
  (serve req e w).2 = w
  \/ (exists todos new,
        readTodos w = (Returned (VArr todos), w)
        /\ (serve req e w).2 = stored (VArr new) w
        /\ change req todos new
        /\ ((is_create req /\ status (serve req e w).1 = 201)
            \/ ((is_update req \/ is_delete req) /\ status (serve req e w).1 = 200))).
Proof.
  unfold serve, route.
  destruct (String.eqb (pathname req) "/todos" && _).
  { left. pose proof (get_all_world w). destruct (get_all w) as [[?|?] ?]; assumption. }
  destruct (String.eqb (pathname req) "/todo" && _).
  { left. pose proof (get_one_world req w).
    destruct (get_one req w) as [[?|?] ?]; assumption. }
  destruct (String.eqb (pathname req) "/todos/create-todo" && _) eqn:Rc.
  { apply route_taken in Rc as [P Mt].
    destruct (create_todo req e w) as [o w'] eqn:C.
    apply create_cases in C
      as [[-> _]|(json & title & body & l & _ & _ & _ & _ & _ & L0 & _ & -> & ->)].
    - left. destruct o; reflexivity.
    - right. eexists l, _. split; [exact L0|]. split; [reflexivity|].
      split; [constructor; assumption|]. left. split; [split; assumption|reflexivity]. }
  destruct (String.eqb (pathname req) "/todos/update-todo" && _) eqn:Ru.
  { apply route_taken in Ru as [P Mt].
    destruct (update_todo req w) as [o w'] eqn:U.
    apply update_cases in U
      as [[-> _]|(json & x & pre & props & post & _ & _ & _ & L0 & _ & _ & -> & ->)].
    - left. destruct o; reflexivity.
    - right. eexists _, _. split; [exact L0|]. split; [reflexivity|]. split.
      + rewrite <- (insert_middle pre post (VObj props) (VObj (assoc_set "body" x props))).
        apply change_update with (t := VObj props) (x := x); auto.
        apply list_lookup_middle. reflexivity.
      + right. split; [left; split; assumption|reflexivity]. }
  destruct (String.eqb (pathname req) "/todos/delete-todo" && _) eqn:Rd.
  { apply route_taken in Rd as [P Mt].
    destruct (delete_todo req w) as [o w'] eqn:D.
    apply delete_cases in D as [->|(l & kept & L0 & Sub & -> & ->)].
    - left. destruct o; reflexivity.
    - right. eexists l, _. split; [exact L0|]. split; [reflexivity|].
      split; [constructor; assumption|].
      right. split; [right; split; assumption|reflexivity]. }
  left. reflexivity.
Qed.

(** X4. A request writes the file at most once, and only when it
    succeeds: the store changes only under a create answered 201 or an
    update or delete answered 200, and then the document is the text of
    the one collection saved.  So an answer of 400 or more, and any GET,
    leaves the document and the log of saves as they were. *)
Theorem writes_only_on_success (req : request) (e : env) (w : world) :
  ((serve req e w).2 = w
   \/ (exists new,
         (serve req e w).2
         = {| document := Some (JSON_stringify (VArr new));
              saved := VArr new :: saved w |}
         /\ ((is_create req /\ status (serve req e w).1 = 201)
             \/ ((is_update req \/ is_delete req)
                 /\ status (serve req e w).1 = 200))))
  /\ (400 <= status (serve req e w).1 -> (serve req e w).2 = w)
  /\ (method req = "GET" -> (serve req e w).2 = w).
Proof.
  destruct (serve_write req e w) as [E|(l & new & _ & E & _ & St)].
  - split; [left; exact E|]. split; intros _; exact E.
  - split; [right; exists new; split; [exact E|exact St]|].
    split.
    + intros Ge. exfalso. destruct St as [[_ St]|[_ St]]; rewrite St in Ge; lia.
    + intros G. exfalso.
      destruct St as [[[_ Mt] _]|[[[_ Mt]|[_ Mt]] _]]; rewrite G in Mt; discriminate.
Qed.

(** *** What is thrown, and the answers of each route *)

Lemma readTodos_throws w err : (readTodos w).1 = Thrown err -> err = SyntaxError.
Proof.
  unfold readTodos, fs_readFile, parse. run.
  destruct (document w) as [raw|]; simpl; [|discriminate].
  destruct (JSON_parse _); simpl; [discriminate|]. congruence.
Qed.

Lemma parseBody_throws req w err :
  (parseBody req w).1 = Thrown err -> err = Error "Invalid JSON".
Proof.
  unfold parseBody. destruct (String.eqb _ _); [discriminate|].
  destruct (JSON_parse _); simpl; [discriminate|]. congruence.
Qed.

Lemma get_prop_throws v k err : get_prop v k = Thrown err -> err = TypeError.
Proof. destruct v; simpl; congruence. Qed.

Lemma prop_is_throws k x t err : prop_is k x t = Thrown err -> err = TypeError.
Proof.
  unfold prop_is. destruct (get_prop t k) eqn:G; simpl; [discriminate|].
  intros [= <-]. exact (get_prop_throws _ _ _ G).
Qed.

Lemma prop_is_not_throws k x t err : prop_is_not k x t = Thrown err -> err = TypeError.
Proof.
  unfold prop_is_not. destruct (get_prop t k) eqn:G; simpl; [discriminate|].
  intros [= <-]. exact (get_prop_throws _ _ _ G).
Qed.

Lemma find_throws f l err :
  (forall t e, f t = Thrown e -> e = TypeError) ->
  find f l = Thrown err -> err = TypeError.
Proof.
  intros Hf. induction l as [|t l IH]; simpl; [discriminate|].
  destruct (f t) as [[|]|e0] eqn:Ft; [discriminate|exact IH|].
  intros [= <-]. exact (Hf _ _ Ft).
Qed.

Lemma findIndex_from_throws i f l err :
  (forall t e, f t = Thrown e -> e = TypeError) ->
  findIndex_from i f l = Thrown err -> err = TypeError.
Proof.
  intros Hf. revert i. induction l as [|t l IH]; simpl; intros i; [discriminate|].
  destruct (f t) as [[|]|e0] eqn:Ft; [discriminate|apply IH|].
  intros [= <-]. exact (Hf _ _ Ft).
Qed.

Lemma filter_throws f l err :
  (forall t e, f t = Thrown e -> e = TypeError) ->
  filter f l = Thrown err -> err = TypeError.
Proof.
  intros Hf. induction l as [|t l IH]; simpl; [discriminate|].
  destruct (f t) as [keep|e0] eqn:Ft.
  - destruct (filter f l); [discriminate|]. intros [= <-]. apply IH. reflexivity.
  - intros [= <-]. exact (Hf _ _ Ft).
Qed.

Lemma Array_find_throws todos k x err :
  Array_find todos (prop_is k x) = Thrown err -> err = TypeError.
Proof.
  destruct todos; simpl; try congruence.
  apply find_throws. apply prop_is_throws.
Qed.

Lemma Array_findIndex_throws todos k x err :
  Array_findIndex todos (prop_is k x) = Thrown err -> err = TypeError.
Proof.
  destruct todos; simpl; try congruence.
  apply findIndex_from_throws. apply prop_is_throws.
Qed.

Lemma get_all_answers req e w :
  pathname req = "/todos" -> method req = "GET" ->
  (exists v, (readTodos w).1 = Returned v
             /\ serve req e w = ({| status := 200; payload := v |}, w))
  \/ serve req e w = (internal_error, w).
Proof.
  intros P Mt. unfold serve. rewrite (route_get_all _ _ P Mt). unfold get_all. run.
  rewrite (readTodos_eq w). destruct (readTodos w).1 as [v|err] eqn:L; simpl.
  - left. eauto.
  - right. rewrite (readTodos_throws _ _ L). reflexivity.
Qed.

Lemma get_one_answers req e w :
  pathname req = "/todo" -> method req = "GET" ->
  (exists t, serve req e w = ({| status := 200; payload := t |}, w))
  \/ serve req e w = (not_found, w)
  \/ serve req e w = (internal_error, w).
Proof.
  intros P Mt. unfold serve. rewrite (route_get_one _ _ P Mt). unfold get_one. run.
  rewrite (readTodos_eq w). destruct (readTodos w).1 as [v|err] eqn:L; simpl.
  2: { right. right. rewrite (readTodos_throws _ _ L). reflexivity. }
  destruct (if truthy _ then _ else _) as [t|err] eqn:F; simpl.
  - destruct (truthy t); simpl; eauto.
  - right. right. destruct (truthy _);
      rewrite (Array_find_throws _ _ _ _ F); reflexivity.
Qed.

Lemma create_answers req e w :
  is_create req ->
  (exists r, (serve req e w).1 = {| status := 201; payload := r |})
  \/ (serve req e w).1 = validation_error
  \/ (serve req e w).1 = conflict
  \/ (serve req e w).1 = invalid_json
  \/ (serve req e w).1 = internal_error.
Proof.
  intros [P Mt]. unfold serve. rewrite (route_create _ _ P Mt).
  unfold create_todo. run.
  pose proof (parseBody_world req w) as PW.
  destruct (parseBody req w) as [[json|pe] w1] eqn:PB; simpl in PW; subst w1.
  2: { pose proof (parseBody_throws req w pe) as T. rewrite PB in T.
       rewrite (T eq_refl). simpl. auto. }
  destruct (get_prop json "title") as [title|e1] eqn:T.
  2: { rewrite (get_prop_throws _ _ _ T). simpl. auto 6. }
  destruct (get_prop json "body") as [body|e2] eqn:B.
  2: { rewrite (get_prop_throws _ _ _ B). simpl. auto 6. }
  destruct (negb (truthy title) || _); simpl; [auto|].
  rewrite (readTodos_eq w). destruct (readTodos w).1 as [todos|err] eqn:L; simpl.
  2: { rewrite (readTodos_throws _ _ L). simpl. auto 6. }
  destruct (Array_find todos _) as [dup|err] eqn:F; simpl.
  2: { rewrite (Array_find_throws _ _ _ _ F). simpl. auto 6. }
  destruct (truthy dup); simpl; [auto|].
  destruct todos; simpl in *; try discriminate. eauto.
Qed.

Lemma update_answers req e w :
  is_update req ->
  (exists t, (serve req e w).1 = {| status := 200; payload := t |})
  \/ (serve req e w).1 = body_required
  \/ (serve req e w).1 = not_found
  \/ (serve req e w).1 = invalid_json
  \/ (serve req e w).1 = internal_error.
Proof.
  intros [P Mt]. unfold serve. rewrite (route_update _ _ P Mt).
  destruct (update_todo req w) as [o w'] eqn:U.
  pose proof U as U0. apply update_cases in U0
    as [[-> No]|(json & x & pre & props & post & _ & _ & _ & _ & _ & _ & -> & ->)].
  2: { simpl. eauto. }
  revert U. unfold update_todo. run.
  pose proof (parseBody_world req w) as PW.
  destruct (parseBody req w) as [[json|pe] w1] eqn:PB; simpl in PW; subst w1.
  2: { pose proof (parseBody_throws req w pe) as T. rewrite PB in T.
       rewrite (T eq_refl). intros [= <-]. simpl. auto. }
  destruct (get_prop json "body") as [body|e2] eqn:B.
  2: { rewrite (get_prop_throws _ _ _ B). intros [= <-]. simpl. auto 6. }
  destruct (strict_eq body VUndefined); simpl; [intros [= <-]; simpl; auto|].
  rewrite (readTodos_eq w). destruct (readTodos w).1 as [todos|err] eqn:L; simpl.
  2: { rewrite (readTodos_throws _ _ L). intros [= <-]. simpl. auto 6. }
  destruct (if truthy _ then _ else _) as [idx|err] eqn:F; simpl.
  2: { destruct (truthy _); rewrite (Array_findIndex_throws _ _ _ _ F);
         intros [= <-]; simpl; auto 6. }
  destruct (idx =? -1); [intros [= <-]; simpl; auto|].
  destruct (Array_set_prop todos idx "body" body) as [todos'|err] eqn:S; simpl.
  - intros [= <-]. simpl. eauto.
  - intros [= <-]. simpl. right. right. right. right.
    unfold Array_set_prop in S. destruct (set_prop _ _ _) as [t'|e0] eqn:Sp; simpl in S.
    + destruct todos; discriminate.
    + injection S as <-. destruct (Array_get todos idx); simpl in Sp; try discriminate;
        injection Sp as <-; reflexivity.
Qed.

Lemma delete_answers req e w :
  is_delete req ->
  (serve req e w).1 = deleted
  \/ (serve req e w).1 = key_required
  \/ (serve req e w).1 = not_found
  \/ (serve req e w).1 = internal_error.
Proof.
  intros [P Mt]. unfold serve. rewrite (route_delete _ _ P Mt).
  unfold delete_todo. run.
  destruct (negb _ && negb _); simpl; [auto|].
  rewrite (readTodos_eq w). destruct (readTodos w).1 as [todos|err] eqn:L; simpl.
  2: { rewrite (readTodos_throws _ _ L). simpl. auto 6. }
  destruct (Array_filter todos _) as [kept|err] eqn:F; simpl.
  - destruct (_ =? _); simpl; auto.
  - right. right. right. destruct todos; simpl in F; try (injection F as <-; reflexivity).
    match type of F with obind (filter ?f ?l) _ = _ =>
      destruct (filter f l) as [k0|e0] eqn:Fl; simpl in F; [discriminate|] end.
    injection F as <-. apply filter_throws in Fl as ->; [reflexivity|].
    intros t err' Ht. destruct (truthy _); eapply prop_is_not_throws; exact Ht.
Qed.

(** X5. The answers of each route.  List: 200 with what was loaded, or
    500.  Get-one: 200 with a record, 404 Todo not found, or 500.  Create:
    201 with a record, its validation 400, 409, 400 Invalid JSON payload,
    or 500.  Update: 200 with a record, its own 400, 404, 400 Invalid JSON
    payload, or 500.  Delete: 200 success, its own 400, 404, or 500.  No
    route answers anything else. *)
Theorem answers_by_route (req : request) (e : env) (w : world) :
  (pathname req = "/todos" -> method req = "GET" ->
   (exists v, (serve req e w).1 = {| status := 200; payload := v |})
   \/ (serve req e w).1 = internal_error)
  /\ (pathname req = "/todo" -> method req = "GET" ->
      (exists t, (serve req e w).1 = {| status := 200; payload := t |})
      \/ (serve req e w).1 = not_found
      \/ (serve req e w).1 = internal_error)
  /\ (is_create req ->
      (exists r, (serve req e w).1 = {| status := 201; payload := r |})
      \/ (serve req e w).1 = validation_error
      \/ (serve req e w).1 = conflict
      \/ (serve req e w).1 = invalid_json
      \/ (serve req e w).1 = internal_error)
  /\ (is_update req ->
      (exists t, (serve req e w).1 = {| status := 200; payload := t |})
      \/ (serve req e w).1 = body_required
      \/ (serve req e w).1 = not_found
      \/ (serve req e w).1 = invalid_json
      \/ (serve req e w).1 = internal_error)
  /\ (is_delete req ->
      (serve req e w).1 = deleted
      \/ (serve req e w).1 = key_required
      \/ (serve req e w).1 = not_found
      \/ (serve req e w).1 = internal_error).
Proof.
  split; [|split; [|split; [|split]]].
  - intros P Mt. destruct (get_all_answers req e w P Mt) as [(v & _ & ->)| ->];
      simpl; eauto.
  - intros P Mt. destruct (get_one_answers req e w P Mt) as [(t & ->)|[-> | ->]];
      simpl; eauto.
  - apply create_answers.
  - apply update_answers.
  - apply delete_answers.
Qed.

(** *** Checks that come before the load *)

Lemma caught_not_key_required (err : exn) : caught err <> key_required.
Proof. unfold caught. destruct (message_is err _); discriminate. Qed.

Lemma caught_not_body_required (err : exn) : caught err <> body_required.
Proof. unfold caught. destruct (message_is err _); discriminate. Qed.

(** X6. The delete route answers with its own 400 (id or title query
    param required) exactly when the query carries neither a non-empty id
    nor a non-empty title; it then answers without loading, so whatever the
    document holds, and leaves the store as it was. *)
Theorem delete_requires_key (req : request) (e : env) (w : world) :
  is_delete req ->
  ((serve req e w).1 = key_required
   <-> truthy (searchParams_get "id" (searchParams req)) = false
       /\ truthy (searchParams_get "title" (searchParams req)) = false)
  /\ (truthy (searchParams_get "id" (searchParams req)) = false ->
      truthy (searchParams_get "title" (searchParams req)) = false ->
      forall w', serve req e w' = (key_required, w')).
Proof.
  intros [P Mt].
  assert (Fwd : truthy (searchParams_get "id" (searchParams req)) = false ->
                truthy (searchParams_get "title" (searchParams req)) = false ->
                forall w', serve req e w' = (key_required, w')).
  { intros Ti Tt w'. unfold serve. rewrite (route_delete _ _ P Mt).
    unfold delete_todo. run. rewrite Ti, Tt. reflexivity. }
  split; [split|exact Fwd].
  - intros E.
    destruct (truthy (searchParams_get "id" (searchParams req))) eqn:Ti;
      [|destruct (truthy (searchParams_get "title" (searchParams req))) eqn:Tt];
      [exfalso| exfalso |auto]; revert E; unfold serve;
      rewrite (route_delete _ _ P Mt); unfold delete_todo; run;
      rewrite Ti; try rewrite Tt; simpl;
      rewrite (readTodos_eq w); leaves;
      try apply caught_not_key_required; discriminate.
  - intros [Ti Tt]. rewrite (Fwd Ti Tt w). reflexivity.
Qed.

(** X7. The update route answers with its own 400 (body is required in
    payload) exactly when the payload can be read and has no body
    property.  A body that is null, false, 0 or the empty string is a
    body: unlike create, update never turns it down. *)
Theorem update_requires_body (req : request) (e : env) (w : world) :
  is_update req ->
  ((serve req e w).1 = body_required
   <-> exists json,
         parseBody req w = (Returned json, w)
         /\ get_prop json "body" = Returned VUndefined)
  /\ (forall json body,
        parseBody req w = (Returned json, w) ->
        get_prop json "body" = Returned body -> body <> VUndefined ->
        (serve req e w).1 <> body_required).
Proof.
  intros [P Mt].
  assert (Pass : forall json body,
            parseBody req w = (Returned json, w) ->
            get_prop json "body" = Returned body -> body <> VUndefined ->
            (serve req e w).1 <> body_required).
  { intros json body PB B Nu. apply strict_eq_undefined in Nu.
    unfold serve. rewrite (route_update _ _ P Mt). unfold update_todo. run.
    rewrite PB, B, Nu. simpl. rewrite (readTodos_eq w). leaves;
      try apply caught_not_body_required; discriminate. }
  split; [split|exact Pass].
  - intros E. pose proof (parseBody_world req w) as PW.
    destruct (parseBody req w) as [[json|pe] w1] eqn:PB; simpl in PW; subst w1.
    + destruct (get_prop json "body") as [body|e2] eqn:B.
      * exists json. split; [reflexivity|].
        destruct body; try exact B; exfalso;
          refine (Pass json _ eq_refl B _ E); discriminate.
      * exfalso. revert E. unfold serve. rewrite (route_update _ _ P Mt).
        unfold update_todo. run. rewrite PB, B. simpl.
        apply caught_not_body_required.
    + exfalso. revert E. unfold serve. rewrite (route_update _ _ P Mt).
      unfold update_todo. run. rewrite PB. simpl. apply caught_not_body_required.
  - intros (json & PB & B). unfold serve. rewrite (route_update _ _ P Mt).
    unfold update_todo. run. rewrite PB, B. reflexivity.
Qed.

(** *** Lookups *)

Lemma has_prop_is k x t : has k x t = true -> prop_is k x t = Returned true.
Proof.
  unfold has, prop_is. destruct (get_prop t k); simpl; [|discriminate].
  intros ->. reflexivity.
Qed.

Lemma differs_records k x l :
  records l -> Forall (fun t => has k x t = false) l ->
  Forall (fun t => prop_is k x t = Returned false) l.
Proof.
  unfold records. rewrite !Forall_forall. intros R F t I.
  rewrite (prop_is_has _ _ _ (R t I)), (F t I). reflexivity.
Qed.

(** The two lookups of a handler, as one lookup by the key. *)
Lemma find_by_key q todos :
  (if truthy (searchParams_get "id" q)
   then Array_find todos (prop_is "id" (searchParams_get "id" q))
   else Array_find todos (prop_is "title" (searchParams_get "title" q)))
  = Array_find todos (prop_is (lookup_key q).1 (lookup_key q).2).
Proof. unfold lookup_key. destruct (truthy _); reflexivity. Qed.

Lemma findIndex_by_key q todos :
  (if truthy (searchParams_get "id" q)
   then Array_findIndex todos (prop_is "id" (searchParams_get "id" q))
   else Array_findIndex todos (prop_is "title" (searchParams_get "title" q)))
  = Array_findIndex todos (prop_is (lookup_key q).1 (lookup_key q).2).
Proof. unfold lookup_key. destruct (truthy _); reflexivity. Qed.

Lemma lookup_key_not_body q : (lookup_key q).1 <> "body".
Proof. unfold lookup_key. destruct (truthy _); discriminate. Qed.

(** X8. Get-one answers with the first element of the loaded collection
    that carries the lookup key, and does not read what comes after it; when
    no element carries the key it answers 404.  With neither an id nor a
    title in the query the key is a null title, so the answer is 404 unless
    a stored record has a null title.  The store is not touched. *)
Theorem get_one_first_match (req : request) (e : env) (w : world) :
  pathname req = "/todo" -> method req = "GET" ->
  (forall pre t post,
     readTodos w = (Returned (VArr (pre ++ t :: post)), w) ->
     records pre ->
     Forall (fun u => has (lookup_key (searchParams req)).1
                          (lookup_key (searchParams req)).2 u = false) pre ->
     has (lookup_key (searchParams req)).1 (lookup_key (searchParams req)).2 t = true ->
     serve req e w = ({| status := 200; payload := t |}, w))
  /\ (forall todos,
        readTodos w = (Returned (VArr todos), w) ->
        records todos ->
        Forall (fun u => has (lookup_key (searchParams req)).1
                             (lookup_key (searchParams req)).2 u = false) todos ->
        serve req e w = (not_found, w))
  /\ (searchParams_get "id" (searchParams req) = VNull ->
      searchParams_get "title" (searchParams req) = VNull ->
      lookup_key (searchParams req) = ("title", VNull)).
Proof.
  intros P Mt. split; [|split].
  - intros pre t post L R F Ht. unfold serve. rewrite (route_get_one _ _ P Mt).
    unfold get_one. run. rewrite L. simpl.
    change (if truthy (searchParams_get "id" (searchParams req))
            then find (prop_is "id" (searchParams_get "id" (searchParams req)))
                   (pre ++ t :: post)
            else find (prop_is "title" (searchParams_get "title" (searchParams req)))
                   (pre ++ t :: post))
      with (if truthy (searchParams_get "id" (searchParams req))
            then Array_find (VArr (pre ++ t :: post))
                   (prop_is "id" (searchParams_get "id" (searchParams req)))
            else Array_find (VArr (pre ++ t :: post))
                   (prop_is "title" (searchParams_get "title" (searchParams req)))).
    rewrite find_by_key. simpl.
    rewrite (find_first _ _ pre t post (differs_records _ _ _ R F) (has_prop_is _ _ _ Ht)).
    rewrite (has_truthy _ _ _ Ht (lookup_key_defined _)). reflexivity.
  - intros todos L R F. unfold serve. rewrite (route_get_one _ _ P Mt).
    unfold get_one. run. rewrite L. simpl.
    change (if truthy (searchParams_get "id" (searchParams req))
            then find (prop_is "id" (searchParams_get "id" (searchParams req))) todos
            else find (prop_is "title" (searchParams_get "title" (searchParams req))) todos)
      with (if truthy (searchParams_get "id" (searchParams req))
            then Array_find (VArr todos)
                   (prop_is "id" (searchParams_get "id" (searchParams req)))
            else Array_find (VArr todos)
                   (prop_is "title" (searchParams_get "title" (searchParams req)))).
    rewrite find_by_key. simpl.
    rewrite (find_none _ _ _ (differs_records _ _ _ R F)). reflexivity.
  - intros Qi Qt. unfold lookup_key. rewrite Qi, Qt. reflexivity.
Qed.

(** *** Update, forwards *)

Lemma update_first req w json x pre props post :
  parseBody req w = (Returned json, w) ->
  get_prop json "body" = Returned x -> x <> VUndefined ->
  readTodos w = (Returned (VArr (pre ++ VObj props :: post)), w) ->
  Forall (fun t => prop_is (lookup_key (searchParams req)).1
                           (lookup_key (searchParams req)).2 t = Returned false) pre ->
  has (lookup_key (searchParams req)).1 (lookup_key (searchParams req)).2 (VObj props)
  = true ->
  update_todo req w
  = (Returned {| status := 200; payload := VObj (assoc_set "body" x props) |},
     stored (VArr (pre ++ VObj (assoc_set "body" x props) :: post)) w).
Proof.
  intros PB B Nu L F Ht. apply strict_eq_undefined in Nu.
  unfold update_todo. run. rewrite PB, B, Nu, L. simpl.
  change (if truthy (searchParams_get "id" (searchParams req))
          then findIndex (prop_is "id" (searchParams_get "id" (searchParams req)))
                 (pre ++ VObj props :: post)
          else findIndex (prop_is "title" (searchParams_get "title" (searchParams req)))
                 (pre ++ VObj props :: post))
    with (if truthy (searchParams_get "id" (searchParams req))
          then Array_findIndex (VArr (pre ++ VObj props :: post))
                 (prop_is "id" (searchParams_get "id" (searchParams req)))
          else Array_findIndex (VArr (pre ++ VObj props :: post))
                 (prop_is "title" (searchParams_get "title" (searchParams req)))).
  rewrite findIndex_by_key. simpl. unfold findIndex.
  rewrite (findIndex_from_first 0 _ _ pre (VObj props) post F (has_prop_is _ _ _ Ht)).
  simpl.
  assert (Ne : (0 + Z.of_nat (length pre) =? -1) = false) by (apply Z.eqb_neq; lia).
  rewrite Ne. unfold Array_set_prop, Array_get.
  replace (Z.to_nat (0 + Z.of_nat (length pre))) with (length pre) by lia.
  rewrite (list_lookup_middle pre post (VObj props) (length pre) eq_refl). simpl.
  rewrite !insert_middle.
  rewrite (list_lookup_middle pre post _ (length pre) eq_refl). reflexivity.
Qed.

Lemma update_none req w json x todos :
  parseBody req w = (Returned json, w) ->
  get_prop json "body" = Returned x -> x <> VUndefined ->
  readTodos w = (Returned (VArr todos), w) ->
  Forall (fun t => prop_is (lookup_key (searchParams req)).1
                           (lookup_key (searchParams req)).2 t = Returned false) todos ->
  update_todo req w = (Returned not_found, w).
Proof.
  intros PB B Nu L F. apply strict_eq_undefined in Nu.
  unfold update_todo. run. rewrite PB, B, Nu, L. simpl.
  change (if truthy (searchParams_get "id" (searchParams req))
          then findIndex (prop_is "id" (searchParams_get "id" (searchParams req))) todos
          else findIndex (prop_is "title" (searchParams_get "title" (searchParams req)))
                 todos)
    with (if truthy (searchParams_get "id" (searchParams req))
          then Array_findIndex (VArr todos)
                 (prop_is "id" (searchParams_get "id" (searchParams req)))
          else Array_findIndex (VArr todos)
                 (prop_is "title" (searchParams_get "title" (searchParams req)))).
  rewrite findIndex_by_key. simpl. unfold findIndex.
  rewrite (findIndex_from_none 0 _ _ todos F). reflexivity.
Qed.

(** X9. Update writes the new body into the first record that carries the
    lookup key and into no other: the records before it and everything
    after it, other records with the same key included, are saved as they
    were loaded.  The body may be any value but undefined: null, false, 0
    and the empty string are written like any other. *)
Theorem update_first_match_only
  (req : request) (e : env) (w : world) (json x : value)
  (pre post : list value) (t : value) :
  is_update req ->
  parseBody req w = (Returned json, w) ->
  get_prop json "body" = Returned x -> x <> VUndefined ->
  readTodos w = (Returned (VArr (pre ++ t :: post)), w) ->
  records pre ->
  Forall (fun u => has (lookup_key (searchParams req)).1
                       (lookup_key (searchParams req)).2 u = false) pre ->
  has (lookup_key (searchParams req)).1 (lookup_key (searchParams req)).2 t = true ->
  exists t',
    set_prop t "body" x = Returned t'
    /\ get_prop t' "body" = Returned x
    /\ serve req e w
       = ({| status := 200; payload := t' |},
          {| document := Some (JSON_stringify (VArr (pre ++ t' :: post)));
             saved := VArr (pre ++ t' :: post) :: saved w |}).
Proof.
  intros [P Mt] PB B Nu L R F Ht.
  destruct (has_object _ _ _ Ht (lookup_key_defined _)) as [props ->].
  exists (VObj (assoc_set "body" x props)).
  split; [reflexivity|]. split; [simpl; rewrite assoc_set_same; reflexivity|].
  unfold serve. rewrite (route_update _ _ P Mt).
  rewrite (update_first req w json x pre props post PB B Nu L
             (differs_records _ _ _ R F) Ht).
  reflexivity.
Qed.

(** X10. An update whose lookup key no record carries answers 404 Todo
    not found and saves nothing. *)
Theorem update_missing_not_found
  (req : request) (e : env) (w : world) (json x : value) (todos : list value) :
  is_update req ->
  parseBody req w = (Returned json, w) ->
  get_prop json "body" = Returned x -> x <> VUndefined ->
  readTodos w = (Returned (VArr todos), w) ->
  records todos ->
  Forall (fun u => has (lookup_key (searchParams req)).1
                       (lookup_key (searchParams req)).2 u = false) todos ->
  serve req e w = (not_found, w).
Proof.
  intros [P Mt] PB B Nu L R F. unfold serve. rewrite (route_update _ _ P Mt).
  rewrite (update_none req w json x todos PB B Nu L (differs_records _ _ _ R F)).
  reflexivity.
Qed.

(** *** One request after another *)

Lemma get_one_none q e w todos :
  readTodos w = (Returned (VArr todos), w) ->
  Forall (fun u => prop_is (lookup_key q).1 (lookup_key q).2 u = Returned false) todos ->
  serve (fetch q) e w = (not_found, w).
Proof.
  intros L F. unfold serve, route, get_one, fetch. run. rewrite L. simpl.
  assert ((if truthy (searchParams_get "id" q)
           then find (prop_is "id" (searchParams_get "id" q)) todos
           else find (prop_is "title" (searchParams_get "title" q)) todos)
          = Returned VUndefined) as ->.
  { unfold lookup_key in F. destruct (truthy (searchParams_get "id" q));
      simpl in F; apply find_none; assumption. }
  reflexivity.
Qed.

Lemma filter_kept_records (p : value -> bool) (l : list value) :
  records l -> records (List.filter p l).
Proof.
  unfold records. rewrite !Forall_forall. intros R t I.
  rewrite list_elem_of_In in I. apply List.filter_In in I as [I _].
  apply R. rewrite list_elem_of_In. exact I.
Qed.

Lemma filter_kept_differ k x (l : list value) :
  Forall (fun t => has k x t = false) (List.filter (fun t => negb (has k x t)) l).
Proof.
  apply Forall_forall. intros t I. rewrite list_elem_of_In in I.
  apply List.filter_In in I as [_ I]. apply negb_true_iff in I. exact I.
Qed.

Lemma filter_all (p : value -> bool) (l : list value) :
  Forall (fun t => p t = true) l -> List.filter p l = l.
Proof.
  induction 1 as [|t l Ht _ IH]; simpl; [reflexivity|]. rewrite Ht, IH. reflexivity.
Qed.

Lemma delete_some req w todos :
  truthy (searchParams_get "id" (searchParams req)) = true
  \/ truthy (searchParams_get "title" (searchParams req)) = true ->
  readTodos w = (Returned (VArr todos), w) ->
  records todos ->
  Exists (fun t => has (lookup_key (searchParams req)).1
                       (lookup_key (searchParams req)).2 t = true) todos ->
  delete_todo req w
  = (Returned deleted,
     stored (VArr (List.filter
                     (fun t => negb (has (lookup_key (searchParams req)).1
                                         (lookup_key (searchParams req)).2 t)) todos)) w).
Proof.
  intros Given L R Ex. rewrite (delete_records req w todos Given L R). cbv zeta.
  match goal with |- (if ?c then _ else _) = _ => destruct c eqn:E end; [|reflexivity].
  exfalso. apply Z.eqb_eq, Nat2Z.inj, filter_length_all in E.
  apply Exists_exists in Ex as (t & I & Ht).
  rewrite Forall_forall in E. specialize (E t I). rewrite Ht in E. discriminate.
Qed.

Lemma delete_nothing req w todos :
  truthy (searchParams_get "id" (searchParams req)) = true
  \/ truthy (searchParams_get "title" (searchParams req)) = true ->
  readTodos w = (Returned (VArr todos), w) ->
  records todos ->
  Forall (fun t => has (lookup_key (searchParams req)).1
                       (lookup_key (searchParams req)).2 t = false) todos ->
  delete_todo req w = (Returned not_found, w).
Proof.
  intros Given L R F. rewrite (delete_records req w todos Given L R). cbv zeta.
  rewrite filter_all; [rewrite Z.eqb_refl; reflexivity|].
  eapply Forall_impl; [exact F|]. intros t Ht. simpl in Ht. rewrite Ht. reflexivity.
Qed.

(** X11. After a delete that answered 200, on a store whose document
    loads back as the collection saved, no record carries the key any
    more: fetching by the same query answers 404, and so does the same
    delete sent again, which then saves nothing. *)
Theorem delete_then_gone
  (req : request) (e : env) (w : world) (todos : list value) :
  is_delete req ->
  truthy (searchParams_get "id" (searchParams req)) = true
  \/ truthy (searchParams_get "title" (searchParams req)) = true ->
  readTodos w = (Returned (VArr todos), w) ->
  records todos ->
  Exists (fun t => has (lookup_key (searchParams req)).1
                       (lookup_key (searchParams req)).2 t = true) todos ->
  faithful (VArr (List.filter
                    (fun t => negb (has (lookup_key (searchParams req)).1
                                        (lookup_key (searchParams req)).2 t)) todos)) ->
  (serve req e w).1 = deleted
  /\ forall e',
       serve (fetch (searchParams req)) e' (serve req e w).2
       = (not_found, (serve req e w).2)
       /\ serve req e' (serve req e w).2 = (not_found, (serve req e w).2).
Proof.
  intros [P Mt] Given L R Ex Fa.
  assert (S : serve req e w
              = (deleted,
                 stored (VArr (List.filter
                     (fun t => negb (has (lookup_key (searchParams req)).1
                                         (lookup_key (searchParams req)).2 t)) todos)) w)).
  { unfold serve. rewrite (route_delete _ _ P Mt).
    rewrite (delete_some req w todos Given L R Ex). reflexivity. }
  rewrite S. simpl. split; [reflexivity|]. intros e'.
  pose proof (filter_kept_records
                (fun t => negb (has (lookup_key (searchParams req)).1
                                    (lookup_key (searchParams req)).2 t)) todos R) as R1.
  pose proof (filter_kept_differ (lookup_key (searchParams req)).1
                (lookup_key (searchParams req)).2 todos) as F1.
  split.
  - apply (get_one_none _ _ _ _ (Fa w)). apply differs_records; assumption.
  - unfold serve. rewrite (route_delete _ _ P Mt).
    rewrite (delete_nothing req _ _ Given (Fa w) R1 F1). reflexivity.
Qed.

Lemma has_after_body k x v props :
  k <> "body" ->
  has k x (VObj (assoc_set "body" v props)) = has k x (VObj props).
Proof. intros Nk. unfold has. simpl. rewrite (assoc_set_other _ _ _ _ Nk). reflexivity. Qed.

(** X12. After an update that answered 200, on a store whose document
    loads back as the collection saved, fetching by the same query answers
    with the updated record: it carries the new body, and every other
    property as before the update. *)
Theorem update_then_fetch
  (req : request) (e : env) (w : world) (json x : value)
  (pre post : list value) (t t' : value) :
  is_update req ->
  parseBody req w = (Returned json, w) ->
  get_prop json "body" = Returned x -> x <> VUndefined ->
  readTodos w = (Returned (VArr (pre ++ t :: post)), w) ->
  records pre ->
  Forall (fun u => has (lookup_key (searchParams req)).1
                       (lookup_key (searchParams req)).2 u = false) pre ->
  has (lookup_key (searchParams req)).1 (lookup_key (searchParams req)).2 t = true ->
  set_prop t "body" x = Returned t' ->
  faithful (VArr (pre ++ t' :: post)) ->
  (serve req e w).1 = {| status := 200; payload := t' |}
  /\ get_prop t' "body" = Returned x
  /\ keeps_fields t t'
  /\ forall e',
       serve (fetch (searchParams req)) e' (serve req e w).2
       = ({| status := 200; payload := t' |}, (serve req e w).2).
Proof.
  intros [P Mt] PB B Nu L R F Ht St Fa.
  destruct (has_object _ _ _ Ht (lookup_key_defined _)) as [props ->].
  simpl in St. injection St as <-.
  assert (S : serve req e w
              = ({| status := 200; payload := VObj (assoc_set "body" x props) |},
                 stored (VArr (pre ++ VObj (assoc_set "body" x props) :: post)) w)).
  { unfold serve. rewrite (route_update _ _ P Mt).
    rewrite (update_first req w json x pre props post PB B Nu L
               (differs_records _ _ _ R F) Ht). reflexivity. }
  rewrite S. simpl. split; [reflexivity|].
  split; [rewrite assoc_set_same; reflexivity|].
  split.
  { intros k Nk. simpl. rewrite (assoc_set_other _ _ _ _ Nk). reflexivity. }
  intros e'. apply (get_one_finds _ _ pre _ post (Fa w)).
  - apply differs_records; assumption.
  - apply has_prop_is. rewrite has_after_body; [exact Ht|apply lookup_key_not_body].
Qed.

Lemma get_all_loaded q e w v :
  readTodos w = (Returned v, w) ->
  serve (GET "/todos" q) e w = ({| status := 200; payload := v |}, w).
Proof. intros L. unfold serve, route, get_all. run. rewrite L. reflexivity. Qed.

(** X13. After a create that answered 201, on a store whose document
    loads back as the collection saved, listing answers with the old
    records followed by the new one, and the same create sent again (at any
    time, with any random draw) is answered 409 and saves nothing.  The
    title is a string, or any other value that is equal to itself under
    the strict comparison. *)
Theorem create_then_list_and_conflict
  (req : request) (e : env) (w : world) (json title body : value)
  (todos : list value) :
  is_create req ->
  parseBody req w = (Returned json, w) ->
  get_prop json "title" = Returned title -> truthy title = true ->
  strict_eq title title = true ->
  get_prop json "body" = Returned body ->
  truthy body = true \/ body = VStr "" ->
  readTodos w = (Returned (VArr todos), w) ->
  records todos ->
  Forall (fun t => has "title" title t = false) todos ->
  faithful (VArr (todos ++ [created e title body])) ->
  (serve req e w).1 = {| status := 201; payload := created e title body |}
  /\ forall e' q,
       serve (GET "/todos" q) e' (serve req e w).2
       = ({| status := 200; payload := VArr (todos ++ [created e title body]) |},
          (serve req e w).2)
       /\ serve req e' (serve req e w).2 = (conflict, (serve req e w).2).
Proof.
  intros [P Mt] PB T Tt Refl B Tb L R F Fa.
  assert (S : serve req e w
              = ({| status := 201; payload := created e title body |},
                 stored (VArr (todos ++ [created e title body])) w)).
  { unfold serve. rewrite (route_create _ _ P Mt).
    rewrite (create_new req e w json title body todos PB T B Tt Tb L
               (differs_records _ _ _ R F)). reflexivity. }
  rewrite S. simpl. split; [reflexivity|]. intros e' q. split.
  - apply get_all_loaded. apply Fa.
  - unfold serve. rewrite (route_create _ _ P Mt).
    rewrite (create_conflict req e' _ json title body
               (todos ++ [created e title body])
               (parseBody_moved _ _ _ _ PB) T B Tt Tb (Fa w)); [reflexivity| |].
    + apply Forall_app. split; [exact R|]. repeat constructor.
    + apply Exists_app. right. constructor. unfold has. simpl. exact Refl.
Qed.

(** *** Limits of the duplicate check and of the id *)

Lemma has_object_value k props t : has k (VObj props) t = false.
Proof. unfold has. destruct (get_prop t k) as [v|]; [destruct v|]; reflexivity. Qed.

Lemma has_array_value k items t : has k (VArr items) t = false.
Proof. unfold has. destruct (get_prop t k) as [v|]; [destruct v|]; reflexivity. Qed.

(** X14. The duplicate check compares titles with the strict comparison,
    under which an object or an array taken from the payload equals no
    stored value.  A create whose title is an object or an array is
    therefore never answered 409: on any collection of records, whatever
    their titles, the record is appended and saved. *)
Theorem structured_title_never_conflicts
  (req : request) (e : env) (w : world) (json title body : value)
  (todos : list value) :
  is_create req ->
  parseBody req w = (Returned json, w) ->
  get_prop json "title" = Returned title ->
  (exists props, title = VObj props) \/ (exists items, title = VArr items) ->
  get_prop json "body" = Returned body ->
  truthy body = true \/ body = VStr "" ->
  readTodos w = (Returned (VArr todos), w) ->
  records todos ->
  serve req e w
  = ({| status := 201; payload := created e title body |},
     {| document := Some (JSON_stringify (VArr (todos ++ [created e title body])));
        saved := VArr (todos ++ [created e title body]) :: saved w |}).
Proof.
  intros [P Mt] PB T St B Tb L R.
  assert (Tt : truthy title = true) by (destruct St as [[? ->]|[? ->]]; reflexivity).
  assert (F : Forall (fun t => has "title" title t = false) todos).
  { apply Forall_forall. intros t _.
    destruct St as [[? ->]|[? ->]]; [apply has_object_value|apply has_array_value]. }
  unfold serve. rewrite (route_create _ _ P Mt).
  rewrite (create_new req e w json title body todos PB T B Tt Tb L
             (differs_records _ _ _ R F)). reflexivity.
Qed.

Lemma lookup_key_id i : String.eqb i "" = false -> lookup_key [("id", i)] = ("id", VStr i).
Proof. intros E. unfold lookup_key. simpl. rewrite E. reflexivity. Qed.

(** X15. The id of a new record is not compared with the stored ids.
    When a stored record already has the id that the clock and the random
    draw produce, the create still answers 201 and appends the record, and
    a fetch by that id then answers with the older record, the first one
    that carries it. *)
Theorem id_is_not_checked
  (req : request) (e : env) (w : world) (json title body : value)
  (pre post : list value) (t : value) :
  is_create req ->
  parseBody req w = (Returned json, w) ->
  get_prop json "title" = Returned title -> truthy title = true ->
  get_prop json "body" = Returned body ->
  truthy body = true \/ body = VStr "" ->
  readTodos w = (Returned (VArr (pre ++ t :: post)), w) ->
  records (pre ++ t :: post) ->
  Forall (fun u => has "title" title u = false) (pre ++ t :: post) ->
  Forall (fun u => has "id" (VStr (makeId e)) u = false) pre ->
  has "id" (VStr (makeId e)) t = true ->
  faithful (VArr ((pre ++ t :: post) ++ [created e title body])) ->
  (serve req e w).1 = {| status := 201; payload := created e title body |}
  /\ get_prop (created e title body) "id" = Returned (VStr (makeId e))
  /\ forall e',
       serve (fetch [("id", makeId e)]) e' (serve req e w).2
       = ({| status := 200; payload := t |}, (serve req e w).2).
Proof.
  intros [P Mt] PB T Tt B Tb L R F Fi Hi Fa.
  assert (S : serve req e w
              = ({| status := 201; payload := created e title body |},
                 stored (VArr ((pre ++ t :: post) ++ [created e title body])) w)).
  { unfold serve. rewrite (route_create _ _ P Mt).
    rewrite (create_new req e w json title body _ PB T B Tt Tb L
               (differs_records _ _ _ R F)). reflexivity. }
  rewrite S. simpl. split; [reflexivity|]. split; [reflexivity|]. intros e'.
  pose proof (Fa w) as L1. revert L1.
  replace ((pre ++ t :: post) ++ [created e title body])
    with (pre ++ t :: (post ++ [created e title body]))
    by (rewrite <- app_assoc; reflexivity).
  intros L1. unfold fetch.
  apply (get_one_finds _ _ pre t (post ++ [created e title body]) L1);
    rewrite (lookup_key_id _ (makeId_nonempty e)); simpl.
  - apply differs_records; [|exact Fi].
    unfold records in *. apply Forall_app in R as [R _]. exact R.
  - apply has_prop_is. exact Hi.
Qed.

(** *** Documents that are not collections of records *)

(** X16. When the document parses to something that is not an array, the
    list route still answers 200 with it, as it is; get-one answers 500,
    and so do create, update and delete once the request has passed the
    checks that come before the load.  No request changes such a store. *)
Theorem non_array_document (w : world) (v : value) :
  readTodos w = (Returned v, w) -> (forall l, v <> VArr l) ->
  (forall e q, serve (GET "/todos" q) e w = ({| status := 200; payload := v |}, w))
  /\ (forall e q, serve (fetch q) e w = (internal_error, w))
  /\ (forall req e json title body,
        is_create req -> parseBody req w = (Returned json, w) ->
        get_prop json "title" = Returned title -> truthy title = true ->
        get_prop json "body" = Returned body ->
        truthy body = true \/ body = VStr "" ->
        serve req e w = (internal_error, w))
  /\ (forall req e json body,
        is_update req -> parseBody req w = (Returned json, w) ->
        get_prop json "body" = Returned body -> body <> VUndefined ->
        serve req e w = (internal_error, w))
  /\ (forall req e,
        is_delete req ->
        truthy (searchParams_get "id" (searchParams req)) = true
        \/ truthy (searchParams_get "title" (searchParams req)) = true ->
        serve req e w = (internal_error, w))
  /\ (forall req e, (serve req e w).2 = w).
Proof.
  intros L Na.
  assert (Af : forall f, Array_find v f = Thrown TypeError).
  { intros f. destruct v; try reflexivity. destruct (Na _ eq_refl). }
  assert (Ai : forall f, Array_findIndex v f = Thrown TypeError).
  { intros f. destruct v; try reflexivity. destruct (Na _ eq_refl). }
  assert (Afl : forall f, Array_filter v f = Thrown TypeError).
  { intros f. destruct v; try reflexivity. destruct (Na _ eq_refl). }
  split; [intros e q; apply get_all_loaded; exact L|].
  split.
  { intros e q. unfold serve, route, get_one, fetch. run. rewrite L. simpl.
    rewrite !Af. destruct (truthy _); reflexivity. }
  split.
  { intros req e json title body [P Mt] PB T Tt B Tb. unfold serve.
    rewrite (route_create _ _ P Mt). unfold create_todo. run.
    rewrite PB, T, B, Tt. simpl.
    assert (negb (truthy body) && negb (strict_eq body (VStr "")) = false) as ->.
    { destruct Tb as [-> | ->]; reflexivity. }
    rewrite L. simpl. rewrite Af. reflexivity. }
  split.
  { intros req e json body [P Mt] PB B Nu. apply strict_eq_undefined in Nu.
    unfold serve. rewrite (route_update _ _ P Mt). unfold update_todo. run.
    rewrite PB, B, Nu, L. simpl. rewrite !Ai. destruct (truthy _); reflexivity. }
  split.
  { intros req e [P Mt] Given. unfold serve. rewrite (route_delete _ _ P Mt).
    unfold delete_todo. run.
    assert (negb (truthy (searchParams_get "id" (searchParams req)))
            && negb (truthy (searchParams_get "title" (searchParams req))) = false) as ->.
    { destruct Given as [-> | ->]; simpl; [reflexivity|apply andb_false_r]. }
    rewrite L. simpl. rewrite Afl. reflexivity. }
  intros req e. destruct (serve_step req e w) as [E|(l & new & L0 & _)]; [exact E|].
  rewrite L in L0. injection L0 as ->. destruct (Na _ eq_refl).
Qed.

Lemma filter_null f l :
  (forall t e, f t = Thrown e -> e = TypeError) ->
  f VNull = Thrown TypeError -> In VNull l -> filter f l = Thrown TypeError.
Proof.
  intros Hf Hn. induction l as [|t l IH]; simpl; [intros []|].
  intros I. destruct (f t) as [keep|e0] eqn:Ft.
  - destruct I as [->|I]; [congruence|]. rewrite (IH I). reflexivity.
  - rewrite (Hf _ _ Ft). reflexivity.
Qed.

(** X17. Delete reads every element of the collection.  A null among
    them, wherever it stands, makes a delete that gives a key answer 500,
    and nothing is saved. *)
Theorem delete_fails_on_null_entry
  (req : request) (e : env) (w : world) (todos : list value) :
  is_delete req ->
  truthy (searchParams_get "id" (searchParams req)) = true
  \/ truthy (searchParams_get "title" (searchParams req)) = true ->
  readTodos w = (Returned (VArr todos), w) ->
  In VNull todos ->
  serve req e w = (internal_error, w).
Proof.
  intros [P Mt] Given L I. unfold serve. rewrite (route_delete _ _ P Mt).
  unfold delete_todo. run.
  assert (negb (truthy (searchParams_get "id" (searchParams req)))
          && negb (truthy (searchParams_get "title" (searchParams req))) = false) as ->.
  { destruct Given as [-> | ->]; simpl; [reflexivity|apply andb_false_r]. }
  rewrite L. simpl. rewrite filter_null; [reflexivity| |  |exact I].
  - intros t e0 Ht. destruct (truthy _); eapply prop_is_not_throws; exact Ht.
  - destruct (truthy _); reflexivity.
Qed.

(** *** What every request keeps *)

Lemma omap_sublist {A B} (f : A -> option B) (l1 l2 : list A) :
  sublist l1 l2 -> sublist (omap f l1) (omap f l2).
Proof.
  induction 1 as [|x l1 l2 _ IH|x l1 l2 _ IH]; simpl.
  - constructor.
  - destruct (f x); [constructor|]; exact IH.
  - destruct (f x); [constructor|]; exact IH.
Qed.

Lemma string_title_after_body x props :
  string_title (VObj (assoc_set "body" x props)) = string_title (VObj props).
Proof.
  unfold string_title. simpl. rewrite assoc_set_other; [reflexivity|discriminate].
Qed.

Lemma string_title_created e title body :
  string_title (created e title body)
  = match title with VStr s => Some s | _ => None end.
Proof. reflexivity. Qed.

Lemma fresh_string_title s l :
  Forall (fun t => prop_is "title" (VStr s) t = Returned false) l ->
  s ∉ string_titles l.
Proof.
  intros F I. apply list_elem_of_omap in I as (t & It & St).
  rewrite Forall_forall in F. specialize (F t It).
  unfold string_title in St. unfold prop_is in F.
  destruct (get_prop t "title") as [v|]; [|discriminate].
  destruct v; try discriminate. injection St as ->.
  simpl in F. rewrite String.eqb_refl in F. discriminate.
Qed.

(** One request keeps the string titles of the collection distinct. *)
Lemma serve_keeps_titles req e w todos :
  readTodos w = (Returned (VArr todos), w) ->
  NoDup (string_titles todos) ->
  (serve req e w).2 = w
  \/ (exists new, (serve req e w).2 = stored (VArr new) w
                  /\ NoDup (string_titles new)).
Proof.
  intros L Nd. unfold serve, route.
  destruct (String.eqb (pathname req) "/todos" && _).
  { left. pose proof (get_all_world w). destruct (get_all w) as [[?|?] ?]; assumption. }
  destruct (String.eqb (pathname req) "/todo" && _).
  { left. pose proof (get_one_world req w).
    destruct (get_one req w) as [[?|?] ?]; assumption. }
  destruct (String.eqb (pathname req) "/todos/create-todo" && _).
  { destruct (create_todo req e w) as [o w'] eqn:C.
    apply create_cases in C
      as [[-> _]|(json & title & body & l & _ & _ & _ & _ & _ & L0 & F & -> & ->)].
    - left. destruct o; reflexivity.
    - right. rewrite L in L0. injection L0 as <-. eexists. split; [reflexivity|].
      unfold string_titles. rewrite omap_app. simpl.
      rewrite string_title_created. destruct title; try (rewrite app_nil_r; exact Nd).
      apply NoDup_app. split; [exact Nd|]. split; [|apply NoDup_singleton].
      intros s' I Is. apply list_elem_of_singleton in Is. subst s'.
      exact (fresh_string_title _ _ F I). }
  destruct (String.eqb (pathname req) "/todos/update-todo" && _).
  { destruct (update_todo req w) as [o w'] eqn:U.
    apply update_cases in U
      as [[-> _]|(json & x & pre & props & post & _ & _ & _ & L0 & _ & _ & -> & ->)].
    - left. destruct o; reflexivity.
    - right. rewrite L in L0. injection L0 as ->. eexists. split; [reflexivity|].
      revert Nd. unfold string_titles. rewrite !omap_app. simpl.
      rewrite string_title_after_body. auto. }
  destruct (String.eqb (pathname req) "/todos/delete-todo" && _).
  { destruct (delete_todo req w) as [o w'] eqn:D.
    apply delete_cases in D as [->|(l & kept & L0 & Sub & -> & ->)].
    - left. destruct o; reflexivity.
    - right. rewrite L in L0. injection L0 as <-. eexists. split; [reflexivity|].
      eapply sublist_NoDup; [exact Nd|]. apply omap_sublist. exact Sub. }
  left. reflexivity.
Qed.

(** X18. No two records ever get the same string title: when the string
    titles of the loaded collection are distinct, they are distinct in
    whatever a request saves, and they stay distinct over any sequence of
    requests in which the documents written load back as the collections
    saved. *)
Theorem string_titles_stay_distinct (w : world) (todos : list value) :
  readTodos w = (Returned (VArr todos), w) ->
  NoDup (string_titles todos) ->
  (forall req e,
     (serve req e w).2 = w
     \/ (exists new,
           (serve req e w).2
           = {| document := Some (JSON_stringify (VArr new));
                saved := VArr new :: saved w |}
           /\ NoDup (string_titles new)))
  /\ (forall reqs later,
        saved (serve_all reqs w).2 = later ++ saved w ->
        Forall faithful later ->
        exists todos',
          readTodos (serve_all reqs w).2
          = (Returned (VArr todos'), (serve_all reqs w).2)
          /\ NoDup (string_titles todos')).
Proof.
  intros L Nd. split; [intros req e; exact (serve_keeps_titles req e w todos L Nd)|].
  intros reqs. revert w todos L Nd.
  induction reqs as [|[req e] rest IH]; intros w todos L Nd later G Fa.
  - exists todos. split; assumption.
  - rewrite serve_all_cons in *.
    destruct (serve_keeps_titles req e w todos L Nd) as [E|(new & E & Nd')].
    + rewrite E in *. eapply IH; eassumption.
    + rewrite E in *.
      destruct (saved_grows rest (stored (VArr new) w)) as [later' G'].
      assert (later = later' ++ [VArr new]) as ->.
      { apply (app_inv_tail (saved w)). rewrite <- G, G', <- app_assoc. reflexivity. }
      apply Forall_app in Fa as [Fa Fn]. apply Forall_cons in Fn as [Fn _].
      exact (IH _ new (Fn w) Nd' later' G' Fa).
Qed.

Lemma same_record_keeps a b : same_record a b -> keeps_fields a b.
Proof.
  intros [->|[x Hx]] k Nk; [reflexivity|].
  destruct a; simpl in Hx; try discriminate; injection Hx as <-; try reflexivity.
  simpl. rewrite (assoc_set_other _ _ _ _ Nk). reflexivity.
Qed.

(** *** Inputs that a route does not read *)

(** X20. Only the create route reads the clock and the random source;
    only create and update read the request body; list and create do not
    read the query.  Changing an input that the route does not read changes
    neither the answer nor the store. *)
Theorem unread_inputs (req req' : request) (e e' : env) (w : world) :
  pathname req' = pathname req -> method req' = method req ->
  (~ is_create req -> serve req e' w = serve req e w)
  /\ (searchParams req' = searchParams req ->
      ~ is_create req -> ~ is_update req ->
      serve req' e w = serve req e w)
  /\ (data req' = data req ->
      is_create req \/ (pathname req = "/todos" /\ method req = "GET") ->
      serve req' e w = serve req e w).
Proof.
  intros P Mt. split; [|split].
  - intros Nc. unfold serve, route.
    destruct (String.eqb (pathname req) "/todos" && _); [reflexivity|].
    destruct (String.eqb (pathname req) "/todo" && _); [reflexivity|].
    destruct (String.eqb (pathname req) "/todos/create-todo" && _) eqn:Rc;
      [|reflexivity].
    destruct Nc. apply route_taken in Rc. exact Rc.
  - intros Q Nc Nu. unfold serve, route. rewrite P, Mt.
    destruct (String.eqb (pathname req) "/todos" && _); [reflexivity|].
    destruct (String.eqb (pathname req) "/todo" && _).
    { unfold get_one. rewrite Q. reflexivity. }
    destruct (String.eqb (pathname req) "/todos/create-todo" && _) eqn:Rc.
    { destruct Nc. apply route_taken in Rc. exact Rc. }
    destruct (String.eqb (pathname req) "/todos/update-todo" && _) eqn:Ru.
    { destruct Nu. apply route_taken in Ru. exact Ru. }
    destruct (String.eqb (pathname req) "/todos/delete-todo" && _); [|reflexivity].
    unfold delete_todo. rewrite Q. reflexivity.
  - intros D R. unfold serve, route. rewrite P, Mt.
    destruct R as [[Pc Mc]|[Pl Ml]].
    + rewrite Pc, Mc. simpl. unfold create_todo, parseBody. rewrite D. reflexivity.
    + rewrite Pl, Ml. reflexivity.
Qed.

(** *** Generated ids *)

Lemma string_of_uint_no_hyphen d : no_hyphen (NilEmpty.string_of_uint d) = true.
Proof. induction d; simpl; auto. Qed.

Lemma string_of_Z_no_hyphen z : 0 <= z -> no_hyphen (string_of_Z z) = true.
Proof.
  intros Hz. unfold string_of_Z. destruct z as [|p|p]; [reflexivity| |lia].
  simpl. unfold NilZero.string_of_uint.
  destruct (Pos.to_uint p); try reflexivity; apply (string_of_uint_no_hyphen (_ _)).
Qed.

Lemma string_of_Z_inj z z' : string_of_Z z = string_of_Z z' -> z = z'.
Proof.
  unfold string_of_Z. intros E. apply DecimalZ.to_int_inj.
  assert (Ok : forall n, Z.to_int n <> Decimal.Pos Decimal.Nil
                         /\ Z.to_int n <> Decimal.Neg Decimal.Nil).
  { intros [|p|p]; simpl; split; try discriminate; intros [= E'];
      exact (DecimalPos.Unsigned.to_uint_nonnil p E'). }
  destruct (Ok z) as [A B], (Ok z') as [A' B'].
  pose proof (NilZero.isi _ A B) as I. pose proof (NilZero.isi _ A' B') as I'.
  rewrite E in I. congruence.
Qed.

Lemma split_at_hyphen a a' b b' :
  no_hyphen a = true -> no_hyphen a' = true ->
  a +:+ String "-" b = a' +:+ String "-" b' -> a = a' /\ b = b'.
Proof.
  revert a'. induction a as [|c a IH]; intros [|c' a']; simpl; intros Na Na' E.
  - injection E as ->. auto.
  - injection E as <- _. discriminate.
  - injection E as -> _. discriminate.
  - injection E as -> E. apply andb_prop in Na as [_ Na], Na' as [_ Na'].
    destruct (IH _ Na Na' E) as [-> ->]. auto.
Qed.

(** X21. Two generated ids are the same only when both the millisecond
    and the random draw are: from the id one reads back the time before the
    hyphen and the draw after it (the clock is not before the epoch). *)
Theorem makeId_injective (e1 e2 : env) :
  0 <= Date_now e1 -> 0 <= Date_now e2 ->
  makeId e1 = makeId e2 ->
  Date_now e1 = Date_now e2 /\ random_10000 e1 = random_10000 e2.
Proof.
  intros H1 H2 E. unfold makeId in E.
  apply split_at_hyphen in E as [Ea Eb]; try (apply string_of_Z_no_hyphen; assumption).
  split; apply string_of_Z_inj; assumption.
Qed.

(** * Positions over a session *)

Lemma index_after_filter_spec p l i j :
  index_after_filter p l i = Some j ->
  (j <= i)%nat
  /\ exists t, l !! i = Some t /\ p t = true /\ List.filter p l !! j = Some t.
Proof.
  unfold index_after_filter. destruct (l !! i) as [t|] eqn:Li; [|discriminate].
  destruct (p t) eqn:Pt; [|discriminate]. intros [= <-].
  pose proof (lookup_lt_Some _ _ _ Li) as Lt.
  split.
  - pose proof (List.filter_length_le p (take i l)). rewrite length_take in *. lia.
  - exists t. repeat split; auto.
    assert (E : List.filter p l
                = List.filter p (take i l) ++ t :: List.filter p (drop (S i) l)).
    { rewrite <- (take_drop_middle l i t Li) at 1.
      rewrite List.filter_app. simpl. rewrite Pt. reflexivity. }
    rewrite E. apply list_lookup_middle. reflexivity.
Qed.

Lemma index_after_filter_mono p l i i2 j j2 :
  (i < i2)%nat ->
  index_after_filter p l i = Some j -> index_after_filter p l i2 = Some j2 ->
  (j < j2)%nat.
Proof.
  unfold index_after_filter. intros Lt.
  destruct (l !! i) as [t|] eqn:Li; [|discriminate].
  destruct (p t) eqn:Pt; [|discriminate]. intros [= <-].
  destruct (l !! i2) as [t2|] eqn:Li2; [|discriminate].
  destruct (p t2); [|discriminate]. intros [= <-].
  pose proof (lookup_lt_Some _ _ _ Li) as Lti.
  assert (E : take i2 l = take i l ++ t :: take (i2 - S i) (drop (S i) l)).
  { rewrite <- (take_drop_middle l i t Li) at 1.
    rewrite take_app_ge by (rewrite length_take; lia).
    rewrite length_take.
    replace (i2 - i `min` length l)%nat with (S (i2 - S i)) by lia.
    reflexivity. }
  rewrite E, List.filter_app. simpl. rewrite Pt.
  rewrite length_app. simpl. lia.
Qed.

Lemma filter_pure (f : value -> outcome bool) (p : value -> bool) l kept :
  (forall t b, f t = Returned b -> b = p t) ->
  filter f l = Returned kept -> kept = List.filter p l.
Proof.
  intros Hf. revert kept. induction l as [|t l IH]; simpl; intros kept E.
  - congruence.
  - destruct (f t) as [b|] eqn:Ft; [|discriminate].
    destruct (filter f l) as [rest|]; [|discriminate]. injection E as <-.
    rewrite <- (Hf _ _ Ft), <- (IH rest eq_refl). reflexivity.
Qed.

Lemma prop_is_not_returned k x t b :
  prop_is_not k x t = Returned b -> b = negb (has k x t).
Proof.
  unfold prop_is_not, has. destruct (get_prop t k); simpl; [|discriminate]. congruence.
Qed.

(** A delete answered 200 has saved the loaded collection without the
    records that carry the key. *)
Lemma delete_success req e w :
  is_delete req -> status (serve req e w).1 = 200 ->
  exists l,
    readTodos w = (Returned (VArr l), w)
    /\ (serve req e w).2
       = stored (VArr (List.filter (delete_keeps (searchParams req)) l)) w.
Proof.
  intros [P Mt]. unfold serve. rewrite (route_delete _ _ P Mt).
  unfold delete_todo. run.
  destruct (negb _ && negb _); simpl; [discriminate|].
  rewrite (readTodos_eq w). destruct (readTodos w).1 as [todos|err] eqn:L; simpl.
  2: { intros St. destruct (caught_status err) as [E|E]; rewrite E in St; discriminate. }
  destruct (Array_filter todos _) as [kept|err] eqn:F; simpl.
  2: { intros St. destruct (caught_status err) as [E|E]; rewrite E in St; discriminate. }
  destruct (_ =? _) eqn:Len; simpl; [discriminate|]. intros _.
  destruct todos as [| | | | |l|]; simpl in F; try discriminate.
  match type of F with obind (filter ?f l) _ = _ =>
    destruct (filter f l) as [k0|] eqn:Fl; simpl in F; [|discriminate] end.
  injection F as <-. exists l. split; [reflexivity|].
  apply (filter_pure _ (delete_keeps (searchParams req))) in Fl as ->; [reflexivity|].
  intros t b. unfold delete_keeps, lookup_key.
  destruct (truthy _); apply prop_is_not_returned.
Qed.

(** One request: every record of the loaded collection that is still
    there stands at the index that [index_after] gives, as the same record
    up to its body, no later than before, and in the order it had. *)
Lemma step_tracks req e w todos :
  readTodos w = (Returned (VArr todos), w) ->
  exists new,
    (((serve req e w).2 = w /\ new = todos)
     \/ (serve req e w).2 = stored (VArr new) w)
    /\ (forall i i' t,
          todos !! i = Some t -> index_after req e w i = Some i' ->
          (i' <= i)%nat /\ exists t', new !! i' = Some t' /\ same_record t t')
    /\ (forall i j i' j',
          (i < j)%nat -> index_after req e w i = Some i' ->
          index_after req e w j = Some j' -> (i' < j')%nat).
Proof.
  intros L. unfold index_after.
  destruct (String.eqb (pathname req) "/todos/delete-todo"
            && String.eqb (method req) "DELETE"
            && (status (serve req e w).1 =? 200)) eqn:C.
  - apply andb_prop in C as [C St]. apply route_taken in C. apply Z.eqb_eq in St.
    destruct (delete_success req e w C St) as (l & L0 & E).
    rewrite L in L0. injection L0 as <-.
    assert (Lw : (readTodos w).1 = Returned (VArr todos)) by (rewrite L; reflexivity).
    rewrite Lw. exists (List.filter (delete_keeps (searchParams req)) todos).
    split; [right; exact E|]. split.
    + intros i i' t Hi Ix. apply index_after_filter_spec in Ix as (Le & t0 & Hi0 & _ & Hf).
      split; [exact Le|]. exists t0. split; [exact Hf|]. left. congruence.
    + intros i j i' j' Lt. apply index_after_filter_mono. exact Lt.
  - assert (Id : forall new : list value,
              (forall i t, todos !! i = Some t ->
                           exists t', new !! i = Some t' /\ same_record t t') ->
              (forall i i' t, todos !! i = Some t -> Some i = Some i' ->
                 (i' <= i)%nat /\ exists t', new !! i' = Some t' /\ same_record t t')
              /\ (forall i j i' j', (i < j)%nat -> Some i = Some i' ->
                                    Some j = Some j' -> (i' < j')%nat)).
    { intros new Hn. split.
      - intros i i' t Hi [= <-]. split; [lia|]. apply (Hn _ _ Hi).
      - intros i j i' j' Lt [= <-] [= <-]. exact Lt. }
    destruct (serve_write req e w) as [E|(l & new & L0 & E & Ch & St)].
    + exists todos. split; [left; split; [exact E|reflexivity]|].
      apply Id. intros i t Hi. exists t. split; [exact Hi|left; reflexivity].
    + rewrite L in L0. injection L0 as <-. exists new. split; [right; exact E|].
      apply Id. destruct Ch as [r _ _|k t0 t0' x _ _ Hk Hs|l' P Mt _].
      * intros i t Hi. exists t. split; [|left; reflexivity].
        apply lookup_app_l_Some. exact Hi.
      * intros i t Hi. destruct (decide (i = k)) as [->|Ne].
        -- exists t0'. split.
           ++ apply list_lookup_insert_eq. apply (lookup_lt_Some _ _ _ Hk).
           ++ right. exists x. congruence.
        -- exists t. split; [|left; reflexivity].
           rewrite list_lookup_insert_ne by congruence. exact Hi.
      * exfalso. rewrite P, Mt in C. simpl in C.
        destruct St as [[[Pc _] _]|[_ St]].
        -- rewrite P in Pc. discriminate.
        -- rewrite St in C. discriminate.
Qed.

(** After one request of a session whose written documents load back as
    saved, the collection of [step_tracks] is the one that loads. *)
Lemma step_reloads req e w new rest later :
  ((serve req e w).2 = w /\ readTodos w = (Returned (VArr new), w))
  \/ (serve req e w).2 = stored (VArr new) w ->
  saved (serve_all rest (serve req e w).2).2 = later ++ saved w ->
  Forall faithful later ->
  exists later',
    readTodos (serve req e w).2 = (Returned (VArr new), (serve req e w).2)
    /\ saved (serve_all rest (serve req e w).2).2 = later' ++ saved (serve req e w).2
    /\ Forall faithful later'.
Proof.
  intros W G Fa. destruct W as [[E L]|E]; rewrite E in *.
  - exists later. auto.
  - destruct (saved_grows rest (stored (VArr new) w)) as [later' G'].
    assert (later = later' ++ [VArr new]) as ->.
    { apply (app_inv_tail (saved w)). rewrite <- G, G', <- app_assoc. reflexivity. }
    apply Forall_app in Fa as [Fa Fn]. apply Forall_cons in Fn as [Fn _].
    exists later'. split; [apply Fn|]. split; [exact G'|exact Fa].
Qed.

(** A session in which the documents written load back as saved: the
    records that [position_after] follows are there at the end, no later
    than they were and in the order they had. *)
Lemma session_tracks reqs w todos later :
  readTodos w = (Returned (VArr todos), w) ->
  saved (serve_all reqs w).2 = later ++ saved w ->
  Forall faithful later ->
  exists todos',
    readTodos (serve_all reqs w).2 = (Returned (VArr todos'), (serve_all reqs w).2)
    /\ (forall i i' t,
          todos !! i = Some t -> position_after reqs w i = Some i' ->
          (i' <= i)%nat /\ exists t', todos' !! i' = Some t' /\ same_record t t')
    /\ (forall i j i' j',
          (i < j)%nat -> position_after reqs w i = Some i' ->
          position_after reqs w j = Some j' -> (i' < j')%nat).
Proof.
  revert w todos later. induction reqs as [|[req e] rest IH]; intros w todos later L G Fa.
  - exists todos. split; [exact L|]. split.
    + intros i i' t Hi [= <-]. split; [lia|]. exists t. split; [exact Hi|left; reflexivity].
    + intros i j i' j' Lt [= <-] [= <-]. exact Lt.
  - rewrite serve_all_cons in *.
    destruct (step_tracks req e w todos L) as (new & W & Keep & Mono).
    destruct (step_reloads req e w new rest later) as (later' & L1 & G1 & Fa1);
      [destruct W as [[E ->]|E]; [left|right]; auto|exact G|exact Fa|].
    destruct (IH _ new later' L1 G1 Fa1) as (todos' & L' & Keep' & Mono').
    exists todos'. split; [exact L'|]. split.
    + intros i i' t Hi. simpl.
      destruct (index_after req e w i) as [j|] eqn:Ix; [|discriminate]. intros Px.
      destruct (Keep _ _ _ Hi Ix) as (Le & t1 & H1 & S1).
      destruct (Keep' _ _ _ H1 Px) as (Le' & t' & H' & S').
      split; [lia|]. exists t'. split; [exact H'|].
      eapply same_record_trans; eassumption.
    + intros i j i' j' Lt. simpl.
      destruct (index_after req e w i) as [a|] eqn:Ia; [|discriminate].
      destruct (index_after req e w j) as [b|] eqn:Ib; [|discriminate].
      intros Pa Pb. apply (Mono' a b); auto. apply (Mono i j); auto.
Qed.

(** [index_after] gives up a record only under a delete answered 200 whose
    key the record carries. *)
Lemma index_after_none req e w todos i t :
  readTodos w = (Returned (VArr todos), w) ->
  todos !! i = Some t -> index_after req e w i = None ->
  is_delete req /\ status (serve req e w).1 = 200
  /\ has (lookup_key (searchParams req)).1 (lookup_key (searchParams req)).2 t = true.
Proof.
  intros L Hi. unfold index_after.
  destruct (String.eqb (pathname req) "/todos/delete-todo"
            && String.eqb (method req) "DELETE"
            && (status (serve req e w).1 =? 200)) eqn:C; [|discriminate].
  apply andb_prop in C as [C St]. apply route_taken in C. apply Z.eqb_eq in St.
  rewrite L. simpl. unfold index_after_filter, delete_keeps. rewrite Hi.
  destruct (has _ _ t); simpl; [auto|discriminate].
Qed.

(** Over such a session a record is lost from [position_after] only at a
    delete answered 200 whose key the record then carries. *)
Lemma session_loses reqs w todos later :
  readTodos w = (Returned (VArr todos), w) ->
  saved (serve_all reqs w).2 = later ++ saved w ->
  Forall faithful later ->
  forall i t,
    todos !! i = Some t -> position_after reqs w i = None ->
    exists pre req e rest l j t',
      reqs = pre ++ (req, e) :: rest
      /\ readTodos (serve_all pre w).2 = (Returned (VArr l), (serve_all pre w).2)
      /\ position_after pre w i = Some j
      /\ l !! j = Some t' /\ same_record t t'
      /\ is_delete req
      /\ status (serve req e (serve_all pre w).2).1 = 200
      /\ has (lookup_key (searchParams req)).1 (lookup_key (searchParams req)).2 t'
         = true.
Proof.
  revert w todos later. induction reqs as [|[req e] rest IH];
    intros w todos later L G Fa i t Hi; simpl; [discriminate|].
  destruct (index_after req e w i) as [j|] eqn:Ix.
  - intros Px. rewrite serve_all_cons in G.
    destruct (step_tracks req e w todos L) as (new & W & Keep & _).
    destruct (step_reloads req e w new rest later) as (later' & L1 & G1 & Fa1);
      [destruct W as [[E ->]|E]; [left|right]; auto|exact G|exact Fa|].
    destruct (Keep _ _ _ Hi Ix) as (_ & t1 & H1 & S1).
    destruct (IH _ new later' L1 G1 Fa1 j t1 H1 Px)
      as (pre & req' & e' & rest' & l & j' & t' & -> & Lp & Pp & Hl & S' & D & St & Has).
    exists ((req, e) :: pre), req', e', rest', l, j', t'.
    rewrite serve_all_cons. simpl. rewrite Ix.
    repeat split; try assumption; try apply D.
    eapply same_record_trans; eassumption.
  - intros _. destruct (index_after_none req e w todos i t L Hi Ix) as (D & St & Has).
    exists [], req, e, rest, todos, i, t. simpl.
    repeat split; try assumption; try apply D. left. reflexivity.
Qed.

(** C9. Order is insertion order.  One request either leaves the store as
    it was or saves the loaded collection changed in the way of its route:
    with a record appended at its end (create), with one record rewritten
    where it stands (update), or with some records left out and the others
    in the order they had (delete).  Over any sequence of requests in which
    the documents written load back as the collections saved,
    [position_after] follows each record of the first collection through
    the deletes answered 200: a record that it still places stands at that
    index of the final collection, the same record up to its body, never
    further from the front than it was; two such records stand in the
    order they had; and a record is given up only at a delete answered 200
    whose key the record carries at that time. *)
Theorem order_is_preserved (w : world) (todos : list value) :
  readTodos w = (Returned (VArr todos), w) ->
  (forall req e,
     (serve req e w).2 = w
     \/ (exists new,
           (serve req e w).2
           = {| document := Some (JSON_stringify (VArr new));
                saved := VArr new :: saved w |}
           /\ change req todos new))
  /\ (forall reqs later,
        saved (serve_all reqs w).2 = later ++ saved w ->
        Forall faithful later ->
        exists todos',
          readTodos (serve_all reqs w).2
          = (Returned (VArr todos'), (serve_all reqs w).2)
          /\ (forall i i' t,
                todos !! i = Some t -> position_after reqs w i = Some i' ->
                (i' <= i)%nat
                /\ exists t', todos' !! i' = Some t' /\ same_record t t')
          /\ (forall i j i' j',
                (i < j)%nat ->
                position_after reqs w i = Some i' ->
                position_after reqs w j = Some j' ->
                (i' < j')%nat)
          /\ (forall i t,
                todos !! i = Some t -> position_after reqs w i = None ->
                exists pre req e rest l j t',
                  reqs = pre ++ (req, e) :: rest
                  /\ readTodos (serve_all pre w).2
                     = (Returned (VArr l), (serve_all pre w).2)
                  /\ position_after pre w i = Some j
                  /\ l !! j = Some t' /\ same_record t t'
                  /\ is_delete req
                  /\ status (serve req e (serve_all pre w).2).1 = 200
                  /\ has (lookup_key (searchParams req)).1
                         (lookup_key (searchParams req)).2 t' = true)).
Proof.
  intros L. split.
  - intros req e. destruct (serve_step req e w) as [E|(l & new & L0 & E & Ch)];
      [left; exact E|right].
    rewrite L in L0. injection L0 as <-. exists new. split; assumption.
  - intros reqs later G Fa.
    destruct (session_tracks reqs w todos later L G Fa) as (todos' & L' & Keep & Mono).
    exists todos'. split; [exact L'|]. split; [exact Keep|]. split; [exact Mono|].
    apply (session_loses reqs w todos later L G Fa).
Qed.

(** X19. No request changes the id, the title or the creation time of a
    record.  Over any sequence of requests in which the documents written
    load back as the collections saved, every record of the first
    collection that [position_after] still places stands at that index of
    the final collection with all its properties but the body as they
    were, the three included; and a record is placed as long as the
    sequence has no delete request. *)
Theorem records_keep_their_fields
  (reqs : list (request * env)) (w : world) (todos later : list value) :
  readTodos w = (Returned (VArr todos), w) ->
  saved (serve_all reqs w).2 = later ++ saved w ->
  Forall faithful later ->
  exists todos',
    readTodos (serve_all reqs w).2 = (Returned (VArr todos'), (serve_all reqs w).2)
    /\ (forall i i' t,
          todos !! i = Some t -> position_after reqs w i = Some i' ->
          exists t',
            todos' !! i' = Some t'
            /\ keeps_fields t t'
            /\ get_prop t' "id" = get_prop t "id"
            /\ get_prop t' "title" = get_prop t "title"
            /\ get_prop t' "createdAt" = get_prop t "createdAt")
    /\ (forall i t,
          todos !! i = Some t -> position_after reqs w i = None ->
          exists req e, In (req, e) reqs /\ is_delete req).
Proof.
  intros L G Fa.
  destruct (session_tracks reqs w todos later L G Fa) as (todos' & L' & Keep & _).
  exists todos'. split; [exact L'|]. split.
  - intros i i' t Hi Px. destruct (Keep _ _ _ Hi Px) as (_ & t' & H' & Sr).
    exists t'. split; [exact H'|].
    pose proof (same_record_keeps t t' Sr) as K.
    split; [exact K|]. repeat split; apply K; discriminate.
  - intros i t Hi Px.
    destruct (session_loses reqs w todos later L G Fa i t Hi Px)
      as (pre & req & e & rest & _ & _ & _ & -> & _ & _ & _ & _ & D & _).
    exists req, e. split; [|exact D]. apply in_or_app. right. left. reflexivity.
Qed.

Lemma find_split {A} (p : A -> bool) l t :
  List.find p l = Some t ->
  exists pre post,
    l = pre ++ t :: post /\ Forall (fun u => p u = false) pre /\ p t = true.
Proof.
  induction l as [|a l IH]; simpl; [discriminate|].
  destruct (p a) eqn:Pa.
  - intros [= ->]. exists [], l. auto.
  - intros F. destruct (IH F) as (pre & post & -> & Fp & Pt).
    exists (a :: pre), post. auto.
Qed.

(** C4, as the code has it. When the query carries an id that is not the
    empty string, get-one, update and delete look the record up by that id
    and do not read the title parameter: the answer and the store are those
    of the same request carrying the id alone.  On a collection of records
    get-one answers with the first record whose id property is that id, or
    404 when there is none; update writes the body of the first record
    whose id property is that id, where it stands, saves the collection and
    answers with the record, or answers 404 and saves nothing when there is
    none; delete saves the collection without the records whose id
    property is that id, or answers 404 and saves nothing when there is
    none. *)
Theorem id_takes_precedence (req : request) (e : env) (w : world) (id : string) :
  searchParams_get "id" (searchParams req) = VStr id -> id <> "" ->
  serve req e w = serve (only_id req id) e w
  /\ (pathname req = "/todo" -> method req = "GET" ->
      forall todos,
        readTodos w = (Returned (VArr todos), w) -> records todos ->
        serve req e w
        = (match List.find (has "id" (VStr id)) todos with
           | Some t => {| status := 200; payload := t |}
           | None => not_found
           end, w))
  /\ (is_update req ->
      forall json x todos,
        parseBody req w = (Returned json, w) ->
        get_prop json "body" = Returned x -> x <> VUndefined ->
        readTodos w = (Returned (VArr todos), w) -> records todos ->
        match List.find (has "id" (VStr id)) todos with
        | Some t =>
            exists pre post t',
              todos = pre ++ t :: post
              /\ Forall (fun u => has "id" (VStr id) u = false) pre
              /\ set_prop t "body" x = Returned t'
              /\ serve req e w
                 = ({| status := 200; payload := t' |},
                    {| document := Some (JSON_stringify (VArr (pre ++ t' :: post)));
                       saved := VArr (pre ++ t' :: post) :: saved w |})
        | None => serve req e w = (not_found, w)
        end)
  /\ (is_delete req ->
      forall todos,
        readTodos w = (Returned (VArr todos), w) -> records todos ->
        let kept := List.filter (fun t => negb (has "id" (VStr id) t)) todos in
        (Forall (fun t => has "id" (VStr id) t = false) todos ->
         serve req e w = (not_found, w))
        /\ (Exists (fun t => has "id" (VStr id) t = true) todos ->
            serve req e w
            = (deleted,
               {| document := Some (JSON_stringify (VArr kept));
                  saved := VArr kept :: saved w |}))).
Proof.
  intros Q Ne.
  assert (Ne' : String.eqb id "" = false) by (apply String.eqb_neq; exact Ne).
  assert (Tr : truthy (VStr id) = true) by (simpl; rewrite Ne'; reflexivity).
  assert (Key : lookup_key (searchParams req) = ("id", VStr id)).
  { unfold lookup_key. rewrite Q, Tr. reflexivity. }
  split; [|split; [|split]].
  - unfold serve, route, only_id. simpl.
    repeat match goal with
           | |- context [if ?c then _ else _] =>
               lazymatch c with
               | andb (String.eqb (pathname _) _) _ => destruct c
               end
           end; try reflexivity.
    + unfold get_one. simpl. rewrite Q, Tr, Ne'. reflexivity.
    + unfold update_todo, parseBody. simpl. rewrite Q, Tr, Ne'. reflexivity.
    + unfold delete_todo. simpl. rewrite Q, Tr. simpl. rewrite ?Ne'. reflexivity.
  - intros P Mt todos L R. unfold serve. rewrite (route_get_one _ _ P Mt).
    unfold get_one. run. rewrite Q. simpl. rewrite Ne', L. simpl.
    rewrite (find_records _ _ _ R).
    destruct (List.find _ todos) as [t|] eqn:F; simpl; [|reflexivity].
    apply List.find_some in F as [_ Ht].
    rewrite (has_truthy _ _ _ Ht); [reflexivity|discriminate].
  - intros [P Mt] json x todos PB B Nu L R.
    destruct (List.find _ todos) as [t|] eqn:F.
    + apply find_split in F as (pre & post & -> & Fp & Ht).
      destruct (has_object _ _ _ Ht) as [props ->]; [discriminate|].
      exists pre, post, (VObj (assoc_set "body" x props)).
      split; [reflexivity|]. split; [exact Fp|]. split; [reflexivity|].
      apply Forall_app in R as [Rp _].
      unfold serve. rewrite (route_update _ _ P Mt).
      rewrite (update_first req w json x pre props post PB B Nu L); rewrite ?Key;
        [reflexivity|apply (differs_records _ _ _ Rp Fp)|exact Ht].
    + unfold serve. rewrite (route_update _ _ P Mt).
      rewrite (update_none req w json x todos PB B Nu L); [reflexivity|].
      rewrite Key. apply (differs_records _ _ _ R).
      apply List.Forall_forall. intros u I. apply (List.find_none _ _ F u I).
  - intros [P Mt] todos L R kept.
    assert (Given : truthy (searchParams_get "id" (searchParams req)) = true
                    \/ truthy (searchParams_get "title" (searchParams req)) = true)
      by (left; rewrite Q; exact Tr).
    unfold serve. rewrite (route_delete _ _ P Mt). split.
    + intros F. rewrite (delete_nothing req w todos Given L R); [reflexivity|].
      rewrite Key. exact F.
    + intros Ex. rewrite (delete_some req w todos Given L R); rewrite ?Key;
        [reflexivity|exact Ex].
Qed.

End Properties.

(** * Examples

    The theorems above at work on a small store, under [js]. *)

Section Examples.

Lemma records_eggs_milk : records [eggs; milk].
Proof. repeat constructor. Qed.

Lemma create_appends_example :
  @serve js create_milk clock (on_disk (VArr [eggs]))
  = ({| status := 201; payload := milk |},
     {| document := Some (show 0 (VArr [eggs; milk]));
        saved := [VArr [eggs; milk]] |}).
Proof.
  apply (@create_appends js create_milk clock (on_disk (VArr [eggs])) milk_payload
           (VStr "buy milk") (VStr "") [eggs]); try reflexivity.
  - right. reflexivity.
  - repeat constructor.
  - repeat constructor.
Defined.

Lemma create_duplicate_conflict_example :
  @serve js create_milk clock (on_disk (VArr [eggs; milk]))
  = ({| status := 409;
        payload := error_payload "Todo with this title already exists" |},
     on_disk (VArr [eggs; milk]))
  /\ @readTodos js (on_disk (VArr [eggs; milk]))
     = (Returned (VArr [eggs; milk]), on_disk (VArr [eggs; milk])).
Proof.
  destruct (@create_duplicate_conflict js create_milk clock
              (on_disk (VArr [eggs; milk])) milk_payload
              (VStr "buy milk") (VStr "") [eggs; milk])
    as (S & _ & _ & L); try reflexivity.
  - right. reflexivity.
  - exact records_eggs_milk.
  - apply Exists_cons_tl, Exists_cons_hd. reflexivity.
  - split; [exact S|exact L].
Defined.

(** Against C3 as stated: a payload whose body key is there, holding
    null, is turned down with the validation error, so the body key being
    present is not enough. *)
Lemma create_rejects_null_body :
  assoc "title" [("title", VStr "buy milk"); ("body", VNull)] = Some (VStr "buy milk")
  /\ assoc "body" [("title", VStr "buy milk"); ("body", VNull)] = Some VNull
  /\ @parseBody js (POST "/todos/create-todo" (show 0 null_body_payload)) no_file
     = (Returned (VObj [("title", VStr "buy milk"); ("body", VNull)]), no_file)
  /\ @serve js (POST "/todos/create-todo" (show 0 null_body_payload)) clock no_file
     = ({| status := 400; payload := error_payload "title and body are required" |},
        no_file).
Proof. repeat split. Qed.

Lemma create_validation_example :
  (@serve js (POST "/todos/create-todo" (show 0 null_body_payload)) clock no_file).1
  = validation_error
  /\ (@serve js create_milk clock no_file).1 <> validation_error.
Proof.
  split.
  - apply (proj1 (@create_validation js (POST "/todos/create-todo"
                    (show 0 null_body_payload)) clock no_file eq_refl eq_refl)).
    exists null_body_payload, (VStr "buy milk"), VNull.
    repeat split. right. split; [reflexivity|discriminate].
  - apply (proj2 (@create_validation js create_milk clock no_file eq_refl eq_refl)
             milk_payload (VStr "buy milk") ""); reflexivity.
Defined.

(** Against C4 as stated: with an id parameter that is the empty string
    the lookup goes by the title.  Get-one answers with the record of that
    title, whose id is not the empty string, and delete removes it; with
    the empty id alone get-one finds nothing and delete asks for a key. *)
Lemma empty_id_falls_back_to_title :
  @serve js (GET "/todo" [("id", ""); ("title", "buy milk")]) clock
    (on_disk (VArr [eggs; milk]))
  = ({| status := 200; payload := milk |}, on_disk (VArr [eggs; milk]))
  /\ has "id" (VStr "") milk = false
  /\ @serve js (GET "/todo" [("id", "")]) clock (on_disk (VArr [eggs; milk]))
     = (not_found, on_disk (VArr [eggs; milk]))
  /\ @serve js (GET "/todo" [("id", ""); ("title", "eggs")]) clock
       (on_disk (VArr [eggs; milk]))
     = ({| status := 200; payload := eggs |}, on_disk (VArr [eggs; milk]))
  /\ @serve js (DELETE "/todos/delete-todo" [("id", ""); ("title", "buy milk")]) clock
       (on_disk (VArr [eggs; milk]))
     = (deleted, {| document := Some (show 0 (VArr [eggs])); saved := [VArr [eggs]] |})
  /\ (@serve js (DELETE "/todos/delete-todo" [("id", "")]) clock
        (on_disk (VArr [eggs; milk]))).1
     = {| status := 400; payload := error_payload "id or title query param required" |}.
Proof. repeat split. Qed.

Lemma update_changes_body_only_example :
  @serve js patch_milk clock (on_disk (VArr [eggs; milk]))
  = ({| status := 200; payload := milk_2pc |},
     {| document := Some (show 0 (VArr [eggs; milk_2pc]));
        saved := [VArr [eggs; milk_2pc]] |})
  /\ exists (todos : list value) (i : nat) (t t' newBody : value),
       @readTodos js (on_disk (VArr [eggs; milk]))
       = (Returned (VArr todos), on_disk (VArr [eggs; milk]))
       /\ todos !! i = Some t
       /\ set_prop t "body" newBody = Returned t'
       /\ get_prop t' "id" = get_prop t "id"
       /\ get_prop t' "title" = get_prop t "title"
       /\ get_prop t' "createdAt" = get_prop t "createdAt"
       /\ length (<[i := t']> todos) = length todos
       /\ {| status := 200; payload := milk_2pc |}
          = {| status := 200; payload := t' |}.
Proof.
  split; [reflexivity|].
  destruct (@update_changes_body_only js patch_milk clock
              (on_disk (VArr [eggs; milk]))
              {| document := Some (show 0 (VArr [eggs; milk_2pc]));
                 saved := [VArr [eggs; milk_2pc]] |}
              {| status := 200; payload := milk_2pc |}
              eq_refl eq_refl eq_refl eq_refl)
    as (todos & i & t & t' & x & L & Hi & Hs & _ & _ & Hid & Ht & Hc & _ & _ & Hl & _ & _ & Hr).
  exists todos, i, t, t', x. repeat split; assumption.
Defined.

Lemma delete_removes_matches_example :
  Exists (fun t => has "title" (VStr "buy milk") t = true) [eggs; milk]
  /\ @serve js (DELETE "/todos/delete-todo" [("title", "buy milk")]) clock
       (on_disk (VArr [eggs; milk]))
     = (deleted, {| document := Some (show 0 (VArr [eggs])); saved := [VArr [eggs]] |})
  /\ @serve js (DELETE "/todos/delete-todo" [("title", "bread")]) clock
       (on_disk (VArr [eggs; milk]))
     = (not_found, on_disk (VArr [eggs; milk])).
Proof.
  assert (Ex : Exists (fun t => has "title" (VStr "buy milk") t = true) [eggs; milk]).
  { apply Exists_cons_tl, Exists_cons_hd. reflexivity. }
  split; [exact Ex|]. split.
  - apply (@delete_removes_matches js
             (DELETE "/todos/delete-todo" [("title", "buy milk")]) clock
             (on_disk (VArr [eggs; milk])) [eggs; milk] eq_refl eq_refl
             (or_intror eq_refl) eq_refl records_eggs_milk).
    exact Ex.
  - apply (@delete_removes_matches js
             (DELETE "/todos/delete-todo" [("title", "bread")]) clock
             (on_disk (VArr [eggs; milk])) [eggs; milk] eq_refl eq_refl
             (or_intror eq_refl) eq_refl records_eggs_milk).
    repeat constructor.
Defined.

Lemma fetch_created_example :
  @serve js create_milk clock (on_disk (VArr [eggs]))
  = ({| status := 201; payload := milk |},
     {| document := Some (show 0 (VArr [eggs; milk]));
        saved := [VArr [eggs; milk]] |})
  /\ @serve js (GET "/todo" [("id", "1700000000000-42")]) clock
       {| document := Some (show 0 (VArr [eggs; milk]));
          saved := [VArr [eggs; milk]] |}
     = ({| status := 200; payload := milk |},
        {| document := Some (show 0 (VArr [eggs; milk]));
           saved := [VArr [eggs; milk]] |})
  /\ @serve js (GET "/todo" [("title", "buy milk")]) clock
       {| document := Some (show 0 (VArr [eggs; milk]));
          saved := [VArr [eggs; milk]] |}
     = ({| status := 200; payload := milk |},
        {| document := Some (show 0 (VArr [eggs; milk]));
           saved := [VArr [eggs; milk]] |}).
Proof.
  split; [reflexivity|].
  apply (@fetch_created_by_id_or_title js create_milk clock
           (on_disk (VArr [eggs]))
           {| document := Some (show 0 (VArr [eggs; milk]));
              saved := [VArr [eggs; milk]] |}
           milk [eggs] eq_refl eq_refl eq_refl eq_refl eq_refl)
    with (i := "1700000000000-42") (s := "buy milk"); try reflexivity.
  apply NoDup_cons. split; [|apply NoDup_singleton].
  rewrite list_elem_of_singleton. discriminate.
Defined.

Lemma readTodos_cases_example :
  @readTodos js no_file = (Returned (VArr []), no_file)
  /\ @readTodos js {| document := Some ""; saved := [] |}
     = (Returned (VArr []), {| document := Some ""; saved := [] |})
  /\ @serve js (GET "/todos" []) clock {| document := Some "[{"; saved := [] |}
     = (internal_error, {| document := Some "[{"; saved := [] |})
  /\ @serve js (GET "/todos" []) clock (on_disk (VArr [eggs; milk]))
     = ({| status := 200; payload := VArr [eggs; milk] |}, on_disk (VArr [eggs; milk])).
Proof.
  split; [|split; [|split]].
  - apply (proj1 (@readTodos_cases js no_file)). reflexivity.
  - apply (proj1 (proj2 (@readTodos_cases js {| document := Some ""; saved := [] |})));
      reflexivity.
  - apply (proj1 (proj2 (proj2 (@readTodos_cases js
                                   {| document := Some "[{"; saved := [] |})))
             "[{" eq_refl); [discriminate|reflexivity].
  - apply (proj2 (proj2 (proj2 (@readTodos_cases js (on_disk (VArr [eggs; milk])))))
             (show 0 (VArr [eggs; milk])) (VArr [eggs; milk]) eq_refl);
      [discriminate|reflexivity].
Defined.

Lemma empty_body_example :
  @serve js (POST "/todos/create-todo" "") clock (on_disk (VArr [eggs]))
  = ({| status := 400; payload := error_payload "title and body are required" |},
     on_disk (VArr [eggs]))
  /\ @serve js (PATCH "/todos/update-todo" [("title", "eggs")] "") clock
       (on_disk (VArr [eggs]))
     = ({| status := 400; payload := error_payload "body is required in payload" |},
        on_disk (VArr [eggs])).
Proof.
  split.
  - apply (@empty_body_is_empty_object js (POST "/todos/create-todo" "") clock
             (on_disk (VArr [eggs])) eq_refl); reflexivity.
  - apply (@empty_body_is_empty_object js
             (PATCH "/todos/update-todo" [("title", "eggs")] "") clock
             (on_disk (VArr [eggs])) eq_refl); reflexivity.
Defined.

(** ** The further properties at work *)

Lemma route_not_found_example :
  (@serve js (DELETE "/todos" []) clock (on_disk (VArr [eggs]))).1 = route_not_found
  /\ (@serve js (DELETE "/todos" []) clock (on_disk (VArr [eggs]))).2
     = on_disk (VArr [eggs])
  /\ (@serve js (GET "/todos" []) clock (on_disk (VArr [eggs]))).1 <> route_not_found.
Proof.
  destruct (@route_not_found_iff js (DELETE "/todos" []) clock (on_disk (VArr [eggs])))
    as [Iff Same].
  split; [apply Iff; reflexivity|]. split; [apply Same; reflexivity|].
  intros E.
  apply (@route_not_found_iff js (GET "/todos" []) clock (on_disk (VArr [eggs]))) in E.
  discriminate E.
Defined.

Lemma malformed_body_example :
  @serve js (POST "/todos/create-todo" "{") clock (on_disk (VArr [eggs]))
  = (invalid_json, on_disk (VArr [eggs]))
  /\ @serve js (PATCH "/todos/update-todo" [("title", "eggs")] "{") clock
       (on_disk (VArr [eggs]))
     = (invalid_json, on_disk (VArr [eggs])).
Proof.
  split.
  - apply (@malformed_body_rejected js); [left; split; reflexivity|discriminate|reflexivity].
  - apply (@malformed_body_rejected js); [right; split; reflexivity|discriminate|reflexivity].
Defined.

Lemma non_object_payload_example :
  @serve js2 (POST "/todos/create-todo" "null") clock no_file = (internal_error, no_file)
  /\ @serve js2 (PATCH "/todos/update-todo" [("title", "eggs")] "null") clock no_file
     = (internal_error, no_file)
  /\ @serve js2 (POST "/todos/create-todo" "[]") clock no_file
     = (validation_error, no_file)
  /\ @serve js2 (PATCH "/todos/update-todo" [("title", "eggs")] "[]") clock no_file
     = (body_required, no_file).
Proof.
  split; [|split; [|split]].
  - exact (proj1 (proj1 (@non_object_payload js2 (POST "/todos/create-todo" "null")
                           clock no_file VNull eq_refl) eq_refl)
             (conj eq_refl eq_refl)).
  - exact (proj2 (proj1 (@non_object_payload js2
                           (PATCH "/todos/update-todo" [("title", "eggs")] "null")
                           clock no_file VNull eq_refl) eq_refl)
             (conj eq_refl eq_refl)).
  - refine (proj1 (proj2 (@non_object_payload js2 (POST "/todos/create-todo" "[]")
                            clock no_file (VArr []) eq_refl) _ _ _)
              (conj eq_refl eq_refl)); discriminate.
  - refine (proj2 (proj2 (@non_object_payload js2
                            (PATCH "/todos/update-todo" [("title", "eggs")] "[]")
                            clock no_file (VArr []) eq_refl) _ _ _)
              (conj eq_refl eq_refl)); discriminate.
Defined.

Lemma writes_only_on_success_example :
  (@serve js create_milk clock (on_disk (VArr [eggs; milk]))).2
  = on_disk (VArr [eggs; milk])
  /\ (@serve js (GET "/todo" [("title", "eggs")]) clock (on_disk (VArr [eggs; milk]))).2
     = on_disk (VArr [eggs; milk]).
Proof.
  split.
  - apply (proj1 (proj2 (@writes_only_on_success js create_milk clock
                           (on_disk (VArr [eggs; milk]))))).
    vm_compute. intros E. discriminate E.
  - apply (proj2 (proj2 (@writes_only_on_success js (GET "/todo" [("title", "eggs")])
                           clock (on_disk (VArr [eggs; milk]))))).
    reflexivity.
Defined.

Lemma answers_by_route_example :
  (@serve js (DELETE "/todos/delete-todo" [("title", "eggs")]) clock
     (on_disk (VArr [eggs; milk]))).1 = deleted
  \/ (@serve js (DELETE "/todos/delete-todo" [("title", "eggs")]) clock
        (on_disk (VArr [eggs; milk]))).1 = key_required
  \/ (@serve js (DELETE "/todos/delete-todo" [("title", "eggs")]) clock
        (on_disk (VArr [eggs; milk]))).1 = not_found
  \/ (@serve js (DELETE "/todos/delete-todo" [("title", "eggs")]) clock
        (on_disk (VArr [eggs; milk]))).1 = internal_error.
Proof.
  apply (proj2 (proj2 (proj2 (proj2
           (@answers_by_route js (DELETE "/todos/delete-todo" [("title", "eggs")]) clock
              (on_disk (VArr [eggs; milk]))))))).
  split; reflexivity.
Defined.

Lemma delete_requires_key_example :
  @serve js (DELETE "/todos/delete-todo" [("id", "")]) clock
    {| document := Some "[{"; saved := [] |}
  = (key_required, {| document := Some "[{"; saved := [] |})
  /\ (@serve js (DELETE "/todos/delete-todo" [("title", "eggs")]) clock
        (on_disk (VArr [eggs]))).1 <> key_required.
Proof.
  split.
  - apply (proj2 (@delete_requires_key js (DELETE "/todos/delete-todo" [("id", "")])
                    clock no_file (conj eq_refl eq_refl))); reflexivity.
  - intros E.
    apply (proj1 (@delete_requires_key js
                    (DELETE "/todos/delete-todo" [("title", "eggs")])
                    clock (on_disk (VArr [eggs])) (conj eq_refl eq_refl))) in E.
    destruct E as [_ E]. discriminate E.
Defined.

Lemma update_requires_body_example :
  (@serve js2 (PATCH "/todos/update-todo" [("title", "buy milk")] "{}") clock
     (on_disk (VArr [milk]))).1 = body_required
  /\ (@serve js2 (PATCH "/todos/update-todo" [("title", "buy milk")]
                   (show 0 null_patch)) clock (on_disk (VArr [milk]))).1
     <> body_required.
Proof.
  split.
  - apply (proj1 (@update_requires_body js2
                    (PATCH "/todos/update-todo" [("title", "buy milk")] "{}") clock
                    (on_disk (VArr [milk])) (conj eq_refl eq_refl))).
    exists (VObj []). split; reflexivity.
  - apply (proj2 (@update_requires_body js2
                    (PATCH "/todos/update-todo" [("title", "buy milk")]
                       (show 0 null_patch))
                    clock (on_disk (VArr [milk])) (conj eq_refl eq_refl))
             null_patch VNull); [reflexivity|reflexivity|discriminate].
Defined.

Lemma get_one_first_match_example :
  @serve js (GET "/todo" [("title", "buy milk")]) clock (on_disk (VArr [eggs; milk]))
  = ({| status := 200; payload := milk |}, on_disk (VArr [eggs; milk]))
  /\ @serve js (GET "/todo" []) clock (on_disk (VArr [eggs; milk]))
     = (not_found, on_disk (VArr [eggs; milk])).
Proof.
  split.
  - apply (proj1 (@get_one_first_match js (GET "/todo" [("title", "buy milk")]) clock
                    (on_disk (VArr [eggs; milk])) eq_refl eq_refl) [eggs] milk []);
      try reflexivity; repeat constructor.
  - apply (proj1 (proj2 (@get_one_first_match js (GET "/todo" []) clock
                           (on_disk (VArr [eggs; milk])) eq_refl eq_refl))
             [eggs; milk]); try reflexivity; repeat constructor.
Defined.

Lemma update_first_match_only_example :
  exists t',
    set_prop milk "body" (VStr "2%") = Returned t'
    /\ get_prop t' "body" = Returned (VStr "2%")
    /\ @serve js2 patch_milk clock (on_disk (VArr [eggs; milk; milk]))
       = ({| status := 200; payload := t' |},
          {| document := Some (show 0 (VArr [eggs; t'; milk]));
             saved := [VArr [eggs; t'; milk]] |}).
Proof.
  apply (@update_first_match_only js2 patch_milk clock
           (on_disk (VArr [eggs; milk; milk]))
           body_payload (VStr "2%") [eggs] [milk] milk);
    try reflexivity; try discriminate.
  - split; reflexivity.
  - repeat constructor.
  - repeat constructor.
Defined.

Lemma update_missing_not_found_example :
  @serve js (PATCH "/todos/update-todo" [("title", "bread")] (show 0 body_payload))
    clock (on_disk (VArr [eggs; milk]))
  = (not_found, on_disk (VArr [eggs; milk])).
Proof.
  apply (@update_missing_not_found js
           (PATCH "/todos/update-todo" [("title", "bread")] (show 0 body_payload))
           clock (on_disk (VArr [eggs; milk])) body_payload (VStr "2%") [eggs; milk]);
    try reflexivity; try discriminate.
  - split; reflexivity.
  - exact records_eggs_milk.
  - repeat constructor.
Defined.

Lemma delete_then_gone_example :
  (@serve js (DELETE "/todos/delete-todo" [("title", "buy milk")]) clock
     (on_disk (VArr [eggs; milk]))).1 = deleted
  /\ @serve js (GET "/todo" [("title", "buy milk")]) clock
       {| document := Some (show 0 (VArr [eggs])); saved := [VArr [eggs]] |}
     = (not_found, {| document := Some (show 0 (VArr [eggs])); saved := [VArr [eggs]] |})
  /\ @serve js (DELETE "/todos/delete-todo" [("title", "buy milk")]) clock
       {| document := Some (show 0 (VArr [eggs])); saved := [VArr [eggs]] |}
     = (not_found, {| document := Some (show 0 (VArr [eggs])); saved := [VArr [eggs]] |}).
Proof.
  destruct (@delete_then_gone js (DELETE "/todos/delete-todo" [("title", "buy milk")])
              clock (on_disk (VArr [eggs; milk])) [eggs; milk]
              (conj eq_refl eq_refl) (or_intror eq_refl) eq_refl records_eggs_milk)
    as [Del After].
  - apply Exists_cons_tl, Exists_cons_hd. reflexivity.
  - intros w. reflexivity.
  - split; [exact Del|]. exact (After clock).
Defined.

Lemma update_then_fetch_example :
  (@serve js patch_milk clock (on_disk (VArr [eggs; milk]))).1
  = {| status := 200; payload := milk_2pc |}
  /\ @serve js (GET "/todo" [("title", "buy milk")]) clock
       (@serve js patch_milk clock (on_disk (VArr [eggs; milk]))).2
     = ({| status := 200; payload := milk_2pc |},
        (@serve js patch_milk clock (on_disk (VArr [eggs; milk]))).2).
Proof.
  destruct (@update_then_fetch js patch_milk clock (on_disk (VArr [eggs; milk]))
              body_payload (VStr "2%") [eggs] [] milk milk_2pc
              (conj eq_refl eq_refl) eq_refl eq_refl)
    as (Ans & _ & _ & After); try reflexivity; try discriminate.
  - repeat constructor.
  - repeat constructor.
  - intros w. reflexivity.
  - split; [exact Ans|exact (After clock)].
Defined.

Lemma create_then_list_and_conflict_example :
  (@serve js create_milk clock (on_disk (VArr [eggs]))).1
  = {| status := 201; payload := milk |}
  /\ @serve js (GET "/todos" []) clock
       (@serve js create_milk clock (on_disk (VArr [eggs]))).2
     = ({| status := 200; payload := VArr [eggs; milk] |},
        (@serve js create_milk clock (on_disk (VArr [eggs]))).2)
  /\ @serve js create_milk clock_fr
       (@serve js create_milk clock (on_disk (VArr [eggs]))).2
     = (conflict, (@serve js create_milk clock (on_disk (VArr [eggs]))).2).
Proof.
  destruct (@create_then_list_and_conflict js create_milk clock (on_disk (VArr [eggs]))
              milk_payload (VStr "buy milk") (VStr "") [eggs]
              (conj eq_refl eq_refl) eq_refl eq_refl eq_refl eq_refl eq_refl
              (or_intror eq_refl) eq_refl)
    as [Ans After].
  - repeat constructor.
  - repeat constructor.
  - intros w. reflexivity.
  - split; [exact Ans|]. split.
    + exact (proj1 (After clock [])).
    + exact (proj2 (After clock_fr [])).
Defined.

Lemma structured_title_example :
  @serve js2 (POST "/todos/create-todo" (show 0 tagged_payload)) clock
    (on_disk (VArr [eggs; milk]))
  = ({| status := 201; payload := tagged |},
     {| document := Some (show 0 (VArr [eggs; milk; tagged]));
        saved := [VArr [eggs; milk; tagged]] |})
  /\ (@serve js2 (POST "/todos/create-todo" (show 0 tagged_payload)) clock
        (on_disk (VArr [eggs; milk; tagged]))).1
     = {| status := 201; payload := tagged |}.
Proof.
  split.
  - apply (@structured_title_never_conflicts js2
             (POST "/todos/create-todo" (show 0 tagged_payload)) clock
             (on_disk (VArr [eggs; milk])) tagged_payload (VArr [VStr "shop"]) (VStr "")
             [eggs; milk]); try reflexivity.
    + split; reflexivity.
    + right. eauto.
    + right. reflexivity.
    + exact records_eggs_milk.
  - rewrite (@structured_title_never_conflicts js2
               (POST "/todos/create-todo" (show 0 tagged_payload)) clock
               (on_disk (VArr [eggs; milk; tagged])) tagged_payload
               (VArr [VStr "shop"]) (VStr "") [eggs; milk; tagged]); try reflexivity.
    + split; reflexivity.
    + right. eauto.
    + right. reflexivity.
    + repeat constructor.
Defined.

Lemma id_is_not_checked_example :
  (@serve js2 (POST "/todos/create-todo" (show 0 bread_payload)) clock
     (on_disk (VArr [milk]))).1
  = {| status := 201; payload := bread |}
  /\ get_prop bread "id" = get_prop milk "id"
  /\ @serve js2 (GET "/todo" [("id", "1700000000000-42")]) clock
       (@serve js2 (POST "/todos/create-todo" (show 0 bread_payload)) clock
          (on_disk (VArr [milk]))).2
     = ({| status := 200; payload := milk |},
        (@serve js2 (POST "/todos/create-todo" (show 0 bread_payload)) clock
           (on_disk (VArr [milk]))).2).
Proof.
  destruct (@id_is_not_checked js2 (POST "/todos/create-todo" (show 0 bread_payload))
              clock (on_disk (VArr [milk])) bread_payload (VStr "bread") (VStr "")
              [] [] milk (conj eq_refl eq_refl) eq_refl eq_refl eq_refl eq_refl
              (or_intror eq_refl) eq_refl)
    as (Ans & _ & After); try reflexivity.
  - repeat constructor.
  - repeat constructor.
  - constructor.
  - intros w. reflexivity.
  - split; [exact Ans|]. split; [reflexivity|exact (After clock)].
Defined.

Lemma non_array_document_example :
  @serve js2 (GET "/todos" []) clock {| document := Some "{}"; saved := [] |}
  = ({| status := 200; payload := VObj [] |}, {| document := Some "{}"; saved := [] |})
  /\ @serve js2 (GET "/todo" [("title", "eggs")]) clock
       {| document := Some "{}"; saved := [] |}
     = (internal_error, {| document := Some "{}"; saved := [] |})
  /\ @serve js2 (DELETE "/todos/delete-todo" [("title", "eggs")]) clock
       {| document := Some "{}"; saved := [] |}
     = (internal_error, {| document := Some "{}"; saved := [] |}).
Proof.
  destruct (@non_array_document js2 {| document := Some "{}"; saved := [] |} (VObj [])
              eq_refl) as (List & Get & _ & _ & Del & _); [discriminate|].
  split; [exact (List clock [])|]. split; [exact (Get clock [("title", "eggs")])|].
  exact (Del (DELETE "/todos/delete-todo" [("title", "eggs")]) clock
           (conj eq_refl eq_refl) (or_intror eq_refl)).
Defined.

Lemma delete_fails_on_null_entry_example :
  @serve js2 (DELETE "/todos/delete-todo" [("title", "buy milk")]) clock
    (on_disk (VArr [VNull; milk]))
  = (internal_error, on_disk (VArr [VNull; milk])).
Proof.
  apply (@delete_fails_on_null_entry js2
           (DELETE "/todos/delete-todo" [("title", "buy milk")]) clock
           (on_disk (VArr [VNull; milk])) [VNull; milk]
           (conj eq_refl eq_refl) (or_intror eq_refl) eq_refl).
  left. reflexivity.
Defined.

Lemma session_saves_faithfully :
  Forall (@faithful js) [VArr [milk_2pc]; VArr [eggs; milk_2pc]; VArr [eggs; milk]].
Proof. repeat constructor; intros w; reflexivity. Qed.

Lemma string_titles_stay_distinct_example :
  exists todos',
    @readTodos js (@serve_all js session (on_disk (VArr [eggs]))).2
    = (Returned (VArr todos'), (@serve_all js session (on_disk (VArr [eggs]))).2)
    /\ NoDup (string_titles todos').
Proof.
  refine (proj2 (@string_titles_stay_distinct js (on_disk (VArr [eggs])) [eggs]
                   eq_refl _) session
            [VArr [milk_2pc]; VArr [eggs; milk_2pc]; VArr [eggs; milk]]
            eq_refl session_saves_faithfully).
  apply NoDup_singleton.
Defined.

Lemma unread_inputs_example :
  @serve js (GET "/todo" [("title", "eggs")]) clock_fr (on_disk (VArr [eggs]))
  = @serve js (GET "/todo" [("title", "eggs")]) clock (on_disk (VArr [eggs]))
  /\ @serve js {| method := "DELETE"; pathname := "/todos/delete-todo";
                  searchParams := [("title", "eggs")]; data := "{" |}
       clock (on_disk (VArr [eggs]))
     = @serve js (DELETE "/todos/delete-todo" [("title", "eggs")]) clock
         (on_disk (VArr [eggs])).
Proof.
  split.
  - apply (proj1 (@unread_inputs js (GET "/todo" [("title", "eggs")])
                    (GET "/todo" [("title", "eggs")]) clock clock_fr
                    (on_disk (VArr [eggs])) eq_refl eq_refl)).
    intros [E _]. discriminate E.
  - apply (proj1 (proj2 (@unread_inputs js
                           (DELETE "/todos/delete-todo" [("title", "eggs")])
                           {| method := "DELETE"; pathname := "/todos/delete-todo";
                              searchParams := [("title", "eggs")]; data := "{" |}
                           clock clock (on_disk (VArr [eggs])) eq_refl eq_refl))
             eq_refl); intros [E _]; discriminate E.
Defined.

Lemma makeId_injective_example :
  makeId clock = makeId clock_fr
  /\ Date_now clock = Date_now clock_fr
  /\ random_10000 clock = random_10000 clock_fr.
Proof.
  split; [reflexivity|].
  apply (makeId_injective clock clock_fr); [vm_compute; discriminate ..|reflexivity].
Defined.

(** Against C1 as stated: the payload has a title that is not empty and a
    body key, and no record of the collection has the title, yet nothing
    is appended: the body is null, the answer is 400 and the store is as it
    was. *)
Lemma create_null_body_not_appended :
  get_prop null_body_payload "title" = Returned (VStr "buy milk")
  /\ assoc "body" [("title", VStr "buy milk"); ("body", VNull)] = Some VNull
  /\ @readTodos js (on_disk (VArr [eggs]))
     = (Returned (VArr [eggs]), on_disk (VArr [eggs]))
  /\ Forall (fun t => has "title" (VStr "buy milk") t = false) [eggs]
  /\ @serve js (POST "/todos/create-todo" (show 0 null_body_payload)) clock
       (on_disk (VArr [eggs]))
     = (validation_error, on_disk (VArr [eggs]))
  /\ status validation_error <> 201.
Proof.
  repeat split; try reflexivity; [repeat constructor|discriminate].
Qed.

(** Against C6 as stated: a delete that supplies a title, the empty one,
    neither removes a record nor answers 404 but is turned down with 400;
    and a delete that supplies an id, the empty one, with a title removes
    the record of that title, although no record has that id. *)
Lemma delete_empty_parameter :
  searchParams_get "title" [("title", "")] = VStr ""
  /\ @serve js (DELETE "/todos/delete-todo" [("title", "")]) clock
       (on_disk (VArr [eggs; milk]))
     = (key_required, on_disk (VArr [eggs; milk]))
  /\ searchParams_get "id" [("id", ""); ("title", "eggs")] = VStr ""
  /\ Forall (fun t => has "id" (VStr "") t = false) [eggs; milk]
  /\ @serve js (DELETE "/todos/delete-todo" [("id", ""); ("title", "eggs")]) clock
       (on_disk (VArr [eggs; milk]))
     = (deleted, {| document := Some (show 0 (VArr [milk])); saved := [VArr [milk]] |}).
Proof.
  repeat split; try reflexivity. repeat constructor.
Qed.

(** Against C7 as stated: the collection holds one record, so its ids and
    its titles are unique; the create answers 201 with the bread, whose
    generated id is the id of the milk; fetching by that id then answers
    with the milk, fetching by the title with the bread. *)
Lemma created_record_behind_same_id :
  @readTodos js2 (on_disk (VArr [milk])) = (Returned (VArr [milk]), on_disk (VArr [milk]))
  /\ NoDup (ids [milk])
  /\ NoDup (map (fun t => get_prop t "title") [milk])
  /\ @serve js2 (POST "/todos/create-todo" (show 0 bread_payload)) clock
       (on_disk (VArr [milk]))
     = ({| status := 201; payload := bread |},
        {| document := Some (show 0 (VArr [milk; bread]));
           saved := [VArr [milk; bread]] |})
  /\ get_prop bread "id" = Returned (VStr "1700000000000-42")
  /\ get_prop bread "title" = Returned (VStr "bread")
  /\ @serve js2 (GET "/todo" [("id", "1700000000000-42")]) clock
       {| document := Some (show 0 (VArr [milk; bread]));
          saved := [VArr [milk; bread]] |}
     = ({| status := 200; payload := milk |},
        {| document := Some (show 0 (VArr [milk; bread]));
           saved := [VArr [milk; bread]] |})
  /\ @serve js2 (GET "/todo" [("title", "bread")]) clock
       {| document := Some (show 0 (VArr [milk; bread]));
          saved := [VArr [milk; bread]] |}
     = ({| status := 200; payload := bread |},
        {| document := Some (show 0 (VArr [milk; bread]));
           saved := [VArr [milk; bread]] |})
  /\ milk <> bread.
Proof.
  repeat split; try reflexivity; try apply NoDup_singleton. discriminate.
Qed.

Lemma id_takes_precedence_example :
  (@serve js (GET "/todo" [("title", "eggs"); ("id", "1700000000000-42")]) clock
     (on_disk (VArr [eggs; milk]))
   = @serve js (GET "/todo" [("id", "1700000000000-42")]) clock
       (on_disk (VArr [eggs; milk]))
   /\ @serve js (GET "/todo" [("title", "eggs"); ("id", "1700000000000-42")]) clock
        (on_disk (VArr [eggs; milk]))
      = ({| status := 200; payload := milk |}, on_disk (VArr [eggs; milk])))
  /\ (exists pre post t',
        [eggs; milk] = pre ++ milk :: post
        /\ Forall (fun u => has "id" (VStr "1700000000000-42") u = false) pre
        /\ set_prop milk "body" (VStr "2%") = Returned t'
        /\ @serve js (PATCH "/todos/update-todo"
                        [("title", "eggs"); ("id", "1700000000000-42")]
                        (show 0 body_payload)) clock (on_disk (VArr [eggs; milk]))
           = ({| status := 200; payload := t' |},
              {| document := Some (show 0 (VArr (pre ++ t' :: post)));
                 saved := [VArr (pre ++ t' :: post)] |}))
  /\ @serve js (DELETE "/todos/delete-todo"
                  [("title", "eggs"); ("id", "1700000000000-42")]) clock
       (on_disk (VArr [eggs; milk]))
     = (deleted, {| document := Some (show 0 (VArr [eggs])); saved := [VArr [eggs]] |}).
Proof.
  split; [|split].
  - destruct (@id_takes_precedence js
                (GET "/todo" [("title", "eggs"); ("id", "1700000000000-42")]) clock
                (on_disk (VArr [eggs; milk])) "1700000000000-42" eq_refl)
      as (Same & By_id & _); [discriminate|].
    split; [exact Same|].
    exact (By_id eq_refl eq_refl [eggs; milk] eq_refl records_eggs_milk).
  - destruct (@id_takes_precedence js
                (PATCH "/todos/update-todo"
                   [("title", "eggs"); ("id", "1700000000000-42")]
                   (show 0 body_payload)) clock
                (on_disk (VArr [eggs; milk])) "1700000000000-42" eq_refl)
      as (_ & _ & Upd & _); [discriminate|].
    refine (Upd (conj eq_refl eq_refl) body_payload (VStr "2%") [eggs; milk]
              eq_refl eq_refl _ eq_refl records_eggs_milk).
    discriminate.
  - destruct (@id_takes_precedence js
                (DELETE "/todos/delete-todo"
                   [("title", "eggs"); ("id", "1700000000000-42")]) clock
                (on_disk (VArr [eggs; milk])) "1700000000000-42" eq_refl)
      as (_ & _ & _ & Del); [discriminate|].
    apply (proj2 (Del (conj eq_refl eq_refl) [eggs; milk] eq_refl records_eggs_milk)).
    apply Exists_cons_tl. apply Exists_cons_hd. reflexivity.
Defined.

Lemma order_is_preserved_example :
  @position_after js session (on_disk (VArr [eggs; milk])) 1 = Some 0%nat
  /\ @position_after js session (on_disk (VArr [eggs; milk])) 0 = None
  /\ (exists todos',
        @readTodos js (@serve_all js session (on_disk (VArr [eggs; milk]))).2
        = (Returned (VArr todos'),
           (@serve_all js session (on_disk (VArr [eggs; milk]))).2)
        /\ exists t', todos' !! 0%nat = Some t' /\ same_record milk t')
  /\ (exists new,
        (@serve js patch_milk clock (on_disk (VArr [eggs; milk]))).2
        = {| document := Some (show 0 (VArr new)); saved := [VArr new] |}
        /\ change patch_milk [eggs; milk] new).
Proof.
  split; [reflexivity|]. split; [reflexivity|].
  destruct (@order_is_preserved js (on_disk (VArr [eggs; milk])) [eggs; milk] eq_refl)
    as [Step Run].
  split.
  - destruct (Run session [VArr [milk_2pc]; VArr [eggs; milk_2pc]] eq_refl)
      as (todos' & L' & Keep & _).
    { repeat constructor; intros w; reflexivity. }
    exists todos'. split; [exact L'|].
    apply (Keep 1%nat 0%nat milk eq_refl eq_refl).
  - destruct (Step patch_milk clock) as [Same|Changed]; [discriminate Same|].
    exact Changed.
Defined.

Lemma records_keep_their_fields_example :
  exists todos',
    @readTodos js (@serve_all js session (on_disk (VArr [eggs; milk]))).2
    = (Returned (VArr todos'),
       (@serve_all js session (on_disk (VArr [eggs; milk]))).2)
    /\ exists t',
         todos' !! 0%nat = Some t'
         /\ get_prop t' "id" = get_prop milk "id"
         /\ get_prop t' "title" = get_prop milk "title"
         /\ get_prop t' "createdAt" = get_prop milk "createdAt".
Proof.
  destruct (@records_keep_their_fields js session (on_disk (VArr [eggs; milk]))
              [eggs; milk] [VArr [milk_2pc]; VArr [eggs; milk_2pc]] eq_refl eq_refl)
    as (todos' & L' & Keep & _).
  { repeat constructor; intros w; reflexivity. }
  exists todos'. split; [exact L'|].
  destruct (Keep 1%nat 0%nat milk eq_refl eq_refl) as (t' & H' & _ & Id & Ti & Cr).
  exists t'. auto.
Defined.

End Examples.
